(** * LXC autoscaler: metrics window, decision engine and scaling executor

    A shallow embedding of the evaluation-and-scaling control loop of
    [lxc_autoscaler]:

    - [metrics/models.py]  : [ResourceMetrics], [ContainerMetrics],
                             [NodeMetrics], [ClusterMetrics];
    - [scaling/models.py]  : [ScalingDecision], [ScalingOperation],
                             [ScalingHistory];
    - [scaling/engine.py]  : [ScalingEngine].

    Conventions of the embedding.
    - Python [int] is [Z]; a Python [float] (percentages, wall-clock
      seconds) is the rational [Q] that a finite binary64 number denotes;
      infinities and NaN are not represented.  The sums, quotients and
      products behind the average of a window, the means of a snapshot and
      the success rates are rounded to binary64 ([b64_round]).  The other
      float arithmetic is taken exactly: the differences of wall-clock
      readings, [100 - usage] in the availability, and the percentages that
      [from_rrd_data] and [from_node_status] build from one reading; what is
      stated about them are order comparisons and bounds.
    - A Python [dict] keyed by vmid is a [gmap Z _].
    - [time.time()] reads the [clock] of the engine state, which moves on
      over an await; the models outside the engine take the reading as [now].
    - A Python exception is the [Raised] outcome; a coroutine that waits for
      ever is [Blocked]. *)

From Stdlib Require Import ZArith QArith Qround Qpower Lqa Lia List String Sorted.
From stdpp Require Import base option list gmap pretty.

Local Open Scope Z_scope.

(** ** Outcomes of calls that may raise *)

Inductive exn : Type :=
| ZeroDivisionError
| IndexError
| AttributeError (attr : string)
| ProxmoxAPIError (msg : string)
| MetricsCollectionError
| ScalingEngineError (cause : exn)
| CancelledError.

Inductive outcome (A : Type) : Type :=
| Returned (a : A)
| Raised (e : exn).
Arguments Returned {A} a.
Arguments Raised {A} e.

(** ** Python primitives used by the models *)

(** [l[start:]] *)
Definition py_slice_from {A} (start : Z) (l : list A) : list A :=
  let len := Z.of_nat (length l) in
  let s := if start <? 0 then Z.max (start + len) 0 else Z.min start len in
  drop (Z.to_nat s) l.

(** *** Float arithmetic

    A finite binary64 number is the rational it denotes.  An arithmetic
    operation on floats returns the exact result rounded to the nearest
    binary64 number, ties to the even significand. *)

Definition pow2 (e : Z) : Q := (2 ^ e)%Q.

(** The binary exponent of a positive rational:
    [2 ^ ilog2 x <= x < 2 ^ (ilog2 x + 1)]. *)
Definition ilog2 (x : Q) : Z :=
  let e := Z.log2 (Qnum x) - Z.log2 (Z.pos (Qden x)) in
  if Qle_bool (pow2 e) x then e else e - 1.

(** The nearest integer, a tie going to the even one. *)
Definition round_half_even (x : Q) : Z :=
  let f := Qfloor x in
  match (x - inject_Z f ?= 1 # 2)%Q with
  | Lt => f
  | Eq => if Z.even f then f else f + 1
  | Gt => f + 1
  end.

(** The exponent of the unit in the last place of a positive number: 53
    significant bits, and [2 ^ -1074] for the subnormal numbers. *)
Definition b64_exponent (x : Q) : Z := Z.max (ilog2 x - 52) (-1074).

Definition b64_nearest (x : Q) : Q :=
  let e := b64_exponent x in
  (inject_Z (round_half_even (x / pow2 e)) * pow2 e)%Q.

(** Rounding to binary64.  Results beyond the largest binary64 number,
    which the hardware turns into an infinity, are not represented. *)
Definition b64_round (x : Q) : Q :=
  match (x ?= 0)%Q with
  | Eq => 0%Q
  | Gt => Qred (b64_nearest x)
  | Lt => Qred (- b64_nearest (- x))
  end.

(** [x + y], [x * y] and [x / y] on floats: one rounding of the exact
    result.  An [int] operand met here (a length, a count, [100]) is a
    binary64 number itself, and [int / int] rounds the exact quotient
    once. *)
Definition fl_add (x y : Q) : Q := b64_round (x + y).
Definition fl_mul (x y : Q) : Q := b64_round (x * y).
Definition fl_div (x y : Q) : Q := b64_round (x / y).

(** [sum(xs)] on floats: the items are added from left to right to the
    start value [0], every addition being rounded (CPython 3.8 to 3.11; from
    3.12 on [sum] also carries a compensation term for floats). *)
Definition py_sum (xs : list Q) : Q := fold_left fl_add xs 0%Q.

(** [int(x)] on a float truncates towards zero. *)
Definition py_int (x : Q) : Z := Z.quot (Qnum x) (Z.pos (Qden x)).

Definition Qltb (x y : Q) : bool := negb (Qle_bool y x).
Definition Qgeb (x y : Q) : bool := Qle_bool y x.
Definition Qgtb (x y : Q) : bool := Qltb y x.

(** [max(0, x)]: Python keeps the first argument unless a later one is
    strictly greater. *)
Definition py_max0 (x : Q) : Q := if Qltb 0 x then x else 0%Q.

(** ** metrics/models.py *)

Record ResourceMetrics : Type := mkResourceMetrics {
  timestamp : Q;
  cpu_usage_percent : Q;
  memory_usage_percent : Q;
  memory_used_mb : Z;
  memory_total_mb : Z;
  cpu_cores : Z
}.

(** One point of the container time series; a key may be missing. *)
Record RrdPoint : Type := mkRrdPoint {
  rrd_time : option Q;
  rrd_cpu : option Q;
  rrd_mem : option Q;
  rrd_maxmem : option Q
}.

(** [ResourceMetrics.from_rrd_data]; [now] is the value of [time.time()],
    [cores] is [config.get('cores')]. *)
Definition from_rrd_data (now : Q) (rrd_point : RrdPoint) (cores : option Z)
  : ResourceMetrics :=
  let timestamp := default now (rrd_time rrd_point) in
  let cpu_usage := (default 0 (rrd_cpu rrd_point) * 100)%Q in
  let memory_used := py_int (default 0%Q (rrd_mem rrd_point)) in
  let memory_max := py_int (default 1%Q (rrd_maxmem rrd_point)) in
  let memory_used_mb := memory_used / (1024 * 1024) in
  let memory_total_mb := memory_max / (1024 * 1024) in
  let memory_usage_percent :=
    if 0 <? memory_max
    then (inject_Z memory_used / inject_Z memory_max * 100)%Q
    else 0%Q in
  {| timestamp := timestamp;
     cpu_usage_percent := cpu_usage;
     memory_usage_percent := memory_usage_percent;
     memory_used_mb := memory_used_mb;
     memory_total_mb := memory_total_mb;
     cpu_cores := default 1 cores |}.

Record ContainerMetrics : Type := mkContainerMetrics {
  cm_vmid : Z;
  cm_node : string;
  cm_name : string;
  cm_status : string;
  cm_uptime : Z;
  current_metrics : option ResourceMetrics;
  historical_metrics : list ResourceMetrics
}.

(** [ContainerMetrics.add_metrics] *)
Definition add_metrics (self : ContainerMetrics) (metrics : ResourceMetrics)
  : ContainerMetrics :=
  let appended := historical_metrics self ++ [metrics] in
  {| cm_vmid := cm_vmid self;
     cm_node := cm_node self;
     cm_name := cm_name self;
     cm_status := cm_status self;
     cm_uptime := cm_uptime self;
     current_metrics := Some metrics;
     historical_metrics :=
       if 100 <? Z.of_nat (length appended)
       then py_slice_from (-100) appended
       else appended |}.

(** [ContainerMetrics.get_average_metrics] *)
Definition get_average_metrics (self : ContainerMetrics) (periods : Z)
  : outcome (option ResourceMetrics) :=
  if Z.of_nat (length (historical_metrics self)) <? periods then Returned None
  else
    let recent_metrics := py_slice_from (- periods) (historical_metrics self) in
    let n := Z.of_nat (length recent_metrics) in
    if n =? 0 then Raised ZeroDivisionError
    else
      let avg_cpu :=
        fl_div (py_sum (map cpu_usage_percent recent_metrics)) (inject_Z n) in
      let avg_memory :=
        fl_div (py_sum (map memory_usage_percent recent_metrics)) (inject_Z n) in
      match last recent_metrics with
      | None => Raised IndexError
      | Some latest =>
          Returned (Some {| timestamp := timestamp latest;
                            cpu_usage_percent := avg_cpu;
                            memory_usage_percent := avg_memory;
                            memory_used_mb := memory_used_mb latest;
                            memory_total_mb := memory_total_mb latest;
                            cpu_cores := cpu_cores latest |})
      end.

(** A freshly tracked container, as the collector creates it. *)
Definition new_container_metrics (vmid : Z) (node name status : string) (uptime : Z)
  : ContainerMetrics :=
  {| cm_vmid := vmid; cm_node := node; cm_name := name; cm_status := status;
     cm_uptime := uptime; current_metrics := None; historical_metrics := [] |}.

(** The samples collected over successive ticks, appended in order. *)
Definition add_all (self : ContainerMetrics) (samples : list ResourceMetrics)
  : ContainerMetrics :=
  fold_left add_metrics samples self.

Record NodeMetrics : Type := mkNodeMetrics {
  node_name : string;
  node_cpu_usage_percent : Q;
  node_memory_usage_percent : Q;
  memory_used_gb : Q;
  memory_total_gb : Q;
  node_uptime : Z;
  load_average : list Q
}.

Record ClusterMetrics : Type := mkClusterMetrics {
  total_containers : Z;
  running_containers : Z;
  total_cpu_cores : Z;
  total_memory_gb : Q;
  avg_cpu_usage_percent : Q;
  avg_memory_usage_percent : Q;
  node_metrics : list NodeMetrics;
  cluster_container_metrics : list ContainerMetrics
}.

(** The two-entry dict returned by [get_resource_availability]. *)
Record Availability : Type := mkAvailability {
  cpu_available_percent : Q;
  memory_available_percent : Q
}.

(** [ClusterMetrics.get_resource_availability] *)
Definition get_resource_availability (self : ClusterMetrics) : Availability :=
  match node_metrics self with
  | [] => {| cpu_available_percent := 0; memory_available_percent := 0 |}
  | _ :: _ =>
      let avg_cpu_available := (100 - avg_cpu_usage_percent self)%Q in
      let avg_memory_available := (100 - avg_memory_usage_percent self)%Q in
      {| cpu_available_percent := py_max0 avg_cpu_available;
         memory_available_percent := py_max0 avg_memory_available |}
  end.

(** ** config/models.py *)

Record ScalingThresholds : Type := mkScalingThresholds {
  cpu_scale_up : Q;
  cpu_scale_down : Q;
  memory_scale_up : Q;
  memory_scale_down : Q
}.

Record ResourceLimits : Type := mkResourceLimits {
  min_cpu_cores : Z;
  max_cpu_cores : Z;
  min_memory_mb : Z;
  max_memory_mb : Z;
  cpu_step : Z;
  memory_step_mb : Z
}.

Record ContainerConfig : Type := mkContainerConfig {
  vmid : Z;
  enabled : bool;
  thresholds : ScalingThresholds;
  limits : ResourceLimits;
  cooldown_seconds : Z;
  evaluation_periods : Z
}.

Record SafetyConfig : Type := mkSafetyConfig {
  max_concurrent_operations : Z;
  max_cpu_usage_threshold : Q;
  max_memory_usage_threshold : Q;
  emergency_scale_down_threshold : Q;
  resource_check_interval : Z;
  enable_host_protection : bool
}.

Record AutoscalerConfig : Type := mkAutoscalerConfig {
  dry_run : bool;                       (* global_config.dry_run *)
  safety : SafetyConfig;
  containers : list ContainerConfig
}.

(** What the [__post_init__] validators accept. *)
Definition thresholds_valid (t : ScalingThresholds) : bool :=
  Qltb 0 (cpu_scale_up t) && Qle_bool (cpu_scale_up t) 100
  && Qltb 0 (cpu_scale_down t) && Qle_bool (cpu_scale_down t) 100
  && Qltb 0 (memory_scale_up t) && Qle_bool (memory_scale_up t) 100
  && Qltb 0 (memory_scale_down t) && Qle_bool (memory_scale_down t) 100
  && Qltb (cpu_scale_down t) (cpu_scale_up t)
  && Qltb (memory_scale_down t) (memory_scale_up t).

Definition limits_valid (l : ResourceLimits) : bool :=
  (min_cpu_cores l <? max_cpu_cores l)
  && (min_memory_mb l <? max_memory_mb l)
  && (0 <? cpu_step l)
  && (0 <? memory_step_mb l).

Definition container_config_valid (c : ContainerConfig) : bool :=
  thresholds_valid (thresholds c) && limits_valid (limits c)
  && (60 <=? cooldown_seconds c) && (1 <=? evaluation_periods c).

Definition safety_valid (s : SafetyConfig) : bool :=
  (1 <=? max_concurrent_operations s)
  && Qle_bool 50 (max_cpu_usage_threshold s) && Qle_bool (max_cpu_usage_threshold s) 100
  && Qle_bool 50 (max_memory_usage_threshold s) && Qle_bool (max_memory_usage_threshold s) 100.

(** ** scaling/models.py *)

Inductive ScalingAction : Type :=
| SCALE_UP_CPU
| SCALE_DOWN_CPU
| SCALE_UP_MEMORY
| SCALE_DOWN_MEMORY
| NO_ACTION.

(** The members of the [ScalingReason] enum, all ten of them. *)
Inductive ScalingReason : Type :=
| CPU_HIGH
| CPU_LOW
| MEMORY_HIGH
| MEMORY_LOW
| RESOURCE_LIMIT_REACHED
| INSUFFICIENT_DATA
| COOLDOWN_PERIOD
| CONTAINER_NOT_RUNNING
| SAFETY_THRESHOLD_EXCEEDED
| DRY_RUN_MODE.

Record ScalingDecision : Type := mkScalingDecision {
  d_vmid : Z;
  d_node : string;
  action : ScalingAction;
  reason : ScalingReason;
  current_cpu_cores : Z;
  current_memory_mb : Z;
  target_cpu_cores : option Z;
  target_memory_mb : option Z;
  current_cpu_usage : option Q;
  current_memory_usage : option Q;
  d_timestamp : Q
}.

Definition requires_scaling (self : ScalingDecision) : bool :=
  match action self with
  | NO_ACTION => false
  | _ => true
  end.

Record ScalingOperation : Type := mkScalingOperation {
  decision : ScalingDecision;
  started_at : Q;
  completed_at : option Q;
  success : option bool;
  error_message : option string
}.

Definition is_completed (self : ScalingOperation) : bool :=
  match completed_at self with
  | Some _ => true
  | None => false
  end.

(** [self.success is True] *)
Definition is_successful (self : ScalingOperation) : bool :=
  match success self with
  | Some true => true
  | _ => false
  end.

Definition complete_success (now : Q) (self : ScalingOperation) : ScalingOperation :=
  {| decision := decision self;
     started_at := started_at self;
     completed_at := Some now;
     success := Some true;
     error_message := error_message self |}.

Definition complete_failure (now : Q) (msg : string) (self : ScalingOperation)
  : ScalingOperation :=
  {| decision := decision self;
     started_at := started_at self;
     completed_at := Some now;
     success := Some false;
     error_message := Some msg |}.

Record ScalingHistory : Type := mkScalingHistory {
  h_vmid : Z;
  last_scaling_time : option Q;
  last_scaling_action : option ScalingAction;
  operation_count : Z;
  success_count : Z;
  failure_count : Z
}.

(** [ScalingHistory(vmid=vmid)] *)
Definition new_history (vmid : Z) : ScalingHistory :=
  {| h_vmid := vmid; last_scaling_time := None; last_scaling_action := None;
     operation_count := 0; success_count := 0; failure_count := 0 |}.

(** [ScalingHistory.record_operation] *)
Definition record_operation (self : ScalingHistory) (operation : ScalingOperation)
  : ScalingHistory :=
  if negb (is_completed operation) then self
  else
    {| h_vmid := h_vmid self;
       last_scaling_time := completed_at operation;
       last_scaling_action := Some (action (decision operation));
       operation_count := operation_count self + 1;
       success_count :=
         if is_successful operation then success_count self + 1 else success_count self;
       failure_count :=
         if is_successful operation then failure_count self else failure_count self + 1 |}.

(** [ScalingHistory.is_in_cooldown]; [now] is [time.time()]. *)
Definition is_in_cooldown (now : Q) (self : ScalingHistory) (cooldown : Z) : bool :=
  match last_scaling_time self with
  | None => false
  | Some t =>
      let time_since_last := (now - t)%Q in
      Qltb time_since_last (inject_Z cooldown)
  end.

(** [ScalingHistory.get_cooldown_remaining]; the clock is read twice, [now]
    by [is_in_cooldown] and [now'] for the subtraction.  The subtraction
    from a [None] timestamp is never reached: [is_in_cooldown] is false
    then. *)
Definition get_cooldown_remaining (now now' : Q) (self : ScalingHistory)
    (cooldown : Z) : Q :=
  if negb (is_in_cooldown now self cooldown) then 0%Q
  else
    match last_scaling_time self with
    | None => 0%Q
    | Some t =>
        let time_since_last := (now' - t)%Q in
        (inject_Z cooldown - time_since_last)%Q
    end.

(** Recording a batch of operations one after the other. *)
Definition record_all (self : ScalingHistory) (ops : list ScalingOperation)
  : ScalingHistory :=
  fold_left record_operation ops self.

(** ** scaling/engine.py *)

(** Arguments of one [client.resize_container] call. *)
Record ResizeCall : Type := mkResizeCall {
  rc_node : string;
  rc_vmid : Z;
  rc_cpu_cores : Z;
  rc_memory_mb : Z
}.

(** What the cluster answers to a resize, and how long the await took. *)
Record ResizeAnswer : Type := mkResizeAnswer {
  resize_outcome : outcome unit;
  resize_elapsed : Q
}.

(** The cluster behind [client.resize_container]: its answer may depend on
    every call it has received before. *)
Definition Gateway : Type := list ResizeCall -> ResizeCall -> ResizeAnswer.

(** The engine object together with what it shares with its collaborators:
    the collector's [container_metrics] dict, the free permits of
    [_operation_semaphore], the resize calls the client has received and
    the wall clock. *)
Record ScalingEngine : Type := mkScalingEngine {
  config : AutoscalerConfig;
  container_metrics : gmap Z ContainerMetrics;
  active_operations : gmap Z ScalingOperation;
  scaling_history : gmap Z ScalingHistory;
  operation_semaphore : Z;
  resize_calls : list ResizeCall;
  clock : Q
}.

(** [ScalingEngine.__init__] *)
Definition new_engine (cfg : AutoscalerConfig) (metrics : gmap Z ContainerMetrics)
    (now : Q) : ScalingEngine :=
  {| config := cfg;
     container_metrics := metrics;
     active_operations := ∅;
     scaling_history := ∅;
     operation_semaphore := max_concurrent_operations (safety cfg);
     resize_calls := [];
     clock := now |}.

Definition set_active (self : ScalingEngine) (m : gmap Z ScalingOperation) : ScalingEngine :=
  {| config := config self; container_metrics := container_metrics self;
     active_operations := m; scaling_history := scaling_history self;
     operation_semaphore := operation_semaphore self;
     resize_calls := resize_calls self; clock := clock self |}.

Definition set_history (self : ScalingEngine) (m : gmap Z ScalingHistory) : ScalingEngine :=
  {| config := config self; container_metrics := container_metrics self;
     active_operations := active_operations self; scaling_history := m;
     operation_semaphore := operation_semaphore self;
     resize_calls := resize_calls self; clock := clock self |}.

Definition set_semaphore (self : ScalingEngine) (permits : Z) : ScalingEngine :=
  {| config := config self; container_metrics := container_metrics self;
     active_operations := active_operations self;
     scaling_history := scaling_history self;
     operation_semaphore := permits;
     resize_calls := resize_calls self; clock := clock self |}.

Definition gateway_called (self : ScalingEngine) (call : ResizeCall) (elapsed : Q)
  : ScalingEngine :=
  {| config := config self; container_metrics := container_metrics self;
     active_operations := active_operations self;
     scaling_history := scaling_history self;
     operation_semaphore := operation_semaphore self;
     resize_calls := resize_calls self ++ [call];
     clock := (clock self + elapsed)%Q |}.

(** [ScalingEngine._check_cluster_safety]: the loop over the nodes. *)
Fixpoint nodes_within_thresholds (s : SafetyConfig) (nodes : list NodeMetrics) : bool :=
  match nodes with
  | [] => true
  | node :: rest =>
      if Qgtb (node_cpu_usage_percent node) (max_cpu_usage_threshold s) then false
      else if Qgtb (node_memory_usage_percent node) (max_memory_usage_threshold s) then false
      else nodes_within_thresholds s rest
  end.

(** [ScalingEngine._check_cluster_safety] *)
Definition _check_cluster_safety (cfg : AutoscalerConfig) (cluster_metrics : ClusterMetrics)
  : bool :=
  if negb (enable_host_protection (safety cfg)) then true
  else if negb (nodes_within_thresholds (safety cfg) (node_metrics cluster_metrics))
  then false
  else
    let availability := get_resource_availability cluster_metrics in
    if Qltb (cpu_available_percent availability) 10 then false
    else if Qltb (memory_available_percent availability) 10 then false
    else true.

(** The [ScalingDecision(...)] constructor call with its defaults; the
    [__post_init__] hook stamps it with the clock. *)
Definition no_action_decision (now : Q) (vmid : Z) (node : string) (r : ScalingReason)
    (cores mem : Z) (cpu_usage memory_usage : option Q) : ScalingDecision :=
  {| d_vmid := vmid; d_node := node; action := NO_ACTION; reason := r;
     current_cpu_cores := cores; current_memory_mb := mem;
     target_cpu_cores := None; target_memory_mb := None;
     current_cpu_usage := cpu_usage; current_memory_usage := memory_usage;
     d_timestamp := now |}.

Definition cpu_decision (now : Q) (vmid : Z) (node : string) (a : ScalingAction)
    (r : ScalingReason) (cores mem target : Z) (cpu_usage memory_usage : Q)
  : ScalingDecision :=
  {| d_vmid := vmid; d_node := node; action := a; reason := r;
     current_cpu_cores := cores; current_memory_mb := mem;
     target_cpu_cores := Some target; target_memory_mb := None;
     current_cpu_usage := Some cpu_usage; current_memory_usage := Some memory_usage;
     d_timestamp := now |}.

Definition memory_decision (now : Q) (vmid : Z) (node : string) (a : ScalingAction)
    (r : ScalingReason) (cores mem target : Z) (cpu_usage memory_usage : Q)
  : ScalingDecision :=
  {| d_vmid := vmid; d_node := node; action := a; reason := r;
     current_cpu_cores := cores; current_memory_mb := mem;
     target_cpu_cores := None; target_memory_mb := Some target;
     current_cpu_usage := Some cpu_usage; current_memory_usage := Some memory_usage;
     d_timestamp := now |}.

(** [ScalingEngine._make_scaling_decision].  The last [return] of the source
    reads [ScalingReason.NO_ACTION], which is not a member of the enum: the
    attribute lookup raises before any decision is built. *)
Definition _make_scaling_decision (now : Q) (container_config : ContainerConfig)
    (container_metrics : ContainerMetrics) (eval_metrics : ResourceMetrics)
    (cluster_metrics : ClusterMetrics) : outcome ScalingDecision :=
  let vmid := vmid container_config in
  let thresholds := thresholds container_config in
  let limits := limits container_config in
  let node := cm_node container_metrics in
  let current_cpu := cpu_cores eval_metrics in
  let current_memory := memory_total_mb eval_metrics in
  let cpu_usage := cpu_usage_percent eval_metrics in
  let memory_usage := memory_usage_percent eval_metrics in
  if Qgeb cpu_usage (cpu_scale_up thresholds) then
    let target_cpu := Z.min (current_cpu + cpu_step limits) (max_cpu_cores limits) in
    if current_cpu <? target_cpu
    then Returned (cpu_decision now vmid node SCALE_UP_CPU CPU_HIGH
                     current_cpu current_memory target_cpu cpu_usage memory_usage)
    else Returned (no_action_decision now vmid node RESOURCE_LIMIT_REACHED
                     current_cpu current_memory (Some cpu_usage) (Some memory_usage))
  else if Qgeb memory_usage (memory_scale_up thresholds) then
    let target_memory :=
      Z.min (current_memory + memory_step_mb limits) (max_memory_mb limits) in
    if current_memory <? target_memory
    then Returned (memory_decision now vmid node SCALE_UP_MEMORY MEMORY_HIGH
                     current_cpu current_memory target_memory cpu_usage memory_usage)
    else Returned (no_action_decision now vmid node RESOURCE_LIMIT_REACHED
                     current_cpu current_memory (Some cpu_usage) (Some memory_usage))
  else if Qle_bool cpu_usage (cpu_scale_down thresholds) then
    let target_cpu := Z.max (current_cpu - cpu_step limits) (min_cpu_cores limits) in
    if target_cpu <? current_cpu
    then Returned (cpu_decision now vmid node SCALE_DOWN_CPU CPU_LOW
                     current_cpu current_memory target_cpu cpu_usage memory_usage)
    else Returned (no_action_decision now vmid node RESOURCE_LIMIT_REACHED
                     current_cpu current_memory (Some cpu_usage) (Some memory_usage))
  else if Qle_bool memory_usage (memory_scale_down thresholds) then
    let target_memory :=
      Z.max (current_memory - memory_step_mb limits) (min_memory_mb limits) in
    if target_memory <? current_memory
    then Returned (memory_decision now vmid node SCALE_DOWN_MEMORY MEMORY_LOW
                     current_cpu current_memory target_memory cpu_usage memory_usage)
    else Returned (no_action_decision now vmid node RESOURCE_LIMIT_REACHED
                     current_cpu current_memory (Some cpu_usage) (Some memory_usage))
  else Raised (AttributeError "NO_ACTION").

(** [m.cpu_cores if m else 0] and [m.memory_total_mb if m else 0] *)
Definition cores_or_zero (m : option ResourceMetrics) : Z :=
  match m with Some r => cpu_cores r | None => 0 end.
Definition memory_or_zero (m : option ResourceMetrics) : Z :=
  match m with Some r => memory_total_mb r | None => 0 end.

(** [ScalingEngine._evaluate_container_scaling] *)
Definition _evaluate_container_scaling (self : ScalingEngine)
    (container_config : ContainerConfig) (cluster_metrics : ClusterMetrics)
  : outcome ScalingDecision :=
  let now := clock self in
  let vmid := vmid container_config in
  match container_metrics self !! vmid with
  | None =>
      Returned (no_action_decision now vmid "unknown" INSUFFICIENT_DATA 0 0 None None)
  | Some cm =>
      if negb (String.eqb (cm_status cm) "running") then
        Returned (no_action_decision now vmid (cm_node cm) CONTAINER_NOT_RUNNING
                    0 0 None None)
      else if bool_decide (is_Some (active_operations self !! vmid)) then
        Returned (no_action_decision now vmid (cm_node cm) COOLDOWN_PERIOD
                    (cores_or_zero (current_metrics cm))
                    (memory_or_zero (current_metrics cm)) None None)
      else
        let history := default (new_history vmid) (scaling_history self !! vmid) in
        if is_in_cooldown now history (cooldown_seconds container_config) then
          Returned (no_action_decision now vmid (cm_node cm) COOLDOWN_PERIOD
                      (cores_or_zero (current_metrics cm))
                      (memory_or_zero (current_metrics cm)) None None)
        else
          match get_average_metrics cm (evaluation_periods container_config) with
          | Raised e => Raised e
          | Returned None =>
              Returned (no_action_decision now vmid (cm_node cm) INSUFFICIENT_DATA
                          (cores_or_zero (current_metrics cm))
                          (memory_or_zero (current_metrics cm)) None None)
          | Returned (Some eval_metrics) =>
              _make_scaling_decision now container_config cm eval_metrics cluster_metrics
          end
  end.

(** [ScalingEngine._generate_scaling_decisions]: the loop over
    [config.containers]; an exception of one evaluation ends the loop. *)
Fixpoint generate_from (self : ScalingEngine) (cluster_metrics : ClusterMetrics)
    (cfgs : list ContainerConfig) : outcome (list ScalingDecision) :=
  match cfgs with
  | [] => Returned []
  | container_config :: rest =>
      if negb (enabled container_config) then generate_from self cluster_metrics rest
      else
        match _evaluate_container_scaling self container_config cluster_metrics with
        | Raised e => Raised e
        | Returned d =>
            match generate_from self cluster_metrics rest with
            | Raised e => Raised e
            | Returned ds => Returned (d :: ds)
            end
        end
  end.

Definition _generate_scaling_decisions (self : ScalingEngine)
    (cluster_metrics : ClusterMetrics) : outcome (list ScalingDecision) :=
  generate_from self cluster_metrics (containers (config self)).

(** How a coroutine of the engine ends: it finishes (returning or raising)
    or it waits for ever on the semaphore. *)
Inductive run (A : Type) : Type :=
| Finished (st : ScalingEngine) (r : outcome A)
| Blocked (st : ScalingEngine).
Arguments Finished {A} st r.
Arguments Blocked {A} st.

(** [except Exception] catches everything but a cancellation. *)
Definition is_Exception (e : exn) : bool :=
  match e with
  | CancelledError => false
  | _ => true
  end.

Fixpoint exn_str (e : exn) : string :=
  match e with
  | ZeroDivisionError => "division by zero"
  | IndexError => "list index out of range"
  | AttributeError attr => attr
  | ProxmoxAPIError msg => msg
  | MetricsCollectionError => "Metrics collection failed"
  | ScalingEngineError cause => "Scaling evaluation failed: " ++ exn_str cause
  | CancelledError => "cancelled"
  end.

(** [ScalingEngine._perform_scaling] *)
Definition _perform_scaling (gw : Gateway) (self : ScalingEngine)
    (decision : ScalingDecision) : ScalingEngine * outcome unit :=
  let cpu_cores := default (current_cpu_cores decision) (target_cpu_cores decision) in
  let memory_mb := default (current_memory_mb decision) (target_memory_mb decision) in
  let call := {| rc_node := d_node decision; rc_vmid := d_vmid decision;
                 rc_cpu_cores := cpu_cores; rc_memory_mb := memory_mb |} in
  let answer := gw (resize_calls self) call in
  (gateway_called self call (resize_elapsed answer), resize_outcome answer).

(** [ScalingEngine._execute_scaling_decision].  Next to its result the model
    returns the engine states the coroutine goes through, one per mutation,
    in order.  The operation object is shared between the local variable and
    the [active_operations] entry, so completing it shows in the dict. *)
Definition _execute_scaling_decision (gw : Gateway) (self : ScalingEngine)
    (decision : ScalingDecision) : list ScalingEngine * run bool :=
  if negb (requires_scaling decision) then ([], Finished self (Returned true))
  else if dry_run (config self) then ([], Finished self (Returned true))
  else
    let vmid := d_vmid decision in
    let operation :=
      {| decision := decision; started_at := clock self; completed_at := None;
         success := None; error_message := None |} in
    let s1 := set_active self (<[vmid := operation]> (active_operations self)) in
    (* async with self._operation_semaphore *)
    if operation_semaphore s1 <=? 0 then ([s1], Blocked s1)
    else
      let s2 := set_semaphore s1 (operation_semaphore s1 - 1) in
      let '(s3, performed) := _perform_scaling gw s2 decision in
      match performed with
      | Returned _ =>
          let completed := complete_success (clock s3) operation in
          let s4 := set_active s3 (<[vmid := completed]> (active_operations s3)) in
          let history := default (new_history vmid) (scaling_history s4 !! vmid) in
          let s5 :=
            set_history s4
              (<[vmid := record_operation history completed]> (scaling_history s4)) in
          let s6 := set_semaphore s5 (operation_semaphore s5 + 1) in
          let s7 := set_active s6 (delete vmid (active_operations s6)) in
          ([s1; s2; s3; s4; s5; s6; s7], Finished s7 (Returned true))
      | Raised e =>
          let s4 := set_semaphore s3 (operation_semaphore s3 + 1) in
          if is_Exception e then
            let error_msg := ("Scaling operation failed: " ++ exn_str e)%string in
            let failed := complete_failure (clock s4) error_msg operation in
            let s5 := set_active s4 (<[vmid := failed]> (active_operations s4)) in
            let history := default (new_history vmid) (scaling_history s5 !! vmid) in
            let s6 :=
              set_history s5
                (<[vmid := record_operation history failed]> (scaling_history s5)) in
            let s7 := set_active s6 (delete vmid (active_operations s6)) in
            ([s1; s2; s3; s4; s5; s6; s7], Finished s7 (Returned false))
          else
            let s5 := set_active s4 (delete vmid (active_operations s4)) in
            ([s1; s2; s3; s4; s5], Finished s5 (Raised e))
      end.

(** The [for decision in decisions] loop of [evaluate_and_scale]. *)
Fixpoint execute_all (gw : Gateway) (self : ScalingEngine)
    (decisions executed_decisions : list ScalingDecision)
  : list ScalingEngine * run (list ScalingDecision) :=
  match decisions with
  | [] => ([], Finished self (Returned executed_decisions))
  | decision :: rest =>
      if requires_scaling decision then
        match _execute_scaling_decision gw self decision with
        | (states, Finished st (Returned ok)) =>
            let '(states', r) :=
              execute_all gw st rest
                (if ok then executed_decisions ++ [decision] else executed_decisions) in
            (states ++ states', r)
        | (states, Finished st (Raised e)) => (states, Finished st (Raised e))
        | (states, Blocked st) => (states, Blocked st)
        end
      else execute_all gw self rest (executed_decisions ++ [decision])
  end.

(** What [metrics_collector.collect_all_metrics()] leaves behind: the
    collector's container dict, the cluster snapshot (or the exception) and
    the time the collection took. *)
Record Collected : Type := mkCollected {
  collected_containers : gmap Z ContainerMetrics;
  collected_cluster : outcome ClusterMetrics;
  collect_elapsed : Q
}.

Definition after_collect (self : ScalingEngine) (c : Collected) : ScalingEngine :=
  {| config := config self; container_metrics := collected_containers c;
     active_operations := active_operations self;
     scaling_history := scaling_history self;
     operation_semaphore := operation_semaphore self;
     resize_calls := resize_calls self;
     clock := (clock self + collect_elapsed c)%Q |}.

(** The [except Exception] clause of [evaluate_and_scale]. *)
Definition wrap_engine_error {A} (r : run A) : run A :=
  match r with
  | Finished st (Raised e) =>
      if is_Exception e then Finished st (Raised (ScalingEngineError e)) else r
  | _ => r
  end.

(** [ScalingEngine.evaluate_and_scale], one tick; the states it goes
    through come with the result. *)
Definition evaluate_and_scale (gw : Gateway) (c : Collected) (self : ScalingEngine)
  : list ScalingEngine * run (list ScalingDecision) :=
  let s0 := after_collect self c in
  match collected_cluster c with
  | Raised e => ([s0], wrap_engine_error (Finished s0 (Raised e)))
  | Returned cluster_metrics =>
      if negb (_check_cluster_safety (config s0) cluster_metrics)
      then ([s0], Finished s0 (Returned []))
      else
        match _generate_scaling_decisions s0 cluster_metrics with
        | Raised e => ([s0], wrap_engine_error (Finished s0 (Raised e)))
        | Returned decisions =>
            let '(states, r) := execute_all gw s0 decisions [] in
            (s0 :: states, wrap_engine_error r)
        end
  end.

(** [AutoscalerDaemon._main_loop]: one [evaluate_and_scale] per tick, one
    after the other; an [Exception] fails the cycle only. *)
Fixpoint main_loop (gw : Gateway) (ticks : list Collected) (self : ScalingEngine)
  : list ScalingEngine :=
  match ticks with
  | [] => []
  | c :: rest =>
      match evaluate_and_scale gw c self with
      | (states, Finished st (Returned _)) => states ++ main_loop gw rest st
      | (states, Finished st (Raised e)) =>
          if is_Exception e then states ++ main_loop gw rest st else states
      | (states, Blocked _) => states
      end
  end.

(** Every state the engine is in while the daemon runs [ticks]. *)
Definition instants (gw : Gateway) (cfg : AutoscalerConfig) (now : Q)
    (ticks : list Collected) : list ScalingEngine :=
  let start := new_engine cfg ∅ now in
  start :: main_loop gw ticks start.

(** ** Notions used to state the properties *)

(** The last [n] elements of a list. *)
Definition keep_last {A} (n : nat) (l : list A) : list A :=
  drop (length l - n) l.

Definition timestamp_le (a b : ResourceMetrics) : Prop :=
  (timestamp a <= timestamp b)%Q.

(** Each sample is at least as recent as the one before it. *)
Definition timestamps_nondecreasing (l : list ResourceMetrics) : Prop :=
  Sorted timestamp_le l.

(** The sum and the arithmetic mean of a list of rationals. *)
Definition Qsum (xs : list Q) : Q := fold_right Qplus 0%Q xs.

(** The arithmetic mean as binary64 arithmetic computes it: the items are
    added one after the other, every sum rounded, and the last sum is
    divided by the number of items, the quotient rounded. *)
Definition float_mean (xs : list Q) : Q :=
  b64_round
    (fold_left (fun acc x => b64_round (acc + x)%Q) xs 0%Q
     / inject_Z (Z.of_nat (length xs)))%Q.



(** The shape of a decision: no target without an action, and exactly the
    target of the resource an action is about. *)
Definition decision_shape (d : ScalingDecision) : Prop :=
  match action d with
  | NO_ACTION => target_cpu_cores d = None /\ target_memory_mb d = None
  | SCALE_UP_CPU | SCALE_DOWN_CPU =>
      is_Some (target_cpu_cores d) /\ target_memory_mb d = None
  | SCALE_UP_MEMORY | SCALE_DOWN_MEMORY =>
      target_cpu_cores d = None /\ is_Some (target_memory_mb d)
  end.

(** The call returns a decision with this action, reason and targets. *)
Definition emits (out : outcome ScalingDecision) (a : ScalingAction)
    (r : ScalingReason) (cores mem : option Z) : Prop :=
  exists d, out = Returned d /\ action d = a /\ reason d = r /\
            target_cpu_cores d = cores /\ target_memory_mb d = mem.

(** The history of [vmid] holds a completed operation less than
    [cooldown_seconds] old. *)
Definition within_cooldown (self : ScalingEngine) (cfg : ContainerConfig) : Prop :=
  exists h t,
    scaling_history self !! vmid cfg = Some h /\
    last_scaling_time h = Some t /\
    (clock self - t < inject_Z (cooldown_seconds cfg))%Q.

(** Some node is over one of the two host thresholds. *)
Definition node_under_stress (s : SafetyConfig) (cluster : ClusterMetrics) : Prop :=
  exists node, In node (node_metrics cluster) /\
    ((max_cpu_usage_threshold s < node_cpu_usage_percent node)%Q \/
     (max_memory_usage_threshold s < node_memory_usage_percent node)%Q).

(** Between two executions: nothing registered and every permit free. *)
Definition quiescent (cfg : AutoscalerConfig) (st : ScalingEngine) : Prop :=
  config st = cfg /\ active_operations st = ∅ /\
  operation_semaphore st = max_concurrent_operations (safety cfg).

Definition at_most_one_active (cfg : AutoscalerConfig) (st : ScalingEngine) : Prop :=
  config st = cfg /\ (size (active_operations st) <= 1)%nat.

(** ** Sample inputs *)

(** The first sample has no [time] key and is stamped with the wall clock
    (1000 s); thirty seconds later the series ends in a point stamped 980 s. *)
Definition rrd_without_time : RrdPoint :=
  {| rrd_time := None; rrd_cpu := Some (1 # 2)%Q;
     rrd_mem := Some 1073741824%Q; rrd_maxmem := Some 2147483648%Q |}.
Definition rrd_lagging : RrdPoint :=
  {| rrd_time := Some 980%Q; rrd_cpu := Some (1 # 2)%Q;
     rrd_mem := Some 1073741824%Q; rrd_maxmem := Some 2147483648%Q |}.

(** Scenario S1: three samples at 82, 85 and 83 percent CPU on two cores. *)
Definition s1_sample (t cpu mem : Q) (cores : Z) : ResourceMetrics :=
  {| timestamp := t; cpu_usage_percent := cpu; memory_usage_percent := mem;
     memory_used_mb := 1024; memory_total_mb := 2048; cpu_cores := cores |}.

Definition s1_samples : list ResourceMetrics :=
  [s1_sample 1000 82 50 2; s1_sample 1060 85 50 2; s1_sample 1120 83 50 2].

Definition s1_container : ContainerMetrics :=
  add_all (new_container_metrics 101 "pve" "ct-101" "running" 3600) s1_samples.

(** The policy of scenarios S1, S2 and S6. *)
Definition s1_policy : ContainerConfig :=
  {| vmid := 101; enabled := true;
     thresholds := {| cpu_scale_up := 80; cpu_scale_down := 30;
                      memory_scale_up := 85; memory_scale_down := 40 |};
     limits := {| min_cpu_cores := 1; max_cpu_cores := 4;
                  min_memory_mb := 512; max_memory_mb := 8192;
                  cpu_step := 1; memory_step_mb := 256 |};
     cooldown_seconds := 300; evaluation_periods := 3 |}.

Definition empty_cluster : ClusterMetrics :=
  {| total_containers := 0; running_containers := 0; total_cpu_cores := 0;
     total_memory_gb := 0; avg_cpu_usage_percent := 0;
     avg_memory_usage_percent := 0; node_metrics := [];
     cluster_container_metrics := [] |}.

Definition completed_ok (d : ScalingDecision) (t : Q) : ScalingOperation :=
  complete_success t
    {| decision := d; started_at := t; completed_at := None; success := None;
       error_message := None |}.

Definition completed_failed (d : ScalingDecision) (t : Q) : ScalingOperation :=
  complete_failure t "timeout"
    {| decision := d; started_at := t; completed_at := None; success := None;
       error_message := None |}.

Definition s1_decision : ScalingDecision :=
  cpu_decision 1120 101 "pve" SCALE_UP_CPU CPU_HIGH 2 2048 3 (250 # 3) 50.

Definition default_safety : SafetyConfig :=
  {| max_concurrent_operations := 3; max_cpu_usage_threshold := 95;
     max_memory_usage_threshold := 95; emergency_scale_down_threshold := 98;
     resource_check_interval := 30; enable_host_protection := true |}.

Definition s1_config : AutoscalerConfig :=
  {| dry_run := false; safety := default_safety; containers := [s1_policy] |}.

(** The engine of scenario S1 once the three samples are collected. *)
Definition s1_engine : ScalingEngine :=
  new_engine s1_config {[ 101 := s1_container ]} 1120.

Definition node_at (name : string) (cpu mem : Q) : NodeMetrics :=
  {| node_name := name; node_cpu_usage_percent := cpu;
     node_memory_usage_percent := mem; memory_used_gb := 8; memory_total_gb := 16;
     node_uptime := 86400; load_average := [1; 1; 1]%Q |}.

(** One healthy node. *)
Definition s1_cluster : ClusterMetrics :=
  {| total_containers := 1; running_containers := 1; total_cpu_cores := 3;
     total_memory_gb := 16; avg_cpu_usage_percent := 40;
     avg_memory_usage_percent := 50; node_metrics := [node_at "pve" 40 50];
     cluster_container_metrics := [s1_container] |}.

(** Scenario S5: one node at 97 percent CPU. *)
Definition s5_cluster : ClusterMetrics :=
  {| total_containers := 1; running_containers := 1; total_cpu_cores := 3;
     total_memory_gb := 16; avg_cpu_usage_percent := 97;
     avg_memory_usage_percent := 50; node_metrics := [node_at "pve" 97 50];
     cluster_container_metrics := [s1_container] |}.

Definition collected (cluster : ClusterMetrics) : Collected :=
  {| collected_containers := {[ 101 := s1_container ]};
     collected_cluster := Returned cluster; collect_elapsed := 1 # 2 |}.

(** A cluster that accepts every resize within a second. *)
Definition obliging_gateway : Gateway :=
  fun _ _ => {| resize_outcome := Returned tt; resize_elapsed := 1 |}.

(** Two ticks of scenario S1 against the obliging cluster, and the state in
    which the scale-up of container 101 has just been registered. *)
Definition s1_instants : list ScalingEngine :=
  instants obliging_gateway s1_config 1000 [collected s1_cluster; collected s1_cluster].

Definition s1_registered : ScalingEngine :=
  nth 2 s1_instants (new_engine s1_config ∅ 1000).

(** The same container idling at 50 percent CPU and memory. *)
Definition idle_container : ContainerMetrics :=
  add_all (new_container_metrics 101 "pve" "ct-101" "running" 3600)
    [s1_sample 1000 50 50 2; s1_sample 1060 50 50 2; s1_sample 1120 50 50 2].

Definition idle_collected : Collected :=
  {| collected_containers := {[ 101 := idle_container ]};
     collected_cluster := Returned s1_cluster; collect_elapsed := 1 # 2 |}.

(** ** Further models *)

(** Exceptions of the configuration layer and of the builtins. *)
Inductive py_error : Type :=
| ValueError (msg : string)
| ConfigurationError (msg : string).

Inductive result (A : Type) : Type :=
| Ok (a : A)
| Fail (e : py_error).
Arguments Ok {A} a.
Arguments Fail {A} e.

(** *** scaling/models.py, the remaining properties *)

(** [ScalingDecision.cpu_change] *)
Definition cpu_change (self : ScalingDecision) : Z :=
  match target_cpu_cores self with
  | None => 0
  | Some target => target - current_cpu_cores self
  end.

(** [ScalingDecision.memory_change_mb] *)
Definition memory_change_mb (self : ScalingDecision) : Z :=
  match target_memory_mb self with
  | None => 0
  | Some target => target - current_memory_mb self
  end.

(** [ScalingHistory.success_rate] *)
Definition success_rate (self : ScalingHistory) : Q :=
  if operation_count self =? 0 then 0%Q
  else fl_mul (fl_div (inject_Z (success_count self))
                      (inject_Z (operation_count self))) 100.

(** *** api/proxmox_client.py *)

(** [ProxmoxClient.resize_container], up to the request it hands to
    [update_container_config]: the keyword arguments, in insertion order. *)
Definition resize_container (cpu_cores memory_mb : option Z)
  : result (list (string * Z)) :=
  let config_updates : list (string * Z) := [] in
  let config_updates :=
    match cpu_cores with
    | Some c => config_updates ++ [("cores"%string, c)]
    | None => config_updates
    end in
  let config_updates :=
    match memory_mb with
    | Some m => config_updates ++ [("memory"%string, m)]
    | None => config_updates
    end in
  match config_updates with
  | [] => Fail (ValueError "At least one resource parameter must be specified")
  | _ :: _ => Ok config_updates
  end.

(** The call [_perform_scaling] makes for a decision. *)
Definition resize_call_of (decision : ScalingDecision) : ResizeCall :=
  {| rc_node := d_node decision; rc_vmid := d_vmid decision;
     rc_cpu_cores := default (current_cpu_cores decision) (target_cpu_cores decision);
     rc_memory_mb := default (current_memory_mb decision) (target_memory_mb decision) |}.

(** *** Further sample inputs *)

Definition s1_dry_config : AutoscalerConfig :=
  {| dry_run := true; safety := default_safety; containers := [s1_policy] |}.

Definition s1_dry_engine : ScalingEngine :=
  new_engine s1_dry_config {[ 101 := s1_container ]} 1120.

(** Container 102, idle between its thresholds, listed before container 101. *)
Definition idle_policy : ContainerConfig :=
  {| vmid := 102; enabled := true; thresholds := thresholds s1_policy;
     limits := limits s1_policy; cooldown_seconds := 300; evaluation_periods := 3 |}.

Definition idle_102 : ContainerMetrics :=
  add_all (new_container_metrics 102 "pve" "ct-102" "running" 3600)
    [s1_sample 1000 50 50 2; s1_sample 1060 50 50 2; s1_sample 1120 50 50 2].

Definition two_containers_config : AutoscalerConfig :=
  {| dry_run := false; safety := default_safety;
     containers := [idle_policy; s1_policy] |}.

Definition two_containers_collected : Collected :=
  {| collected_containers := {[ 101 := s1_container; 102 := idle_102 ]};
     collected_cluster := Returned s1_cluster; collect_elapsed := 1 # 2 |}.

Definition two_containers_engine : ScalingEngine :=
  new_engine two_containers_config ∅ 1119.

(** A cluster that fails every resize. *)
Definition failing_gateway : Gateway :=
  fun _ _ => {| resize_outcome := Raised (ProxmoxAPIError "timeout");
                resize_elapsed := 30 |}.

(** The state a tick of scenario S1 ends in when the cluster fails the resize. *)
Definition failed_tick_state : ScalingEngine :=
  List.last (fst (evaluate_and_scale failing_gateway (collected s1_cluster) s1_engine))
    s1_engine.

(** The decisions generated in scenario S1. *)
Definition s1_generated : list ScalingDecision :=
  match _generate_scaling_decisions
          (after_collect s1_engine (collected s1_cluster)) s1_cluster with
  | Returned ds => ds
  | Raised _ => []
  end.

(** *** Further notions *)

Definition not_scaling (d : ScalingDecision) : bool := negb (requires_scaling d).

(** What a cycle is to return for [decisions] once [calls] have been sent to
    the cluster: every decision that requires no scaling, and every scaling
    decision whose resize the cluster accepts; each resize, accepted or not,
    is one more call the cluster has seen. *)
Fixpoint kept_decisions (gw : Gateway) (calls : list ResizeCall)
    (decisions : list ScalingDecision) : list ScalingDecision :=
  match decisions with
  | [] => []
  | d :: rest =>
      if requires_scaling d then
        match resize_outcome (gw calls (resize_call_of d)) with
        | Returned _ => d :: kept_decisions gw (calls ++ [resize_call_of d]) rest
        | Raised _ => kept_decisions gw (calls ++ [resize_call_of d]) rest
        end
      else d :: kept_decisions gw calls rest
  end.

(** *** metrics/models.py, the remaining views and constructors *)

(** [max(x, *rest)] on floats: the first maximal item wins. *)
Definition max_from (x : Q) (rest : list Q) : Q :=
  fold_left (fun best y => if Qltb best y then y else best) rest x.

(** [ContainerMetrics.get_peak_metrics]; on an empty window [max()] raises. *)
Definition get_peak_metrics (self : ContainerMetrics) (periods : Z)
  : result (option ResourceMetrics) :=
  if Z.of_nat (length (historical_metrics self)) <? periods then Ok None
  else
    let recent_metrics := py_slice_from (- periods) (historical_metrics self) in
    match recent_metrics with
    | [] => Fail (ValueError "max() arg is an empty sequence")
    | first :: others =>
        let peak_cpu :=
          max_from (cpu_usage_percent first) (map cpu_usage_percent others) in
        let peak_memory :=
          max_from (memory_usage_percent first) (map memory_usage_percent others) in
        let latest := List.last others first in
        Ok (Some {| timestamp := timestamp latest;
                    cpu_usage_percent := peak_cpu;
                    memory_usage_percent := peak_memory;
                    memory_used_mb := memory_used_mb latest;
                    memory_total_mb := memory_total_mb latest;
                    cpu_cores := cpu_cores latest |})
    end.



(** *** metrics/collector.py *)

(** [sum(...)] on ints. *)
Definition py_sum_int (xs : list Z) : Z := fold_left Z.add xs 0.

(** [MetricsCollector._build_cluster_metrics] on the values of the two
    dicts, in dict order. *)
Definition _build_cluster_metrics (container_list : list ContainerMetrics)
    (node_list : list NodeMetrics) : ClusterMetrics :=
  let total_containers := Z.of_nat (length container_list) in
  let running_containers :=
    py_sum_int
      (map (fun _ => 1)
         (List.filter (fun c => String.eqb (cm_status c) "running") container_list)) in
  match node_list with
  | _ :: _ =>
      let total_cpu_cores :=
        py_sum_int
          (map (fun n => match load_average n with
                         | [] => 1
                         | _ :: _ => Z.of_nat (length (load_average n))
                         end) node_list) in
      let total_memory_gb := py_sum (map memory_total_gb node_list) in
      let n := inject_Z (Z.of_nat (length node_list)) in
      {| total_containers := total_containers;
         running_containers := running_containers;
         total_cpu_cores := total_cpu_cores;
         total_memory_gb := total_memory_gb;
         avg_cpu_usage_percent :=
           fl_div (py_sum (map node_cpu_usage_percent node_list)) n;
         avg_memory_usage_percent :=
           fl_div (py_sum (map node_memory_usage_percent node_list)) n;
         node_metrics := node_list;
         cluster_container_metrics := container_list |}
  | [] =>
      {| total_containers := total_containers;
         running_containers := running_containers;
         total_cpu_cores := 0;
         total_memory_gb := 0;
         avg_cpu_usage_percent := 0;
         avg_memory_usage_percent := 0;
         node_metrics := node_list;
         cluster_container_metrics := container_list |}
  end.



(** Two nodes at 92 percent CPU, under the 95 percent host threshold. *)
Definition busy_nodes : list NodeMetrics :=
  [node_at "pve1" 92 50; node_at "pve2" 92 50].


(** The binary64 number nearest to 0.1, and a container that reports it
    three times. *)
Definition one_tenth : Q := 3602879701896397 # 36028797018963968.

Definition tenth_container : ContainerMetrics :=
  add_all (new_container_metrics 103 "pve" "ct-103" "running" 3600)
    [s1_sample 1000 one_tenth 50 2; s1_sample 1060 one_tenth 50 2;
     s1_sample 1120 one_tenth 50 2].

(** *** config/models.py: the container list of [AutoscalerConfig] *)

(** The [__eq__] a dataclass generates: field by field. *)
Definition thresholds_eqb (a b : ScalingThresholds) : bool :=
  Qeq_bool (cpu_scale_up a) (cpu_scale_up b)
  && Qeq_bool (cpu_scale_down a) (cpu_scale_down b)
  && Qeq_bool (memory_scale_up a) (memory_scale_up b)
  && Qeq_bool (memory_scale_down a) (memory_scale_down b).

Definition limits_eqb (a b : ResourceLimits) : bool :=
  (min_cpu_cores a =? min_cpu_cores b)
  && (max_cpu_cores a =? max_cpu_cores b)
  && (min_memory_mb a =? min_memory_mb b)
  && (max_memory_mb a =? max_memory_mb b)
  && (cpu_step a =? cpu_step b)
  && (memory_step_mb a =? memory_step_mb b).

Definition container_config_eqb (a b : ContainerConfig) : bool :=
  (vmid a =? vmid b)
  && Bool.eqb (enabled a) (enabled b)
  && thresholds_eqb (thresholds a) (thresholds b)
  && limits_eqb (limits a) (limits b)
  && (cooldown_seconds a =? cooldown_seconds b)
  && (evaluation_periods a =? evaluation_periods b).

(** [list.index(x)]: the position of the first item equal to [x]. *)
Fixpoint py_index (x : ContainerConfig) (l : list ContainerConfig) : option nat :=
  match l with
  | [] => None
  | y :: rest =>
      if container_config_eqb y x then Some 0%nat
      else match py_index x rest with
           | Some i => Some (S i)
           | None => None
           end
  end.

(** [list.remove(x)]: the list without the first item equal to [x]. *)
Fixpoint py_remove (x : ContainerConfig) (l : list ContainerConfig)
  : option (list ContainerConfig) :=
  match l with
  | [] => None
  | y :: rest =>
      if container_config_eqb y x then Some rest
      else match py_remove x rest with
           | Some rest' => Some (y :: rest')
           | None => None
           end
  end.

Definition set_containers (self : AutoscalerConfig) (l : list ContainerConfig)
  : AutoscalerConfig :=
  {| dry_run := dry_run self; safety := safety self; containers := l |}.

(** [AutoscalerConfig.get_container_config] *)
Definition get_container_config (self : AutoscalerConfig) (v : Z)
  : option ContainerConfig :=
  List.find (fun container => vmid container =? v) (containers self).

(** [AutoscalerConfig.add_container] *)
Definition add_container (self : AutoscalerConfig) (container : ContainerConfig)
  : result AutoscalerConfig :=
  match get_container_config self (vmid container) with
  | Some existing =>
      match py_index existing (containers self) with
      | Some idx => Ok (set_containers self (<[idx := container]> (containers self)))
      | None => Fail (ValueError "is not in list")
      end
  | None => Ok (set_containers self (containers self ++ [container]))
  end.

(** [AutoscalerConfig.remove_container] *)
Definition remove_container (self : AutoscalerConfig) (v : Z)
  : result (AutoscalerConfig * bool) :=
  match get_container_config self v with
  | Some container =>
      match py_remove container (containers self) with
      | Some rest => Ok (set_containers self rest, true)
      | None => Fail (ValueError "list.remove(x): x not in list")
      end
  | None => Ok (self, false)
  end.

(** *** config/models.py and config/manager.py: building a container policy *)

(** [ScalingThresholds()] and [ResourceLimits()] *)
Definition class_default_thresholds : ScalingThresholds :=
  {| cpu_scale_up := 80; cpu_scale_down := 30;
     memory_scale_up := 85; memory_scale_down := 40 |}.

Definition class_default_limits : ResourceLimits :=
  {| min_cpu_cores := 1; max_cpu_cores := 8; min_memory_mb := 512;
     max_memory_mb := 8192; cpu_step := 1; memory_step_mb := 256 |}.

(** [ScalingThresholds.__post_init__] *)
Definition ScalingThresholds_init (self : ScalingThresholds) : result ScalingThresholds :=
  if negb (Qltb 0 (cpu_scale_up self) && Qle_bool (cpu_scale_up self) 100)
  then Fail (ValueError "CPU scale up threshold must be between 0 and 100")
  else if negb (Qltb 0 (cpu_scale_down self) && Qle_bool (cpu_scale_down self) 100)
  then Fail (ValueError "CPU scale down threshold must be between 0 and 100")
  else if negb (Qltb 0 (memory_scale_up self) && Qle_bool (memory_scale_up self) 100)
  then Fail (ValueError "Memory scale up threshold must be between 0 and 100")
  else if negb (Qltb 0 (memory_scale_down self) && Qle_bool (memory_scale_down self) 100)
  then Fail (ValueError "Memory scale down threshold must be between 0 and 100")
  else if Qle_bool (cpu_scale_up self) (cpu_scale_down self)
  then Fail (ValueError
               "CPU scale up threshold must be greater than scale down threshold")
  else if Qle_bool (memory_scale_up self) (memory_scale_down self)
  then Fail (ValueError
               "Memory scale up threshold must be greater than scale down threshold")
  else Ok self.

(** [ResourceLimits.__post_init__] *)
Definition ResourceLimits_init (self : ResourceLimits) : result ResourceLimits :=
  if max_cpu_cores self <=? min_cpu_cores self
  then Fail (ValueError "Min CPU cores must be less than max CPU cores")
  else if max_memory_mb self <=? min_memory_mb self
  then Fail (ValueError "Min memory must be less than max memory")
  else if cpu_step self <=? 0
  then Fail (ValueError "CPU step must be positive")
  else if memory_step_mb self <=? 0
  then Fail (ValueError "Memory step must be positive")
  else Ok self.

(** [ContainerConfig(...)] with its [__post_init__] *)
Definition ContainerConfig_init (v : Z) (on : bool)
    (thresholds : option ScalingThresholds) (limits : option ResourceLimits)
    (cooldown periods : Z) : result ContainerConfig :=
  match (match thresholds with
         | None => ScalingThresholds_init class_default_thresholds
         | Some t => Ok t
         end) with
  | Fail e => Fail e
  | Ok t =>
      match (match limits with
             | None => ResourceLimits_init class_default_limits
             | Some l => Ok l
             end) with
      | Fail e => Fail e
      | Ok l =>
          if cooldown <? 60
          then Fail (ValueError "Cooldown period must be at least 60 seconds")
          else if periods <? 1
          then Fail (ValueError "Evaluation periods must be at least 1")
          else Ok {| vmid := v; enabled := on; thresholds := t; limits := l;
                     cooldown_seconds := cooldown; evaluation_periods := periods |}
      end
  end.

(** One entry of [containers] in the configuration document, with the keys
    the parser reads; each may be missing. *)
Record ThresholdsData : Type := mkThresholdsData {
  td_cpu_scale_up : option Q;
  td_cpu_scale_down : option Q;
  td_memory_scale_up : option Q;
  td_memory_scale_down : option Q
}.

Record LimitsData : Type := mkLimitsData {
  ld_min_cpu_cores : option Z;
  ld_max_cpu_cores : option Z;
  ld_min_memory_mb : option Z;
  ld_max_memory_mb : option Z;
  ld_cpu_step : option Z;
  ld_memory_step_mb : option Z
}.

Record ContainerData : Type := mkContainerData {
  cd_vmid : option Z;
  cd_enabled : option bool;
  cd_thresholds : option ThresholdsData;
  cd_limits : option LimitsData;
  cd_cooldown_seconds : option Z;
  cd_evaluation_periods : option Z
}.

(** [ConfigManager._parse_container_config] *)
Definition _parse_container_config (container_data : ContainerData)
    (default_thresholds : ScalingThresholds) (default_limits : ResourceLimits)
  : result ContainerConfig :=
  match cd_vmid container_data with
  | None => Fail (ConfigurationError "Container configuration must include 'vmid'")
  | Some v =>
      match (match cd_thresholds container_data with
             | None => Ok None
             | Some thresholds_data =>
                 match ScalingThresholds_init
                         {| cpu_scale_up :=
                              default (cpu_scale_up default_thresholds)
                                (td_cpu_scale_up thresholds_data);
                            cpu_scale_down :=
                              default (cpu_scale_down default_thresholds)
                                (td_cpu_scale_down thresholds_data);
                            memory_scale_up :=
                              default (memory_scale_up default_thresholds)
                                (td_memory_scale_up thresholds_data);
                            memory_scale_down :=
                              default (memory_scale_down default_thresholds)
                                (td_memory_scale_down thresholds_data) |} with
                 | Ok t => Ok (Some t)
                 | Fail e => Fail e
                 end
             end) with
      | Fail e => Fail e
      | Ok thresholds =>
          match (match cd_limits container_data with
                 | None => Ok None
                 | Some limits_data =>
                     match ResourceLimits_init
                             {| min_cpu_cores :=
                                  default (min_cpu_cores default_limits)
                                    (ld_min_cpu_cores limits_data);
                                max_cpu_cores :=
                                  default (max_cpu_cores default_limits)
                                    (ld_max_cpu_cores limits_data);
                                min_memory_mb :=
                                  default (min_memory_mb default_limits)
                                    (ld_min_memory_mb limits_data);
                                max_memory_mb :=
                                  default (max_memory_mb default_limits)
                                    (ld_max_memory_mb limits_data);
                                cpu_step :=
                                  default (cpu_step default_limits)
                                    (ld_cpu_step limits_data);
                                memory_step_mb :=
                                  default (memory_step_mb default_limits)
                                    (ld_memory_step_mb limits_data) |} with
                     | Ok l => Ok (Some l)
                     | Fail e => Fail e
                     end
                 end) with
          | Fail e => Fail e
          | Ok limits =>
              ContainerConfig_init v
                (default true (cd_enabled container_data)) thresholds limits
                (default 300 (cd_cooldown_seconds container_data))
                (default 3 (cd_evaluation_periods container_data))
          end
      end
  end.

(** The policy of container 101 with a longer cooldown. *)
Definition s1_policy_slow : ContainerConfig :=
  {| vmid := 101; enabled := true; thresholds := thresholds s1_policy;
     limits := limits s1_policy; cooldown_seconds := 600; evaluation_periods := 3 |}.

(** Defaults of a configuration file that differ from the class defaults,
    and two container entries, one bare and one with a partial section. *)
Definition file_default_thresholds : ScalingThresholds :=
  {| cpu_scale_up := 90; cpu_scale_down := 20;
     memory_scale_up := 95; memory_scale_down := 30 |}.

Definition bare_container_data : ContainerData :=
  {| cd_vmid := Some 101; cd_enabled := None; cd_thresholds := None;
     cd_limits := None; cd_cooldown_seconds := None; cd_evaluation_periods := None |}.

Definition partial_container_data : ContainerData :=
  {| cd_vmid := Some 101; cd_enabled := None;
     cd_thresholds :=
       Some {| td_cpu_scale_up := Some 70%Q; td_cpu_scale_down := None;
               td_memory_scale_up := None; td_memory_scale_down := None |};
     cd_limits := None; cd_cooldown_seconds := Some 120;
     cd_evaluation_periods := None |}.

(** *** metrics/collector.py: collecting one container *)

(** How a call to the cluster fails: the resource is not found, another API
    error, or anything else. *)
Inductive api_error : Type :=
| NotFound
| ApiError
| Unexpected.

(** The status and config documents of a container, with the keys read. *)
Record StatusDoc : Type := mkStatusDoc {
  sd_status : option string;
  sd_uptime : option Q
}.

Record ConfigDoc : Type := mkConfigDoc {
  cf_hostname : option string;
  cf_cores : option Z
}.

(** The answer of [find_container_node]. *)
Inductive located : Type :=
| LocateRaised (e : api_error)
| Located (node : option string).

(** The answer of the gathered status, config and time-series calls. *)
Inductive gathered : Type :=
| GatherRaised (e : api_error)
| Gathered (status : StatusDoc) (config : ConfigDoc) (rrd_data : list RrdPoint).

Definition set_status (m : ContainerMetrics) (status : string) : ContainerMetrics :=
  {| cm_vmid := cm_vmid m; cm_node := cm_node m; cm_name := cm_name m;
     cm_status := status; cm_uptime := cm_uptime m;
     current_metrics := current_metrics m;
     historical_metrics := historical_metrics m |}.

Definition set_status_uptime_node (m : ContainerMetrics) (status : string)
    (uptime : Z) (node : string) : ContainerMetrics :=
  {| cm_vmid := cm_vmid m; cm_node := node; cm_name := cm_name m;
     cm_status := status; cm_uptime := uptime;
     current_metrics := current_metrics m;
     historical_metrics := historical_metrics m |}.

(** The [except] clauses of [_collect_single_container_metrics]. *)
Definition collect_failed (container_metrics : gmap Z ContainerMetrics) (vmid : Z)
    (e : api_error) : gmap Z ContainerMetrics :=
  match e with
  | NotFound => delete vmid container_metrics
  | ApiError | Unexpected => container_metrics
  end.

(** [MetricsCollector._collect_single_container_metrics]: the collector's
    dict after the call, from the dict before and the cluster's answers. *)
Definition _collect_single_container_metrics (now : Q)
    (container_metrics : gmap Z ContainerMetrics) (vmid : Z)
    (found : located) (answers : gathered) : gmap Z ContainerMetrics :=
  match found with
  | LocateRaised e => collect_failed container_metrics vmid e
  | Located None => container_metrics
  | Located (Some EmptyString) => container_metrics
  | Located (Some node) =>
      match answers with
      | GatherRaised e => collect_failed container_metrics vmid e
      | Gathered status config rrd_data =>
          if negb (bool_decide (sd_status status = Some "running"%string)) then
            match container_metrics !! vmid with
            | Some m =>
                <[vmid := set_status m (default "unknown"%string (sd_status status))]>
                  container_metrics
            | None => container_metrics
            end
          else
            let tracked :=
              match container_metrics !! vmid with
              | Some m => m
              | None =>
                  new_container_metrics vmid node
                    (default ("ct-" ++ pretty vmid)%string (cf_hostname config))
                    (default "unknown"%string (sd_status status))
                    (py_int (default 0%Q (sd_uptime status)))
              end in
            let refreshed :=
              set_status_uptime_node tracked
                (default "unknown"%string (sd_status status))
                (py_int (default 0%Q (sd_uptime status))) node in
            match last rrd_data with
            | Some latest_rrd =>
                <[vmid := add_metrics refreshed
                            (from_rrd_data now latest_rrd (cf_cores config))]>
                  container_metrics
            | None => <[vmid := refreshed]> container_metrics
            end
      end
  end.

(** Answers of the cluster for container 101. *)
Definition stopped_status : StatusDoc :=
  {| sd_status := Some "stopped"%string; sd_uptime := Some 0%Q |}.

Definition running_status : StatusDoc :=
  {| sd_status := Some "running"%string; sd_uptime := Some 3660%Q |}.

Definition ct_config : ConfigDoc :=
  {| cf_hostname := Some "ct-101"%string; cf_cores := Some 2 |}.

Definition s1_tracked : gmap Z ContainerMetrics := {[ 101 := s1_container ]}.

(** *** core/daemon.py: the pause between two cycles *)

(** [min(1.0, x)] *)
Definition py_min1 (x : Q) : Q := if Qltb x 1 then x else 1%Q.

(** The [while sleep_elapsed < sleep_time and not self.should_stop] loop of
    [_main_loop]: the durations handed to [asyncio.sleep], in order.
    [should_stop k] is the flag as the loop test reads it for the k-th
    time; [None] when the fuel runs out. *)
Fixpoint sleep_loop (fuel : nat) (should_stop : nat -> bool)
    (sleep_time sleep_elapsed : Q) (k : nat) : option (list Q) :=
  if Qltb sleep_elapsed sleep_time && negb (should_stop k) then
    match fuel with
    | O => None
    | S fuel' =>
        match sleep_loop fuel' should_stop sleep_time (sleep_elapsed + 1)%Q (S k) with
        | Some rest => Some (py_min1 (sleep_time - sleep_elapsed)%Q :: rest)
        | None => None
        end
    end
  else Some [].

(** The pause after a cycle that took [cycle_duration] seconds. *)
Definition pause_after_cycle (fuel : nat) (should_stop : nat -> bool)
    (monitoring_interval : Z) (cycle_duration : Q) : option (list Q) :=
  let sleep_time := py_max0 (inject_Z monitoring_interval - cycle_duration)%Q in
  sleep_loop fuel should_stop sleep_time 0 0.

(** *** scaling/engine.py: status and health *)

(** The dict [get_scaling_status] returns. *)
Record ScalingStatus : Type := mkScalingStatus {
  status_active_operations : Z;
  status_monitored_containers : Z;
  status_total_operations : Z;
  status_total_successes : Z;
  status_success_rate_percent : Q;
  status_max_concurrent_operations : Z
}.

(** [ScalingEngine.get_scaling_status]; the two sums run over the values of
    the history dict, and a sum of integers does not depend on their order. *)
Definition get_scaling_status (self : ScalingEngine) : ScalingStatus :=
  let active_operations := Z.of_nat (size (active_operations self)) in
  let total_containers := Z.of_nat (length (containers (config self))) in
  let total_operations :=
    map_fold (fun _ h acc => acc + operation_count h) 0 (scaling_history self) in
  let total_successes :=
    map_fold (fun _ h acc => acc + success_count h) 0 (scaling_history self) in
  let success_rate :=
    if 0 <? total_operations
    then fl_mul (fl_div (inject_Z total_successes) (inject_Z total_operations)) 100
    else 0%Q in
  {| status_active_operations := active_operations;
     status_monitored_containers := total_containers;
     status_total_operations := total_operations;
     status_total_successes := total_successes;
     status_success_rate_percent := success_rate;
     status_max_concurrent_operations :=
       max_concurrent_operations (safety (config self)) |}.

(** [ScalingEngine.health_check] on the answer of the collection. *)
Definition health_check (c : Collected) (self : ScalingEngine) : run bool :=
  let s0 := after_collect self c in
  match collected_cluster c with
  | Raised e =>
      if is_Exception e then Finished s0 (Returned false) else Finished s0 (Raised e)
  | Returned cluster_metrics =>
      match _generate_scaling_decisions s0 cluster_metrics with
      | Returned _ => Finished s0 (Returned true)
      | Raised e =>
          if is_Exception e then Finished s0 (Returned false)
          else Finished s0 (Raised e)
      end
  end.

(** The sum [get_scaling_status] takes over the histories. *)
Definition total_operations (m : gmap Z ScalingHistory) : Z :=
  map_fold (fun _ h acc => acc + operation_count h) 0 m.

(** The history counts as many operations as resizes were sent. *)
Definition accounted (st : ScalingEngine) : Prop :=
  status_total_operations (get_scaling_status st)
  = Z.of_nat (length (resize_calls st)).

(** * Properties *)

(** ** Rounding to binary64 *)

Lemma pow2_pos (e : Z) : (0 < pow2 e)%Q.
Proof. apply Qpower_0_lt. reflexivity. Qed.

Lemma pow2_add (a b : Z) : (pow2 (a + b) == pow2 a * pow2 b)%Q.
Proof. apply Qpower_plus. discriminate. Qed.

Lemma pow2_le (a b : Z) : a <= b -> (pow2 a <= pow2 b)%Q.
Proof. intros H. apply Qpower_le_compat_l; [exact H|discriminate]. Qed.

Lemma pow2_lt_inv (a b : Z) : (pow2 a < pow2 b)%Q -> a < b.
Proof. intros H. apply (Qpower_lt_compat_l_inv 2); [exact H|reflexivity]. Qed.

Lemma pow2_Z (k : Z) : 0 <= k -> (pow2 k == inject_Z (2 ^ k))%Q.
Proof. intros H. unfold pow2. now rewrite Zpower_Qpower. Qed.

Lemma pow2_succ (a : Z) : (pow2 (a + 1) == 2 * pow2 a)%Q.
Proof. rewrite pow2_add. unfold pow2 at 2. rewrite Qpower_1_r. ring. Qed.

Lemma ilog2_spec (x : Q) :
  (0 < x)%Q -> (pow2 (ilog2 x) <= x)%Q /\ (x < pow2 (ilog2 x + 1))%Q.
Proof.
  intros Hx. destruct x as [n d]. unfold ilog2. cbn [Qnum Qden].
  assert (Hn : 0 < n) by (unfold Qlt in Hx; cbn in Hx; lia).
  destruct (Z.log2_spec n Hn) as [Hn1 Hn2].
  destruct (Z.log2_spec (Z.pos d) (Pos2Z.is_pos d)) as [Hd1 Hd2].
  set (ln := Z.log2 n) in *. set (ld := Z.log2 (Z.pos d)) in *.
  assert (Hln : 0 <= ln) by apply Z.log2_nonneg.
  assert (Hld : 0 <= ld) by apply Z.log2_nonneg.
  assert (Hx' : (n # d == inject_Z n / inject_Z (Z.pos d))%Q) by apply Qmake_Qdiv.
  assert (Hdpos : (0 < inject_Z (Z.pos d))%Q) by (unfold Qlt; cbn; lia).
  assert (En : (pow2 ln * pow2 ld * pow2 (- ld) == pow2 ln)%Q).
  { rewrite <- Qmult_assoc, <- pow2_add. replace (ld + - ld) with 0 by lia.
    unfold pow2 at 2. rewrite Qpower_0_r. ring. }
  assert (Ee : (pow2 (ln - ld) == pow2 ln * pow2 (- ld))%Q).
  { now rewrite <- pow2_add. }
  assert (Qn1 : (pow2 ln <= inject_Z n)%Q).
  { rewrite pow2_Z by lia. now rewrite <- Zle_Qle. }
  assert (Qn2 : (inject_Z n < 2 * pow2 ln)%Q).
  { rewrite <- pow2_succ, pow2_Z by lia. rewrite <- Zlt_Qlt.
    now replace (ln + 1) with (Z.succ ln) by lia. }
  assert (Qd1 : (pow2 ld <= inject_Z (Z.pos d))%Q).
  { rewrite pow2_Z by lia. now rewrite <- Zle_Qle. }
  assert (Qd2 : (inject_Z (Z.pos d) < 2 * pow2 ld)%Q).
  { rewrite <- pow2_succ, pow2_Z by lia. rewrite <- Zlt_Qlt.
    now replace (ld + 1) with (Z.succ ld) by lia. }
  pose proof (pow2_pos ln) as Pn. pose proof (pow2_pos ld) as Pd.
  pose proof (pow2_pos (- ld)) as Pd'.
  assert (Hxd : ((n # d) * inject_Z (Z.pos d) == inject_Z n)%Q).
  { rewrite Hx'. field. intros E. rewrite E in Hdpos. now apply Qlt_irrefl in Hdpos. }
  assert (Hxpos : (0 < n # d)%Q) by exact Hx.
  (* bounds on x * pow2 ld *)
  assert (Hlow : (pow2 ln < 2 * ((n # d) * pow2 ld))%Q) by nra.
  assert (Hhigh : ((n # d) * pow2 ld < 2 * pow2 ln)%Q) by nra.
  assert (Hinv : (pow2 ld * pow2 (- ld) == 1)%Q).
  { rewrite <- pow2_add. replace (ld + - ld) with 0 by lia. reflexivity. }
  destruct (Qle_bool (pow2 (ln - ld)) (n # d)) eqn:Hle.
  - apply Qle_bool_iff in Hle. split; [exact Hle|].
    rewrite pow2_succ, Ee. nra.
  - assert (Hlt : ((n # d) < pow2 (ln - ld))%Q).
    { apply Qnot_le_lt. intros H. apply Qle_bool_iff in H. congruence. }
    replace (ln - ld - 1 + 1) with (ln - ld) by lia. split; [|exact Hlt].
    assert (E2 : (2 * pow2 (ln - ld - 1) == pow2 (ln - ld))%Q).
    { rewrite <- pow2_succ. now replace (ln - ld - 1 + 1) with (ln - ld) by lia. }
    rewrite Ee in E2. nra.
Qed.

Lemma ilog2_mono (x y : Q) : (0 < x)%Q -> (x <= y)%Q -> ilog2 x <= ilog2 y.
Proof.
  intros Hx Hxy.
  destruct (ilog2_spec x Hx) as [H1 _].
  destruct (ilog2_spec y) as [_ H2]; [lra|].
  assert (ilog2 x < ilog2 y + 1) by (apply pow2_lt_inv; lra).
  lia.
Qed.

Lemma round_half_even_bounds (x : Q) :
  Qfloor x <= round_half_even x <= Qfloor x + 1.
Proof.
  unfold round_half_even.
  destruct (x - inject_Z (Qfloor x) ?= 1 # 2)%Q; [destruct (Z.even _)| |]; lia.
Qed.

Lemma round_half_even_mono (x y : Q) :
  (x <= y)%Q -> round_half_even x <= round_half_even y.
Proof.
  intros Hxy.
  pose proof (Qfloor_resp_le _ _ Hxy) as Hf.
  destruct (Z.eq_dec (Qfloor x) (Qfloor y)) as [E|N].
  - unfold round_half_even. rewrite E.
    destruct (x - inject_Z (Qfloor y) ?= 1 # 2)%Q eqn:Cx;
      destruct (y - inject_Z (Qfloor y) ?= 1 # 2)%Q eqn:Cy;
      try (destruct (Z.even (Qfloor y))); try lia;
      exfalso;
      first [apply Qeq_alt in Cx | apply Qlt_alt in Cx | apply Qgt_alt in Cx];
      first [apply Qeq_alt in Cy | apply Qlt_alt in Cy | apply Qgt_alt in Cy];
      lra.
  - pose proof (round_half_even_bounds x). pose proof (round_half_even_bounds y). lia.
Qed.

Lemma round_half_even_Z (k : Z) : round_half_even (inject_Z k) = k.
Proof.
  unfold round_half_even. rewrite Qfloor_Z.
  destruct (inject_Z k - inject_Z k ?= 1 # 2)%Q eqn:C; [| reflexivity |].
  - apply Qeq_alt in C. lra.
  - apply Qgt_alt in C. lra.
Qed.

Lemma round_half_even_eq (x : Q) (k : Z) :
  (x == inject_Z k)%Q -> round_half_even x = k.
Proof.
  intros E. apply Z.le_antisymm.
  - rewrite <- (round_half_even_Z k). apply round_half_even_mono. lra.
  - rewrite <- (round_half_even_Z k) at 1. apply round_half_even_mono. lra.
Qed.

Lemma div_pow2 (x : Q) (e : Z) : (x / pow2 e * pow2 e == x)%Q.
Proof. field. pose proof (pow2_pos e). lra. Qed.

Lemma pow2_quot (k e : Z) : e <= k -> (pow2 k / pow2 e == inject_Z (2 ^ (k - e)))%Q.
Proof.
  intros H. rewrite <- pow2_Z by lia.
  replace k with ((k - e) + e) at 1 by lia. rewrite pow2_add. field.
  pose proof (pow2_pos e). lra.
Qed.

(** Rounding does not cross a power of two that is a multiple of the unit
    in the last place. *)
Lemma b64_nearest_le_pow2 (x : Q) (k : Z) :
  b64_exponent x <= k -> (x <= pow2 k)%Q -> (b64_nearest x <= pow2 k)%Q.
Proof.
  intros He Hx. unfold b64_nearest. set (e := b64_exponent x) in *.
  pose proof (pow2_pos e) as Pe.
  assert (Hq : (x / pow2 e <= inject_Z (2 ^ (k - e)))%Q).
  { rewrite <- pow2_quot by exact He. apply Qmult_le_compat_r; [exact Hx|].
    apply Qlt_le_weak, Qinv_lt_0_compat, Pe. }
  apply round_half_even_mono in Hq. rewrite round_half_even_Z in Hq.
  rewrite Zle_Qle in Hq. rewrite <- pow2_quot in Hq by exact He.
  rewrite <- (div_pow2 (pow2 k) e).
  apply Qmult_le_compat_r; [exact Hq|lra].
Qed.

Lemma b64_nearest_ge_pow2 (x : Q) (k : Z) :
  b64_exponent x <= k -> (pow2 k <= x)%Q -> (pow2 k <= b64_nearest x)%Q.
Proof.
  intros He Hx. unfold b64_nearest. set (e := b64_exponent x) in *.
  pose proof (pow2_pos e) as Pe.
  assert (Hq : (inject_Z (2 ^ (k - e)) <= x / pow2 e)%Q).
  { rewrite <- pow2_quot by exact He. apply Qmult_le_compat_r; [exact Hx|].
    apply Qlt_le_weak, Qinv_lt_0_compat, Pe. }
  apply round_half_even_mono in Hq. rewrite round_half_even_Z in Hq.
  rewrite Zle_Qle in Hq. rewrite <- pow2_quot in Hq by exact He.
  rewrite <- (div_pow2 (pow2 k) e).
  apply Qmult_le_compat_r; [exact Hq|lra].
Qed.

Lemma b64_nearest_nonneg (x : Q) : (0 <= x)%Q -> (0 <= b64_nearest x)%Q.
Proof.
  intros Hx. unfold b64_nearest. pose proof (pow2_pos (b64_exponent x)) as Pe.
  apply Qmult_le_0_compat; [|lra].
  assert (Hq : (inject_Z 0 <= x / pow2 (b64_exponent x))%Q).
  { apply Qle_shift_div_l; [exact Pe|]. change (inject_Z 0) with 0%Q. lra. }
  apply round_half_even_mono in Hq. rewrite round_half_even_Z in Hq.
  now rewrite Zle_Qle in Hq.
Qed.

Lemma b64_nearest_mono (x y : Q) :
  (0 < x)%Q -> (x <= y)%Q -> (b64_nearest x <= b64_nearest y)%Q.
Proof.
  intros Hx Hxy.
  assert (Hy : (0 < y)%Q) by lra.
  pose proof (ilog2_mono x y Hx Hxy) as Hl.
  destruct (ilog2_spec x Hx) as [Hx1 Hx2]. destruct (ilog2_spec y Hy) as [Hy1 Hy2].
  destruct (Z.eq_dec (b64_exponent x) (b64_exponent y)) as [E|N].
  - unfold b64_nearest. rewrite E. pose proof (pow2_pos (b64_exponent y)) as Pe.
    apply Qmult_le_compat_r; [|lra]. rewrite <- Zle_Qle.
    apply round_half_even_mono. apply Qmult_le_compat_r; [exact Hxy|].
    apply Qlt_le_weak, Qinv_lt_0_compat, Pe.
  - assert (Hlt : ilog2 x < ilog2 y) by (unfold b64_exponent in *; lia).
    apply Qle_trans with (pow2 (ilog2 y)).
    + apply b64_nearest_le_pow2; [unfold b64_exponent in *; lia|].
      apply Qle_trans with (pow2 (ilog2 x + 1)); [lra|]. apply pow2_le. lia.
    + apply b64_nearest_ge_pow2; [unfold b64_exponent in *; lia|exact Hy1].
Qed.

Lemma b64_round_pos (x : Q) : (0 < x)%Q -> (b64_round x == b64_nearest x)%Q.
Proof.
  intros H. unfold b64_round. destruct (x ?= 0)%Q eqn:C.
  - apply Qeq_alt in C. lra.
  - apply Qlt_alt in C. lra.
  - apply Qred_correct.
Qed.

Lemma b64_round_neg (x : Q) : (x < 0)%Q -> (b64_round x == - b64_nearest (- x))%Q.
Proof.
  intros H. unfold b64_round. destruct (x ?= 0)%Q eqn:C.
  - apply Qeq_alt in C. lra.
  - apply Qred_correct.
  - apply Qgt_alt in C. lra.
Qed.

Lemma b64_round_zero (x : Q) : (x == 0)%Q -> b64_round x = 0%Q.
Proof.
  intros H. unfold b64_round. destruct (x ?= 0)%Q eqn:C.
  - reflexivity.
  - apply Qlt_alt in C. lra.
  - apply Qgt_alt in C. lra.
Qed.

(** Rounding to nearest is monotone. *)
Lemma b64_round_mono (x y : Q) : (x <= y)%Q -> (b64_round x <= b64_round y)%Q.
Proof.
  intros Hxy.
  assert (Cx : (x < 0)%Q \/ (x == 0)%Q \/ (0 < x)%Q).
  { destruct (Q_dec x 0) as [[H|H]|H]; auto. }
  assert (Cy : (y < 0)%Q \/ (y == 0)%Q \/ (0 < y)%Q).
  { destruct (Q_dec y 0) as [[H|H]|H]; auto. }
  destruct Cx as [Hx|[Hx|Hx]], Cy as [Hy|[Hy|Hy]]; try (exfalso; lra).
  - rewrite (b64_round_neg x Hx), (b64_round_neg y Hy).
    apply Qopp_le_compat. apply b64_nearest_mono; lra.
  - rewrite (b64_round_neg x Hx), (b64_round_zero y Hy).
    pose proof (b64_nearest_nonneg (- x)). lra.
  - rewrite (b64_round_neg x Hx), (b64_round_pos y Hy).
    pose proof (b64_nearest_nonneg (- x)). pose proof (b64_nearest_nonneg y). lra.
  - rewrite (b64_round_zero x Hx), (b64_round_zero y Hy). lra.
  - rewrite (b64_round_zero x Hx), (b64_round_pos y Hy).
    pose proof (b64_nearest_nonneg y). lra.
  - rewrite (b64_round_pos x Hx), (b64_round_pos y Hy). now apply b64_nearest_mono.
Qed.

Lemma b64_round_comp (x y : Q) : (x == y)%Q -> (b64_round x == b64_round y)%Q.
Proof. intros E. apply Qle_antisym; apply b64_round_mono; lra. Qed.

#[global] Instance b64_round_proper : Proper (Qeq ==> Qeq) b64_round.
Proof. intros x y E. now apply b64_round_comp. Qed.

(** A number [m * 2^e] with [|m| < 2^53] and [-1074 <= e] is a binary64
    number: rounding leaves it as it is. *)
Lemma b64_nearest_representable (x : Q) (m e : Z) :
  0 < m < 2 ^ 53 -> -1074 <= e -> (x == inject_Z m * pow2 e)%Q ->
  (b64_nearest x == x)%Q.
Proof.
  intros Hm He Ex.
  pose proof (pow2_pos e) as Pe.
  assert (Hx : (0 < x)%Q).
  { rewrite Ex. apply Qmult_lt_0_compat; [|exact Pe].
    change 0%Q with (inject_Z 0). rewrite <- Zlt_Qlt. lia. }
  destruct (ilog2_spec x Hx) as [H1 H2].
  assert (Hlog : ilog2 x < 53 + e).
  { apply pow2_lt_inv. apply Qle_lt_trans with x; [exact H1|].
    rewrite Ex, pow2_add, (pow2_Z 53) by lia.
    apply Qmult_lt_compat_r; [exact Pe|]. rewrite <- Zlt_Qlt. lia. }
  assert (Hex : b64_exponent x <= e) by (unfold b64_exponent; lia).
  unfold b64_nearest. set (ex := b64_exponent x) in *.
  pose proof (pow2_pos ex) as Pex.
  assert (Eq : (x / pow2 ex == inject_Z (m * 2 ^ (e - ex)))%Q).
  { rewrite inject_Z_mult, <- pow2_quot by exact Hex. rewrite Ex. field. lra. }
  rewrite (round_half_even_eq _ _ Eq), <- Eq. apply div_pow2.
Qed.

Lemma b64_round_representable (x : Q) (m e : Z) :
  Z.abs m < 2 ^ 53 -> -1074 <= e -> (x == inject_Z m * pow2 e)%Q ->
  (b64_round x == x)%Q.
Proof.
  intros Hm He Ex. pose proof (pow2_pos e) as Pe.
  destruct (Z.lt_trichotomy m 0) as [Hneg|[Hz|Hpos]].
  - assert (Hx : (x < 0)%Q).
    { rewrite Ex. assert (inject_Z m < 0)%Q by (change 0%Q with (inject_Z 0);
        rewrite <- Zlt_Qlt; lia). nra. }
    rewrite (b64_round_neg x Hx).
    rewrite (b64_nearest_representable (- x) (- m) e); [ring|lia|lia|].
    rewrite Ex, inject_Z_opp. ring.
  - subst m. rewrite b64_round_zero; [|rewrite Ex; ring]. rewrite Ex. ring.
  - assert (Hx : (0 < x)%Q).
    { rewrite Ex. assert (0 < inject_Z m)%Q by (change 0%Q with (inject_Z 0);
        rewrite <- Zlt_Qlt; lia). nra. }
    rewrite (b64_round_pos x Hx).
    apply (b64_nearest_representable x m e); [lia|lia|exact Ex].
Qed.

Lemma b64_round_Z (k : Z) : Z.abs k < 2 ^ 53 -> (b64_round (inject_Z k) == inject_Z k)%Q.
Proof.
  intros H. apply (b64_round_representable _ k 0); [exact H|lia|].
  unfold pow2. rewrite Qpower_0_r. ring.
Qed.

(** ** The sample window *)

Lemma py_slice_from_negative {A} (n : Z) (l : list A) :
  0 < n -> py_slice_from (- n) l = keep_last (Z.to_nat n) l.
Proof.
  intros Hn. unfold py_slice_from, keep_last.
  destruct (Z.ltb_spec (- n) 0) as [_|?]; [|lia].
  f_equal. lia.
Qed.

Lemma keep_last_split {A} (n : nat) (l : list A) :
  l = take (length l - n) l ++ keep_last n l.
Proof. unfold keep_last. now rewrite take_drop. Qed.

Lemma keep_last_length {A} (n : nat) (l : list A) :
  length (keep_last n l) = Nat.min (length l) n.
Proof. unfold keep_last. rewrite length_drop. lia. Qed.

Lemma keep_last_suffix {A} (older recent : list A) :
  keep_last (length recent) (older ++ recent) = recent.
Proof.
  unfold keep_last. rewrite length_app.
  replace (length older + length recent - length recent)%nat with (length older) by lia.
  now rewrite drop_app_length.
Qed.

Lemma keep_last_snoc {A} (n : nat) (l : list A) (x : A) :
  (1 <= n)%nat -> keep_last n (keep_last n l ++ [x]) = keep_last n (l ++ [x]).
Proof.
  intros Hn. unfold keep_last at 1 3.
  rewrite !length_app, keep_last_length. cbn [length].
  destruct (Nat.le_gt_cases (length l) n) as [Hle|Hgt].
  - unfold keep_last. replace (length l - n)%nat with 0%nat by lia.
    rewrite drop_0. f_equal. lia.
  - unfold keep_last.
    replace (length l + 1 - n)%nat with ((length l - n) + 1)%nat by lia.
    rewrite <- drop_drop.
    rewrite (drop_app_le l [x] (length l - n)) by lia.
    f_equal. lia.
Qed.

Lemma add_metrics_history (self : ContainerMetrics) (m : ResourceMetrics) :
  historical_metrics (add_metrics self m)
  = keep_last 100 (historical_metrics self ++ [m]).
Proof.
  unfold add_metrics. cbn [historical_metrics].
  destruct (Z.ltb_spec 100 (Z.of_nat (length (historical_metrics self ++ [m]))))
    as [Hgt|Hle].
  - now rewrite (py_slice_from_negative 100) by lia.
  - unfold keep_last.
    replace (length (historical_metrics self ++ [m]) - 100)%nat with 0%nat by lia.
    now rewrite drop_0.
Qed.

Lemma add_all_snoc (self : ContainerMetrics) (samples : list ResourceMetrics)
    (m : ResourceMetrics) :
  add_all self (samples ++ [m]) = add_metrics (add_all self samples) m.
Proof. unfold add_all. now rewrite fold_left_app. Qed.

Lemma add_all_history (self : ContainerMetrics) (samples : list ResourceMetrics) :
  (length (historical_metrics self) <= 100)%nat ->
  historical_metrics (add_all self samples)
  = keep_last 100 (historical_metrics self ++ samples).
Proof.
  intros Hlen. induction samples as [|m samples IH] using rev_ind.
  - cbn. rewrite app_nil_r. unfold keep_last.
    replace (length (historical_metrics self) - 100)%nat with 0%nat by lia.
    now rewrite drop_0.
  - rewrite add_all_snoc, add_metrics_history, IH, app_assoc.
    apply keep_last_snoc. lia.
Qed.

(** C9. Appending keeps the buffer within 100 samples and evicts from the
    old end only: the buffer after [add_metrics] is a suffix of the old
    buffer followed by the new sample, and after any sequence of appends to
    a fresh container the buffer is the last [min (total, 100)] samples, in
    append order. *)
Theorem C9_ring_buffer_keeps_last_100 :
  (forall (self : ContainerMetrics) (m : ResourceMetrics),
      let buffer := historical_metrics (add_metrics self m) in
      (length buffer <= 100)%nat /\
      exists evicted,
        historical_metrics self ++ [m] = evicted ++ buffer /\
        length evicted = (length (historical_metrics self) + 1 - 100)%nat) /\
  (forall (vmid : Z) (node name status : string) (uptime : Z)
          (samples : list ResourceMetrics),
      let buffer :=
        historical_metrics
          (add_all (new_container_metrics vmid node name status uptime) samples) in
      length buffer = Nat.min (length samples) 100 /\
      exists evicted, samples = evicted ++ buffer).
Proof.
  split.
  - intros self m buffer. subst buffer. rewrite add_metrics_history. split.
    + rewrite keep_last_length. lia.
    + eexists. split; [apply keep_last_split|].
      rewrite length_take, length_app. cbn [length]. lia.
  - intros vmid node name status uptime samples buffer. subst buffer.
    rewrite add_all_history by (cbn; lia). cbn [new_container_metrics historical_metrics app].
    split; [apply keep_last_length|].
    eexists. apply keep_last_split.
Qed.

(** ** Timestamps in the window *)

Lemma Sorted_drop {A} (R : A -> A -> Prop) (n : nat) (l : list A) :
  Sorted R l -> Sorted R (drop n l).
Proof.
  revert l. induction n as [|n IH]; intros l Hl; [now rewrite drop_0|].
  destruct l as [|x l]; [constructor|].
  cbn. apply IH. now inversion Hl.
Qed.

Lemma add_all_history_suffix (self : ContainerMetrics) (samples : list ResourceMetrics) :
  exists n, historical_metrics (add_all self samples)
            = drop n (historical_metrics self ++ samples).
Proof.
  induction samples as [|m samples IH] using rev_ind.
  - exists 0%nat. cbn. now rewrite app_nil_r, drop_0.
  - destruct IH as [n IH].
    rewrite add_all_snoc, add_metrics_history, IH.
    unfold keep_last.
    destruct (Nat.le_gt_cases n (length (historical_metrics self ++ samples)))
      as [Hle|Hgt].
    + rewrite <- drop_app_le by exact Hle.
      rewrite drop_drop, app_assoc. eauto.
    + rewrite (drop_ge (historical_metrics self ++ samples)) by lia.
      cbn [app length]. rewrite drop_0.
      exists (length (historical_metrics self ++ samples)).
      now rewrite app_assoc, drop_app_length.
Qed.

(** C8, as stated, fails: [add_metrics] appends whatever timestamp the
    sample carries. *)
Lemma C8_counterexample :
  ~ (forall (self : ContainerMetrics) (samples : list ResourceMetrics),
        historical_metrics self = [] ->
        timestamps_nondecreasing (historical_metrics (add_all self samples))).
Proof.
  intros H.
  specialize (H (new_container_metrics 101 "pve" "ct-101" "running" 60)
                [from_rrd_data 1000 rrd_without_time (Some 2);
                 from_rrd_data 1030 rrd_lagging (Some 2)] eq_refl).
  cbn in H. inversion H as [|? ? _ Hhd]; subst.
  inversion Hhd as [|? ? Hle]; subst.
  unfold timestamp_le in Hle. cbn in Hle. lra.
Qed.

(** C8, amended. The buffer is in append order, so it is non-decreasing in
    timestamp whenever the samples were appended with non-decreasing
    timestamps (buffer first, then the new samples). *)
Theorem C8_timestamps_follow_append_order
    (self : ContainerMetrics) (samples : list ResourceMetrics) :
  timestamps_nondecreasing (historical_metrics self ++ samples) ->
  timestamps_nondecreasing (historical_metrics (add_all self samples)).
Proof.
  intros Hsorted. destruct (add_all_history_suffix self samples) as [n ->].
  now apply Sorted_drop.
Qed.

Lemma C8_timestamps_follow_append_order_witness :
  timestamps_nondecreasing
    (historical_metrics
       (add_all (new_container_metrics 101 "pve" "ct-101" "running" 60)
          [from_rrd_data 1000 rrd_lagging (Some 2);
           from_rrd_data 1030 rrd_without_time (Some 2)])).
Proof.
  apply C8_timestamps_follow_append_order.
  cbn. repeat constructor. unfold timestamp_le. cbn. lra.
Defined.

(** ** The average view *)


Lemma float_mean_py_sum (xs : list Q) :
  float_mean xs = fl_div (py_sum xs) (inject_Z (Z.of_nat (length xs))).
Proof. reflexivity. Qed.


Lemma get_average_metrics_few (self : ContainerMetrics) (N : Z) :
  Z.of_nat (length (historical_metrics self)) < N ->
  get_average_metrics self N = Returned None.
Proof.
  intros Hlt. unfold get_average_metrics.
  destruct (Z.ltb_spec (Z.of_nat (length (historical_metrics self))) N);
    [reflexivity|lia].
Qed.

Lemma get_average_metrics_recent (self : ContainerMetrics) (N : Z)
    (older recent : list ResourceMetrics) :
  1 <= N ->
  historical_metrics self = older ++ recent ->
  Z.of_nat (length recent) = N ->
  exists latest,
    last (historical_metrics self) = Some latest /\
    get_average_metrics self N
    = Returned (Some
        {| timestamp := timestamp latest;
           cpu_usage_percent :=
             fl_div (py_sum (map cpu_usage_percent recent)) (inject_Z N);
           memory_usage_percent :=
             fl_div (py_sum (map memory_usage_percent recent)) (inject_Z N);
           memory_used_mb := memory_used_mb latest;
           memory_total_mb := memory_total_mb latest;
           cpu_cores := cpu_cores latest |}).
Proof.
  intros HN Hhist Hlen.
  assert (Hne : recent <> []) by (intros ->; cbn in Hlen; lia).
  destruct (proj2 (last_is_Some recent) Hne) as [latest Hlast].
  exists latest. split; [rewrite Hhist, last_app, Hlast; reflexivity|].
  unfold get_average_metrics.
  destruct (Z.ltb_spec (Z.of_nat (length (historical_metrics self))) N) as [Hlt|_].
  { rewrite Hhist, length_app in Hlt. lia. }
  rewrite py_slice_from_negative by lia.
  rewrite Hhist. replace (Z.to_nat N) with (length recent) by lia.
  rewrite keep_last_suffix, Hlen.
  destruct (Z.eqb_spec N 0) as [Hz|_]; [lia|].
  now rewrite Hlast.
Qed.

Lemma get_average_metrics_enough (self : ContainerMetrics) (N : Z) :
  1 <= N <= Z.of_nat (length (historical_metrics self)) ->
  exists avg, get_average_metrics self N = Returned (Some avg).
Proof.
  intros [Hone Hlen].
  destruct (get_average_metrics_recent self N
              (take (length (historical_metrics self) - Z.to_nat N)
                 (historical_metrics self))
              (keep_last (Z.to_nat N) (historical_metrics self)) Hone)
    as (latest & _ & Havg).
  - apply keep_last_split.
  - rewrite keep_last_length. lia.
  - eauto.
Qed.

(** A rounded sum of [k] items that are at most the integer [hi] is at most
    [k * hi], as long as that product is a binary64 number. *)
Lemma fold_left_fl_add_le (hi : Z) (xs : list Q) :
  forall (acc : Q) (k : Z),
    0 <= k -> (k + Z.of_nat (length xs)) * Z.abs hi < 2 ^ 53 ->
    (acc <= inject_Z (k * hi))%Q ->
    (forall x, In x xs -> (x <= inject_Z hi)%Q) ->
    (fold_left fl_add xs acc <= inject_Z ((k + Z.of_nat (length xs)) * hi))%Q.
Proof.
  induction xs as [|x xs IH]; intros acc k Hk Hsmall Hacc Hall;
    cbn [fold_left length] in *.
  - now replace (k + Z.of_nat 0) with k by lia.
  - rewrite Nat2Z.inj_succ in *.
    replace (k + Z.succ (Z.of_nat (length xs)))
      with ((k + 1) + Z.of_nat (length xs)) in * by lia.
    apply IH; [lia|exact Hsmall| |intros y Hy; apply Hall; now right].
    assert (Hb : Z.abs ((k + 1) * hi) < 2 ^ 53).
    { rewrite Z.abs_mul, (Z.abs_eq (k + 1)) by lia.
      pose proof (Z.abs_nonneg hi). pose proof (Zle_0_nat (length xs)). nia. }
    unfold fl_add. rewrite <- (b64_round_Z ((k + 1) * hi) Hb).
    apply b64_round_mono.
    pose proof (Hall x (or_introl eq_refl)) as Hx.
    replace ((k + 1) * hi) with (k * hi + hi) by lia. rewrite inject_Z_plus. lra.
Qed.

Lemma fold_left_fl_add_ge (lo : Z) (xs : list Q) :
  forall (acc : Q) (k : Z),
    0 <= k -> (k + Z.of_nat (length xs)) * Z.abs lo < 2 ^ 53 ->
    (inject_Z (k * lo) <= acc)%Q ->
    (forall x, In x xs -> (inject_Z lo <= x)%Q) ->
    (inject_Z ((k + Z.of_nat (length xs)) * lo) <= fold_left fl_add xs acc)%Q.
Proof.
  induction xs as [|x xs IH]; intros acc k Hk Hsmall Hacc Hall;
    cbn [fold_left length] in *.
  - now replace (k + Z.of_nat 0) with k by lia.
  - rewrite Nat2Z.inj_succ in *.
    replace (k + Z.succ (Z.of_nat (length xs)))
      with ((k + 1) + Z.of_nat (length xs)) in * by lia.
    apply IH; [lia|exact Hsmall| |intros y Hy; apply Hall; now right].
    assert (Hb : Z.abs ((k + 1) * lo) < 2 ^ 53).
    { rewrite Z.abs_mul, (Z.abs_eq (k + 1)) by lia.
      pose proof (Z.abs_nonneg lo). pose proof (Zle_0_nat (length xs)). nia. }
    unfold fl_add. rewrite <- (b64_round_Z ((k + 1) * lo) Hb).
    apply b64_round_mono.
    pose proof (Hall x (or_introl eq_refl)) as Hx.
    replace ((k + 1) * lo) with (k * lo + lo) by lia. rewrite inject_Z_plus. lra.
Qed.

(** The binary64 mean stays within the integer bounds of its items. *)
Lemma float_mean_le (xs : list Q) (hi : Z) :
  xs <> [] -> Z.of_nat (length xs) * Z.abs hi < 2 ^ 53 ->
  (forall x, In x xs -> (x <= inject_Z hi)%Q) ->
  (float_mean xs <= inject_Z hi)%Q.
Proof.
  intros Hne Hsmall Hall. rewrite float_mean_py_sum. unfold fl_div, py_sum.
  assert (Hlen : 0 < Z.of_nat (length xs)) by (destruct xs; [congruence|cbn; lia]).
  assert (Hn : (0 < inject_Z (Z.of_nat (length xs)))%Q).
  { change 0%Q with (inject_Z 0). now rewrite <- Zlt_Qlt. }
  assert (Hb : Z.abs hi < 2 ^ 53) by (pose proof (Z.abs_nonneg hi); nia).
  rewrite <- (b64_round_Z hi Hb). apply b64_round_mono.
  apply Qle_shift_div_r; [exact Hn|].
  pose proof (fold_left_fl_add_le hi xs 0%Q 0 ltac:(lia) Hsmall (Qle_refl 0) Hall) as Hsum.
  rewrite Z.add_0_l, inject_Z_mult in Hsum. lra.
Qed.

Lemma float_mean_ge (xs : list Q) (lo : Z) :
  xs <> [] -> Z.of_nat (length xs) * Z.abs lo < 2 ^ 53 ->
  (forall x, In x xs -> (inject_Z lo <= x)%Q) ->
  (inject_Z lo <= float_mean xs)%Q.
Proof.
  intros Hne Hsmall Hall. rewrite float_mean_py_sum. unfold fl_div, py_sum.
  assert (Hlen : 0 < Z.of_nat (length xs)) by (destruct xs; [congruence|cbn; lia]).
  assert (Hn : (0 < inject_Z (Z.of_nat (length xs)))%Q).
  { change 0%Q with (inject_Z 0). now rewrite <- Zlt_Qlt. }
  assert (Hb : Z.abs lo < 2 ^ 53) by (pose proof (Z.abs_nonneg lo); nia).
  rewrite <- (b64_round_Z lo Hb) at 1. apply b64_round_mono.
  apply Qle_shift_div_l; [exact Hn|].
  pose proof (fold_left_fl_add_ge lo xs 0%Q 0 ltac:(lia) Hsmall (Qle_refl 0) Hall) as Hsum.
  rewrite Z.add_0_l, inject_Z_mult in Hsum. lra.
Qed.



(** ** Comparisons on rationals *)

Lemma Qltb_true (x y : Q) : Qltb x y = true <-> (x < y)%Q.
Proof.
  unfold Qltb. rewrite negb_true_iff, <- not_true_iff_false, Qle_bool_iff.
  split; [apply Qnot_le_lt | apply Qlt_not_le].
Qed.

Lemma Qltb_false (x y : Q) : Qltb x y = false <-> (y <= x)%Q.
Proof. unfold Qltb. rewrite negb_false_iff. apply Qle_bool_iff. Qed.

Lemma Qgeb_true (x y : Q) : Qgeb x y = true <-> (y <= x)%Q.
Proof. apply Qle_bool_iff. Qed.

Lemma Qgeb_false (x y : Q) : Qgeb x y = false <-> (x < y)%Q.
Proof.
  unfold Qgeb. rewrite <- not_true_iff_false, Qle_bool_iff.
  split; [apply Qnot_le_lt | apply Qlt_not_le].
Qed.

Lemma Qle_bool_false (x y : Q) : Qle_bool x y = false <-> (y < x)%Q.
Proof. apply (Qgeb_false y x). Qed.

(** ** The scaling history *)

Lemma record_operation_counts (h : ScalingHistory) (op : ScalingOperation) :
  is_completed op = true ->
  operation_count (record_operation h op) = operation_count h + 1 /\
  success_count (record_operation h op) + failure_count (record_operation h op)
  = success_count h + failure_count h + 1.
Proof.
  intros Hc. unfold record_operation. rewrite Hc. cbn.
  destruct (is_successful op); lia.
Qed.

Lemma record_all_counts (h : ScalingHistory) (ops : list ScalingOperation) :
  Forall (fun op => is_completed op = true) ops ->
  operation_count (record_all h ops) = operation_count h + Z.of_nat (length ops) /\
  success_count (record_all h ops) + failure_count (record_all h ops)
  = success_count h + failure_count h + Z.of_nat (length ops).
Proof.
  intros Hall. revert h. induction Hall as [|op ops Hop _ IH]; intros h.
  - cbn. lia.
  - cbn [record_all fold_left]. fold (record_all (record_operation h op) ops).
    destruct (IH (record_operation h op)) as [IH1 IH2].
    destruct (record_operation_counts h op Hop) as [H1 H2].
    rewrite IH1, IH2, H1, H2. cbn [length]. lia.
Qed.

(** C6. An operation without [completed_at] leaves the history as it is; a
    completed one adds one to [operation_count] and to exactly one of
    [success_count] and [failure_count], by its success flag, and sets
    [last_scaling_time] to its [completed_at]; so after N completed
    operations on an empty history [operation_count] is N and the two
    counters sum to N. *)
Theorem C6_history_counts_completed_operations :
  (forall h op, completed_at op = None -> record_operation h op = h) /\
  (forall h op t, completed_at op = Some t ->
     let h' := record_operation h op in
     operation_count h' = operation_count h + 1 /\
     last_scaling_time h' = Some t /\
     (success op = Some true ->
      success_count h' = success_count h + 1 /\ failure_count h' = failure_count h) /\
     (success op <> Some true ->
      success_count h' = success_count h /\ failure_count h' = failure_count h + 1)) /\
  (forall vmid ops,
     Forall (fun op => completed_at op <> None) ops ->
     let H := record_all (new_history vmid) ops in
     operation_count H = Z.of_nat (length ops) /\
     success_count H + failure_count H = Z.of_nat (length ops)).
Proof.
  split; [|split].
  - intros h op Hnone. unfold record_operation, is_completed. now rewrite Hnone.
  - intros h op t Ht h'. subst h'. unfold record_operation, is_completed, is_successful.
    rewrite Ht. cbn. split; [reflexivity|]. split; [reflexivity|]. split.
    + intros ->. split; reflexivity.
    + intros Hs. destruct (success op) as [[]|]; [congruence| |]; split; reflexivity.
  - intros vmid ops Hall H. subst H.
    assert (Hall' : Forall (fun op => is_completed op = true) ops).
    { eapply Forall_impl; [exact Hall|]. intros op. cbv beta.
      unfold is_completed. destruct (completed_at op); congruence. }
    destruct (record_all_counts (new_history vmid) ops Hall') as [H1 H2].
    rewrite H1, H2. cbn. lia.
Qed.

Lemma C6_history_counts_completed_operations_witness :
  let H := record_all (new_history 101)
             [completed_ok s1_decision 1130; completed_failed s1_decision 1500] in
  operation_count H = 2 /\ success_count H + failure_count H = 2.
Proof.
  apply (proj2 (proj2 C6_history_counts_completed_operations) 101
           [completed_ok s1_decision 1130; completed_failed s1_decision 1500]).
  repeat constructor; discriminate.
Defined.

(** ** Threshold evaluation *)

Ltac threshold_cases :=
  unfold _make_scaling_decision;
  repeat match goal with
         | |- context [if ?b then _ else _] => destruct b eqn:?
         | H : context [if ?b then _ else _] |- _ => destruct b eqn:?
         end.

Ltac emitted := eexists; repeat split; reflexivity.

(** The sentence of C1 on simultaneous CPU pressure and idle memory does not
    hold at the upper bound: with 4 of 4 cores, 82 percent CPU and 20 percent
    memory the engine answers [NO_ACTION], not [SCALE_UP_CPU]. *)
Lemma C1_counterexample :
  ~ (forall now cfg cm m cl,
        (cpu_scale_up (thresholds cfg) <= cpu_usage_percent m)%Q ->
        (memory_usage_percent m <= memory_scale_down (thresholds cfg))%Q ->
        exists d, _make_scaling_decision now cfg cm m cl = Returned d /\
                  action d = SCALE_UP_CPU).
Proof.
  intros H.
  destruct (H 1120%Q s1_policy s1_container (s1_sample 1120 82 20 4) empty_cluster)
    as (d & Hd & Ha).
  - cbn. lra.
  - cbn. lra.
  - vm_compute in Hd. injection Hd as <-. discriminate Ha.
Qed.

(** C1, amended. The thresholds are tried in the order cpu-up, memory-up,
    cpu-down, memory-down and the first that matches decides: the target is
    the current value moved by one step and clamped to the bound, the
    scaling action is emitted when the target differs from the current value
    in the direction of the rule, and [NO_ACTION] with
    [RESOURCE_LIMIT_REACHED] otherwise.  When CPU is over its scale-up
    threshold and memory under its scale-down threshold the cpu-up rule
    decides: [SCALE_UP_CPU] below the core bound. *)
Theorem C1_thresholds_in_priority_order
    (now : Q) (cfg : ContainerConfig) (cm : ContainerMetrics)
    (m : ResourceMetrics) (cl : ClusterMetrics) :
  let t := thresholds cfg in
  let l := limits cfg in
  let cpu := cpu_usage_percent m in
  let mem := memory_usage_percent m in
  let cores := cpu_cores m in
  let memory := memory_total_mb m in
  let out := _make_scaling_decision now cfg cm m cl in
  let cores_up := Z.min (cores + cpu_step l) (max_cpu_cores l) in
  let memory_up := Z.min (memory + memory_step_mb l) (max_memory_mb l) in
  let cores_down := Z.max (cores - cpu_step l) (min_cpu_cores l) in
  let memory_down := Z.max (memory - memory_step_mb l) (min_memory_mb l) in
  ((cpu_scale_up t <= cpu)%Q ->
   (cores < cores_up -> emits out SCALE_UP_CPU CPU_HIGH (Some cores_up) None) /\
   (cores_up <= cores -> emits out NO_ACTION RESOURCE_LIMIT_REACHED None None)) /\
  ((cpu < cpu_scale_up t)%Q -> (memory_scale_up t <= mem)%Q ->
   (memory < memory_up -> emits out SCALE_UP_MEMORY MEMORY_HIGH None (Some memory_up)) /\
   (memory_up <= memory -> emits out NO_ACTION RESOURCE_LIMIT_REACHED None None)) /\
  ((cpu < cpu_scale_up t)%Q -> (mem < memory_scale_up t)%Q ->
   (cpu <= cpu_scale_down t)%Q ->
   (cores_down < cores -> emits out SCALE_DOWN_CPU CPU_LOW (Some cores_down) None) /\
   (cores <= cores_down -> emits out NO_ACTION RESOURCE_LIMIT_REACHED None None)) /\
  ((cpu < cpu_scale_up t)%Q -> (mem < memory_scale_up t)%Q ->
   (cpu_scale_down t < cpu)%Q -> (mem <= memory_scale_down t)%Q ->
   (memory_down < memory ->
    emits out SCALE_DOWN_MEMORY MEMORY_LOW None (Some memory_down)) /\
   (memory <= memory_down -> emits out NO_ACTION RESOURCE_LIMIT_REACHED None None)) /\
  ((cpu_scale_up t <= cpu)%Q -> (mem <= memory_scale_down t)%Q ->
   cores < cores_up -> emits out SCALE_UP_CPU CPU_HIGH (Some cores_up) None).
Proof.
  intros t l cpu mem cores memory out cores_up memory_up cores_down memory_down.
  subst out. unfold _make_scaling_decision.
  fold t l cpu mem cores memory. fold cores_up memory_up cores_down memory_down.
  split; [|split; [|split; [|split]]].
  - intros Hup. rewrite (proj2 (Qgeb_true _ _) Hup). split.
    + intros Hlt. rewrite (proj2 (Z.ltb_lt _ _) Hlt). emitted.
    + intros Hge. rewrite (proj2 (Z.ltb_ge _ _) Hge). emitted.
  - intros Hcpu Hup.
    rewrite (proj2 (Qgeb_false _ _) Hcpu), (proj2 (Qgeb_true _ _) Hup). split.
    + intros Hlt. rewrite (proj2 (Z.ltb_lt _ _) Hlt). emitted.
    + intros Hge. rewrite (proj2 (Z.ltb_ge _ _) Hge). emitted.
  - intros Hcpu Hmem Hdown.
    rewrite (proj2 (Qgeb_false _ _) Hcpu), (proj2 (Qgeb_false _ _) Hmem).
    rewrite (proj2 (Qle_bool_iff _ _) Hdown). split.
    + intros Hlt. rewrite (proj2 (Z.ltb_lt _ _) Hlt). emitted.
    + intros Hge. rewrite (proj2 (Z.ltb_ge _ _) Hge). emitted.
  - intros Hcpu Hmem Hcpu' Hdown.
    rewrite (proj2 (Qgeb_false _ _) Hcpu), (proj2 (Qgeb_false _ _) Hmem).
    rewrite (proj2 (Qle_bool_false _ _) Hcpu'), (proj2 (Qle_bool_iff _ _) Hdown). split.
    + intros Hlt. rewrite (proj2 (Z.ltb_lt _ _) Hlt). emitted.
    + intros Hge. rewrite (proj2 (Z.ltb_ge _ _) Hge). emitted.
  - intros Hup _ Hlt.
    rewrite (proj2 (Qgeb_true _ _) Hup), (proj2 (Z.ltb_lt _ _) Hlt). emitted.
Qed.

(** Scenario S6: 82 percent CPU and 20 percent memory on 2 of 4 cores. *)
Lemma C1_thresholds_in_priority_order_witness :
  emits (_make_scaling_decision 1120 s1_policy s1_container
           (s1_sample 1120 82 20 2) empty_cluster)
        SCALE_UP_CPU CPU_HIGH (Some 3) None.
Proof.
  apply (proj2 (proj2 (proj2 (proj2
           (C1_thresholds_in_priority_order 1120 s1_policy s1_container
              (s1_sample 1120 82 20 2) empty_cluster))))).
  - cbn. lra.
  - cbn. lra.
  - cbn. lia.
Defined.

(** Between the thresholds the source builds its decision with
    [ScalingReason.NO_ACTION]; the enum has no such member and the call
    raises instead of returning. *)
Lemma make_scaling_decision_between_thresholds
    (now : Q) (cfg : ContainerConfig) (cm : ContainerMetrics)
    (m : ResourceMetrics) (cl : ClusterMetrics) :
  (cpu_usage_percent m < cpu_scale_up (thresholds cfg))%Q ->
  (memory_usage_percent m < memory_scale_up (thresholds cfg))%Q ->
  (cpu_scale_down (thresholds cfg) < cpu_usage_percent m)%Q ->
  (memory_scale_down (thresholds cfg) < memory_usage_percent m)%Q ->
  _make_scaling_decision now cfg cm m cl = Raised (AttributeError "NO_ACTION").
Proof.
  intros Hcpu Hmem Hcpu' Hmem'. unfold _make_scaling_decision.
  rewrite (proj2 (Qgeb_false _ _) Hcpu), (proj2 (Qgeb_false _ _) Hmem).
  rewrite (proj2 (Qle_bool_false _ _) Hcpu'), (proj2 (Qle_bool_false _ _) Hmem').
  reflexivity.
Qed.

Example make_scaling_decision_at_50_percent :
  _make_scaling_decision 1120 s1_policy s1_container
    (s1_sample 1120 50 50 2) empty_cluster
  = Raised (AttributeError "NO_ACTION").
Proof. reflexivity. Qed.

(** ** Shape of the decisions *)

Lemma make_scaling_decision_shape
    (now : Q) (cfg : ContainerConfig) (cm : ContainerMetrics)
    (m : ResourceMetrics) (cl : ClusterMetrics) (d : ScalingDecision) :
  _make_scaling_decision now cfg cm m cl = Returned d -> decision_shape d.
Proof.
  threshold_cases; intros Hd; inversion Hd; subst; clear Hd;
    unfold decision_shape; cbn; eauto.
Qed.

Lemma evaluate_container_scaling_shape
    (self : ScalingEngine) (cfg : ContainerConfig) (cl : ClusterMetrics)
    (d : ScalingDecision) :
  _evaluate_container_scaling self cfg cl = Returned d -> decision_shape d.
Proof.
  unfold _evaluate_container_scaling.
  destruct (container_metrics self !! vmid cfg) as [cm|];
    [|intros Hd; inversion Hd; now split].
  destruct (negb (cm_status cm =? "running")%string);
    [intros Hd; inversion Hd; now split|].
  destruct (bool_decide _); [intros Hd; inversion Hd; now split|].
  destruct (is_in_cooldown _ _ _); [intros Hd; inversion Hd; now split|].
  destruct (get_average_metrics cm (evaluation_periods cfg)) as [[avg|]|e].
  - apply make_scaling_decision_shape.
  - intros Hd; inversion Hd; now split.
  - discriminate.
Qed.

Lemma generate_from_shape (self : ScalingEngine) (cl : ClusterMetrics)
    (cfgs : list ContainerConfig) (ds : list ScalingDecision) :
  generate_from self cl cfgs = Returned ds -> Forall decision_shape ds.
Proof.
  revert ds. induction cfgs as [|cfg cfgs IH]; intros ds; cbn.
  - intros Hd; inversion Hd. constructor.
  - destruct (negb (enabled cfg)); [apply IH|].
    destruct (_evaluate_container_scaling self cfg cl) as [d|e] eqn:Hd;
      [|discriminate].
    destruct (generate_from self cl cfgs) as [ds'|e]; [|discriminate].
    intros Hds; inversion Hds; subst. constructor.
    + eapply evaluate_container_scaling_shape; eassumption.
    + now apply IH.
Qed.

Lemma execute_all_Forall (P : ScalingDecision -> Prop) (gw : Gateway)
    (decisions : list ScalingDecision) :
  Forall P decisions ->
  forall (st st' : ScalingEngine) (executed ds : list ScalingDecision),
    Forall P executed ->
    snd (execute_all gw st decisions executed) = Finished st' (Returned ds) ->
    Forall P ds.
Proof.
  induction 1 as [|d rest Hd _ IH]; intros st st' executed ds Hex; cbn [execute_all].
  - cbn. intros Hr; inversion Hr; subst. exact Hex.
  - destruct (requires_scaling d).
    + destruct (_execute_scaling_decision gw st d) as [states [st1 [ok|e]|st1]];
        cbn [snd]; try discriminate.
      destruct (execute_all gw st1 rest _) as [states' r] eqn:Hrest.
      cbn [snd]. intros ->.
      apply (IH st1 st' (if ok then executed ++ [d] else executed)).
      * destruct ok; [apply Forall_app; split; [exact Hex|now constructor]|exact Hex].
      * now rewrite Hrest.
    + apply IH. apply Forall_app. split; [exact Hex|now constructor].
Qed.

Lemma evaluate_and_scale_shape (gw : Gateway) (c : Collected)
    (st st' : ScalingEngine) (ds : list ScalingDecision) :
  snd (evaluate_and_scale gw c st) = Finished st' (Returned ds) ->
  Forall decision_shape ds.
Proof.
  unfold evaluate_and_scale.
  destruct (collected_cluster c) as [cl|e].
  - destruct (negb (_check_cluster_safety _ cl)).
    { cbn. intros Hr; inversion Hr. constructor. }
    destruct (_generate_scaling_decisions (after_collect st c) cl) as [generated|e]
      eqn:Hgen.
    + destruct (execute_all gw (after_collect st c) generated []) as [states r] eqn:Hx.
      cbn [snd]. destruct r as [st1 [ds1|e]|st1]; cbn.
      * intros Hr; inversion Hr; subst.
        apply (execute_all_Forall decision_shape gw generated
                 (generate_from_shape _ _ _ _ Hgen) (after_collect st c) st' [] ds);
          [constructor|now rewrite Hx].
      * destruct (is_Exception e); discriminate.
      * discriminate.
    + cbn. destruct (is_Exception e); discriminate.
  - cbn. destruct (is_Exception e); discriminate.
Qed.

(** C5. Every decision the engine produces, from the threshold evaluation,
    from the evaluation of one container, in the list generated for a cycle
    or in the list a tick returns, has no target when its action is
    [NO_ACTION], only [target_cpu_cores] for a CPU action and only
    [target_memory_mb] for a memory action. *)
Theorem C5_decision_shape :
  (forall now cfg cm m cl d,
      _make_scaling_decision now cfg cm m cl = Returned d -> decision_shape d) /\
  (forall self cfg cl d,
      _evaluate_container_scaling self cfg cl = Returned d -> decision_shape d) /\
  (forall self cl ds,
      _generate_scaling_decisions self cl = Returned ds -> Forall decision_shape ds) /\
  (forall gw c self st ds,
      snd (evaluate_and_scale gw c self) = Finished st (Returned ds) ->
      Forall decision_shape ds).
Proof.
  split; [|split; [|split]].
  - exact make_scaling_decision_shape.
  - exact evaluate_container_scaling_shape.
  - intros self cl ds. apply generate_from_shape.
  - exact evaluate_and_scale_shape.
Qed.

Lemma C5_decision_shape_witness :
  decision_shape s1_decision.
Proof.
  apply (proj1 C5_decision_shape 1120%Q s1_policy s1_container
           (s1_sample 1120 (250 # 3) 50 2) empty_cluster).
  reflexivity.
Defined.

(** ** Preflight checks *)

Lemma is_in_cooldown_within (self : ScalingEngine) (cfg : ContainerConfig) :
  is_in_cooldown (clock self)
    (default (new_history (vmid cfg)) (scaling_history self !! vmid cfg))
    (cooldown_seconds cfg) = true
  <-> within_cooldown self cfg.
Proof.
  unfold within_cooldown, is_in_cooldown. split.
  - destruct (scaling_history self !! vmid cfg) as [h|]; cbn; [|discriminate].
    destruct (last_scaling_time h) as [t|] eqn:Ht; [|discriminate].
    intros Hlt. exists h, t. repeat split; trivial. now apply Qltb_true.
  - intros (h & t & -> & Ht & Hlt). cbn. rewrite Ht. now apply Qltb_true.
Qed.

(** C3. The evaluation of one container goes through five checks in this
    order, each answering [NO_ACTION] without looking at the thresholds:
    container not tracked ([INSUFFICIENT_DATA]), not running
    ([CONTAINER_NOT_RUNNING]), an active operation on the vmid
    ([COOLDOWN_PERIOD]), last completed operation less than
    [cooldown_seconds] ago ([COOLDOWN_PERIOD]), fewer than
    [evaluation_periods] samples ([INSUFFICIENT_DATA]).  When all five pass
    the answer is the threshold decision on the averaged sample. *)
Theorem C3_preflight_checks_in_order
    (self : ScalingEngine) (cfg : ContainerConfig) (cl : ClusterMetrics) :
  let out := _evaluate_container_scaling self cfg cl in
  (container_metrics self !! vmid cfg = None ->
   emits out NO_ACTION INSUFFICIENT_DATA None None) /\
  (forall cm, container_metrics self !! vmid cfg = Some cm ->
     (cm_status cm <> "running"%string ->
      emits out NO_ACTION CONTAINER_NOT_RUNNING None None) /\
     (cm_status cm = "running"%string ->
        (is_Some (active_operations self !! vmid cfg) ->
         emits out NO_ACTION COOLDOWN_PERIOD None None) /\
        (active_operations self !! vmid cfg = None ->
           (within_cooldown self cfg ->
            emits out NO_ACTION COOLDOWN_PERIOD None None) /\
           (~ within_cooldown self cfg ->
              (Z.of_nat (length (historical_metrics cm)) < evaluation_periods cfg ->
               emits out NO_ACTION INSUFFICIENT_DATA None None) /\
              (1 <= evaluation_periods cfg <= Z.of_nat (length (historical_metrics cm)) ->
               exists avg,
                 get_average_metrics cm (evaluation_periods cfg) = Returned (Some avg) /\
                 out = _make_scaling_decision (clock self) cfg cm avg cl))))).
Proof.
  intros out. subst out. unfold _evaluate_container_scaling. split.
  - intros ->. emitted.
  - intros cm ->. split.
    + intros Hstatus. rewrite (proj2 (String.eqb_neq _ _) Hstatus). emitted.
    + intros Hstatus. rewrite (proj2 (String.eqb_eq _ _) Hstatus). cbn [negb]. split.
      * intros Hactive. rewrite (bool_decide_eq_true_2 _ Hactive). emitted.
      * intros Hidle.
        rewrite bool_decide_eq_false_2 by (rewrite Hidle; apply is_Some_None).
        split.
        -- intros Hcool. rewrite (proj2 (is_in_cooldown_within self cfg) Hcool). emitted.
        -- intros Hcool.
           destruct (is_in_cooldown _ _ _) eqn:Hc;
             [exfalso; apply Hcool; now apply is_in_cooldown_within|].
           split.
           ++ intros Hfew.
              rewrite (get_average_metrics_few cm _ Hfew). emitted.
           ++ intros [Hone Hlen].
              destruct (get_average_metrics_enough cm _ (conj Hone Hlen)) as [avg Havg].
              exists avg. rewrite Havg. split; reflexivity.
Qed.

Lemma C3_preflight_checks_in_order_witness :
  emits (_evaluate_container_scaling s1_engine s1_policy s1_cluster)
        SCALE_UP_CPU CPU_HIGH (Some 3) None.
Proof.
  destruct (proj2 (C3_preflight_checks_in_order s1_engine s1_policy s1_cluster)
              s1_container) as [_ Hrunning].
  { reflexivity. }
  destruct (Hrunning eq_refl) as [_ Hidle].
  destruct (Hidle eq_refl) as [_ Hcool].
  destruct Hcool as [_ Henough].
  { intros (h & t & Hh & _). discriminate Hh. }
  destruct Henough as (avg & Havg & ->).
  { vm_compute. split; discriminate. }
  vm_compute in Havg. injection Havg as <-. emitted.
Defined.

(** ** The cluster-safety gate *)

Lemma nodes_within_thresholds_false (s : SafetyConfig) (nodes : list NodeMetrics) :
  nodes_within_thresholds s nodes = false
  <-> exists node, In node nodes /\
        ((max_cpu_usage_threshold s < node_cpu_usage_percent node)%Q \/
         (max_memory_usage_threshold s < node_memory_usage_percent node)%Q).
Proof.
  induction nodes as [|n nodes IH]; cbn [nodes_within_thresholds].
  - split; [discriminate|]. intros (node & [] & _).
  - unfold Qgtb.
    destruct (Qltb (max_cpu_usage_threshold s) (node_cpu_usage_percent n)) eqn:Hcpu.
    { split; [|reflexivity]. intros _. exists n. split; [now left|].
      left. now apply Qltb_true. }
    destruct (Qltb (max_memory_usage_threshold s) (node_memory_usage_percent n)) eqn:Hmem.
    { split; [|reflexivity]. intros _. exists n. split; [now left|].
      right. now apply Qltb_true. }
    rewrite IH. split.
    + intros (node & Hin & Hover). exists node. split; [now right|exact Hover].
    + intros (node & [<-|Hin] & Hover); [|now exists node].
      apply Qltb_false in Hcpu, Hmem. destruct Hover as [Hover|Hover]; lra.
Qed.

Lemma check_cluster_safety_closed (cfg : AutoscalerConfig) (cl : ClusterMetrics) :
  enable_host_protection (safety cfg) = true ->
  _check_cluster_safety cfg cl = false
  <-> node_under_stress (safety cfg) cl \/
      (cpu_available_percent (get_resource_availability cl) < 10)%Q \/
      (memory_available_percent (get_resource_availability cl) < 10)%Q.
Proof.
  intros Hon. unfold _check_cluster_safety, node_under_stress. rewrite Hon. cbn [negb].
  rewrite <- nodes_within_thresholds_false.
  destruct (nodes_within_thresholds (safety cfg) (node_metrics cl)); cbn [negb].
  - destruct (Qltb (cpu_available_percent _) 10) eqn:Hcpu.
    { apply Qltb_true in Hcpu. tauto. }
    destruct (Qltb (memory_available_percent _) 10) eqn:Hmem.
    { apply Qltb_true in Hmem. tauto. }
    apply Qltb_false in Hcpu, Hmem. split; [discriminate|].
    intros [Hn|[Hlt|Hlt]]; [discriminate|lra|lra].
  - tauto.
Qed.

Lemma evaluate_and_scale_gate_closed (gw : Gateway) (c : Collected)
    (self : ScalingEngine) (cl : ClusterMetrics) :
  collected_cluster c = Returned cl ->
  _check_cluster_safety (config self) cl = false ->
  evaluate_and_scale gw c self
  = ([after_collect self c], Finished (after_collect self c) (Returned [])).
Proof.
  intros Hc Hclosed. unfold evaluate_and_scale. rewrite Hc.
  cbn [after_collect config]. now rewrite Hclosed.
Qed.

(** C2. With host protection on, the gate is closed exactly when a node is
    over [max_cpu_usage_threshold] or [max_memory_usage_threshold], or the
    cluster has less than 10 percent CPU or memory available; with it off
    the gate is open.  A tick with the gate closed returns the empty list:
    the engine only takes over the collected metrics, nothing is registered,
    recorded or sent to the cluster. *)
Theorem C2_cluster_safety_gate (cfg : AutoscalerConfig) (cl : ClusterMetrics) :
  (enable_host_protection (safety cfg) = true ->
   (_check_cluster_safety cfg cl = false
    <-> node_under_stress (safety cfg) cl \/
        (cpu_available_percent (get_resource_availability cl) < 10)%Q \/
        (memory_available_percent (get_resource_availability cl) < 10)%Q)) /\
  (enable_host_protection (safety cfg) = false ->
   _check_cluster_safety cfg cl = true) /\
  (forall (gw : Gateway) (c : Collected) (self : ScalingEngine),
      config self = cfg ->
      collected_cluster c = Returned cl ->
      _check_cluster_safety cfg cl = false ->
      exists st,
        evaluate_and_scale gw c self = ([st], Finished st (Returned [])) /\
        resize_calls st = resize_calls self /\
        active_operations st = active_operations self /\
        scaling_history st = scaling_history self).
Proof.
  split; [|split].
  - apply check_cluster_safety_closed.
  - intros Hoff. unfold _check_cluster_safety. now rewrite Hoff.
  - intros gw c self <- Hc Hclosed. exists (after_collect self c).
    split; [now apply evaluate_and_scale_gate_closed with (cl := cl)|].
    repeat split.
Qed.

(** Scenario S5. *)
Lemma C2_cluster_safety_gate_witness :
  exists st,
    evaluate_and_scale obliging_gateway (collected s5_cluster) s1_engine
    = ([st], Finished st (Returned [])) /\
    resize_calls st = [] /\ active_operations st = ∅ /\ scaling_history st = ∅.
Proof.
  apply (proj2 (proj2 (C2_cluster_safety_gate s1_config s5_cluster))
           obliging_gateway (collected s5_cluster) s1_engine eq_refl eq_refl).
  apply (proj1 (C2_cluster_safety_gate s1_config s5_cluster) eq_refl).
  left. exists (node_at "pve" 97 50). split; [now left|].
  left. cbn. lra.
Defined.

Lemma py_max0_nonneg (x : Q) : (0 <= py_max0 x)%Q.
Proof.
  unfold py_max0. destruct (Qltb 0 x) eqn:Hx; [|lra].
  apply Qltb_true in Hx. lra.
Qed.

(** C10. Without node metrics the availability is 0 percent for CPU and
    for memory; with host protection on the gate is then closed although no
    node is over a threshold, and the tick returns no decision.  The
    availability is never negative. *)
Theorem C10_no_node_metrics_closes_gate :
  (forall cl, node_metrics cl = [] ->
     get_resource_availability cl
     = {| cpu_available_percent := 0; memory_available_percent := 0 |}) /\
  (forall cfg cl, node_metrics cl = [] ->
     enable_host_protection (safety cfg) = true ->
     _check_cluster_safety cfg cl = false /\ ~ node_under_stress (safety cfg) cl) /\
  (forall gw c self cl,
     collected_cluster c = Returned cl ->
     node_metrics cl = [] ->
     enable_host_protection (safety (config self)) = true ->
     exists st, evaluate_and_scale gw c self = ([st], Finished st (Returned []))) /\
  (forall cl,
     (0 <= cpu_available_percent (get_resource_availability cl))%Q /\
     (0 <= memory_available_percent (get_resource_availability cl))%Q).
Proof.
  assert (Hclosed : forall cfg cl, node_metrics cl = [] ->
            enable_host_protection (safety cfg) = true ->
            _check_cluster_safety cfg cl = false).
  { intros cfg cl Hnodes Hon.
    unfold _check_cluster_safety, get_resource_availability.
    rewrite Hon, Hnodes. reflexivity. }
  split; [|split; [|split]].
  - intros cl Hnodes. unfold get_resource_availability. now rewrite Hnodes.
  - intros cfg cl Hnodes Hon. split; [now apply Hclosed|].
    intros (node & Hin & _). rewrite Hnodes in Hin. destruct Hin.
  - intros gw c self cl Hc Hnodes Hon. eexists.
    apply evaluate_and_scale_gate_closed with (cl := cl); [exact Hc|].
    now apply Hclosed.
  - intros cl. unfold get_resource_availability.
    destruct (node_metrics cl); cbn; [split; lra|].
    split; apply py_max0_nonneg.
Qed.

Lemma C10_no_node_metrics_closes_gate_witness :
  exists st,
    evaluate_and_scale obliging_gateway (collected empty_cluster) s1_engine
    = ([st], Finished st (Returned [])).
Proof.
  apply (proj1 (proj2 (proj2 C10_no_node_metrics_closes_gate))
           obliging_gateway (collected empty_cluster) s1_engine empty_cluster);
    reflexivity.
Defined.

(** ** Registered operations *)

(** What the validators of [config/models.py] give the engine. *)
Lemma safety_valid_permits (s : SafetyConfig) :
  safety_valid s = true -> 1 <= max_concurrent_operations s.
Proof.
  unfold safety_valid. rewrite !andb_true_iff. intros [[[[H _] _] _] _]. lia.
Qed.

Lemma container_config_valid_periods (c : ContainerConfig) :
  container_config_valid c = true -> 1 <= evaluation_periods c.
Proof.
  unfold container_config_valid. rewrite !andb_true_iff. intros [_ H]. lia.
Qed.

Ltac active_size :=
  cbn;
  rewrite ?insert_insert_eq, ?insert_empty, ?delete_singleton_eq,
    ?map_size_singleton, ?map_size_empty;
  try reflexivity; try lia.

Ltac each_state tac :=
  repeat match goal with
         | |- Forall _ (_ :: _) => constructor; [tac|]
         | |- Forall _ [] => constructor
         end.

(** The daemon awaits one [evaluate_and_scale] after the other, and a tick
    awaits one execution after the other.  The health-check task runs in
    between but only reads the engine, so it is left out of the trace. *)
Section RegisteredOperations.

Variable gw : Gateway.
Variable cfg : AutoscalerConfig.
Hypothesis permits : 1 <= max_concurrent_operations (safety cfg).

Lemma quiescent_at_most_one (st : ScalingEngine) :
  quiescent cfg st -> at_most_one_active cfg st.
Proof.
  intros (Hcfg & Hactive & _). split; [exact Hcfg|].
  rewrite Hactive, map_size_empty. lia.
Qed.

(** One execution registers its operation, and nothing else, and removes it
    before it ends; it never waits on the semaphore. *)
Lemma execute_scaling_decision_states (st : ScalingEngine) (d : ScalingDecision) :
  quiescent cfg st ->
  Forall (at_most_one_active cfg) (fst (_execute_scaling_decision gw st d)) /\
  exists st' r,
    snd (_execute_scaling_decision gw st d) = Finished st' r /\ quiescent cfg st'.
Proof.
  intros (Hcfg & Hactive & Hsem). unfold _execute_scaling_decision.
  destruct (negb (requires_scaling d)).
  { split; [constructor|]. do 2 eexists. split; [reflexivity|]. now repeat split. }
  destruct (dry_run (config st)).
  { split; [constructor|]. do 2 eexists. split; [reflexivity|]. now repeat split. }
  cbn [set_active operation_semaphore].
  destruct (Z.leb_spec (operation_semaphore st) 0) as [Hz|_]; [lia|].
  unfold _perform_scaling.
  destruct (gw _ _) as [[[]|e] elapsed]; cbn [resize_outcome resize_elapsed];
    [|destruct (is_Exception e)].
  all: cbn [fst snd]; split;
    [ each_state ltac:(split; [exact Hcfg | cbn; rewrite ?Hactive; active_size])
    | do 2 eexists; split; [reflexivity|];
      split; [exact Hcfg|]; split; cbn; rewrite ?Hactive; active_size ].
Qed.

Lemma execute_all_states (decisions : list ScalingDecision) :
  forall (st : ScalingEngine) (executed : list ScalingDecision),
    quiescent cfg st ->
    Forall (at_most_one_active cfg) (fst (execute_all gw st decisions executed)) /\
    exists st' r,
      snd (execute_all gw st decisions executed) = Finished st' r /\
      quiescent cfg st'.
Proof.
  induction decisions as [|d rest IH]; intros st executed Hq.
  - cbn. split; [constructor|]. eauto.
  - cbn [execute_all]. destruct (requires_scaling d); [|now apply IH].
    destruct (execute_scaling_decision_states st d Hq)
      as (Hstates & st' & r & Hr & Hq').
    destruct (_execute_scaling_decision gw st d) as [states r0].
    cbn [fst snd] in Hstates, Hr. subst r0.
    destruct r as [ok|e].
    + destruct (IH st' (if ok then executed ++ [d] else executed) Hq')
        as (Hstates' & st'' & r' & Hr' & Hq'').
      destruct (execute_all gw st' rest _) as [states' r0].
      cbn [fst snd] in *. subst r0. split; [now apply Forall_app|]. eauto.
    + cbn [fst snd]. split; [exact Hstates|]. eauto.
Qed.

Lemma after_collect_quiescent (st : ScalingEngine) (c : Collected) :
  quiescent cfg st -> quiescent cfg (after_collect st c).
Proof. intros (Hcfg & Hactive & Hsem). now repeat split. Qed.

Lemma wrap_engine_error_finished {A} (st : ScalingEngine) (r : outcome A) :
  exists r', wrap_engine_error (Finished st r) = Finished st r'.
Proof.
  destruct r as [a|e]; cbn; [eauto|]. destruct (is_Exception e); eauto.
Qed.

Lemma evaluate_and_scale_states (c : Collected) (st : ScalingEngine) :
  quiescent cfg st ->
  Forall (at_most_one_active cfg) (fst (evaluate_and_scale gw c st)) /\
  exists st' r,
    snd (evaluate_and_scale gw c st) = Finished st' r /\ quiescent cfg st'.
Proof.
  intros Hq.
  pose proof (after_collect_quiescent st c Hq) as Hq0.
  pose proof (quiescent_at_most_one _ Hq0) as H0.
  unfold evaluate_and_scale.
  destruct (collected_cluster c) as [cl|e].
  - destruct (negb (_check_cluster_safety _ cl)).
    { cbn [fst snd]. split; [each_state ltac:(exact H0)|]. eauto. }
    destruct (_generate_scaling_decisions (after_collect st c) cl) as [ds|e].
    + destruct (execute_all_states ds (after_collect st c) [] Hq0)
        as (Hstates & st' & r & Hr & Hq').
      destruct (execute_all gw (after_collect st c) ds []) as [states r0].
      cbn [fst snd] in *. subst r0. split; [now constructor|].
      destruct (wrap_engine_error_finished st' r) as [r' ->]. eauto.
    + cbn [fst snd]. split; [each_state ltac:(exact H0)|].
      destruct (wrap_engine_error_finished (after_collect st c)
                  (Raised e : outcome (list ScalingDecision))) as [r' ->]. eauto.
  - cbn [fst snd]. split; [each_state ltac:(exact H0)|].
    destruct (wrap_engine_error_finished (after_collect st c)
                (Raised e : outcome (list ScalingDecision))) as [r' ->]. eauto.
Qed.

Lemma main_loop_states (ticks : list Collected) :
  forall st : ScalingEngine,
    quiescent cfg st -> Forall (at_most_one_active cfg) (main_loop gw ticks st).
Proof.
  induction ticks as [|c ticks IH]; intros st Hq; cbn [main_loop].
  - constructor.
  - destruct (evaluate_and_scale_states c st Hq)
      as (Hstates & st' & r & Hr & Hq').
    destruct (evaluate_and_scale gw c st) as [states r0].
    cbn [fst snd] in *. subst r0.
    destruct r as [ds|e]; [|destruct (is_Exception e)];
      try apply Forall_app; auto.
Qed.

(** C7. In every state the engine goes through while the daemon runs its
    ticks, [active_operations] has at most [max_concurrent_operations]
    entries. *)
Theorem C7_active_operations_within_limit
    (now : Q) (ticks : list Collected) (st : ScalingEngine) :
  In st (instants gw cfg now ticks) ->
  config st = cfg /\
  Z.of_nat (size (active_operations st)) <= max_concurrent_operations (safety cfg).
Proof.
  intros Hin.
  assert (Hall : Forall (at_most_one_active cfg) (instants gw cfg now ticks)).
  { unfold instants. constructor.
    - apply quiescent_at_most_one. now repeat split.
    - apply main_loop_states. now repeat split. }
  rewrite Forall_forall in Hall. destruct (Hall st) as [Hcfg Hsize].
  - now apply list_elem_of_In.
  - split; [exact Hcfg|lia].
Qed.

(** With at least one permit no execution ever waits on the semaphore, and
    every tick ends with nothing registered. *)
Lemma evaluate_and_scale_never_blocked (c : Collected) (st : ScalingEngine) :
  quiescent cfg st ->
  exists st' r,
    snd (evaluate_and_scale gw c st) = Finished st' r /\
    active_operations st' = ∅.
Proof.
  intros Hq.
  destruct (evaluate_and_scale_states c st Hq)
    as (_ & st' & r & Hr & _ & Hactive & _).
  eauto.
Qed.

End RegisteredOperations.

Lemma C7_active_operations_within_limit_witness :
  size (active_operations s1_registered) = 1%nat /\
  Z.of_nat (size (active_operations s1_registered)) <= 3.
Proof.
  split; [reflexivity|].
  apply (C7_active_operations_within_limit obliging_gateway s1_config
           (safety_valid_permits default_safety eq_refl) 1000
           [collected s1_cluster; collected s1_cluster] s1_registered).
  vm_compute. right; right; left. reflexivity.
Defined.

(** ** Scenarios *)

(** S1: the tick scales container 101 from 2 to 3 cores and passes the
    current memory along. *)
Example scenario_s1 :
  match snd (evaluate_and_scale obliging_gateway (collected s1_cluster) s1_engine) with
  | Finished st (Returned [d]) =>
      action d = SCALE_UP_CPU /\ reason d = CPU_HIGH /\
      target_cpu_cores d = Some 3 /\
      resize_calls st
      = [{| rc_node := "pve"; rc_vmid := 101; rc_cpu_cores := 3;
            rc_memory_mb := 2048 |}] /\
      (operation_count <$> scaling_history st !! 101) = Some 1
  | _ => False
  end.
Proof. vm_compute. repeat split. Qed.

(** S2: at 4 of 4 cores the answer is [RESOURCE_LIMIT_REACHED]. *)
Example scenario_s2 :
  emits (_make_scaling_decision 1120 s1_policy s1_container
           (s1_sample 1120 90 50 4) s1_cluster)
        NO_ACTION RESOURCE_LIMIT_REACHED None None.
Proof. emitted. Qed.

(** S3: the tick after S1 finds the container in its cooldown and sends
    nothing to the cluster. *)
Example scenario_s3 :
  match snd (evaluate_and_scale obliging_gateway (collected s1_cluster) s1_engine) with
  | Finished st _ =>
      match snd (evaluate_and_scale obliging_gateway (collected s1_cluster) st) with
      | Finished st' (Returned [d]) =>
          action d = NO_ACTION /\ reason d = COOLDOWN_PERIOD /\
          resize_calls st' = resize_calls st /\
          scaling_history st' = scaling_history st
      | _ => False
      end
  | _ => False
  end.
Proof. vm_compute. repeat split. Qed.

(** S4: two samples are not enough for three evaluation periods. *)
Example scenario_s4 :
  emits (_evaluate_container_scaling
           (new_engine s1_config
              {[ 101 := add_all (new_container_metrics 101 "pve" "ct-101" "running" 60)
                          [s1_sample 1000 82 50 2; s1_sample 1060 85 50 2] ]} 1120)
           s1_policy s1_cluster)
        NO_ACTION INSUFFICIENT_DATA None None.
Proof. vm_compute. emitted. Qed.

(** A container between its thresholds fails the whole tick. *)
Example idle_container_fails_the_tick :
  snd (evaluate_and_scale obliging_gateway idle_collected s1_engine)
  = Finished (after_collect s1_engine idle_collected)
      (Raised (ScalingEngineError (AttributeError "NO_ACTION"))).
Proof. vm_compute. reflexivity. Qed.

(** * Further properties *)

(** ** Targets of the threshold decisions *)

Ltac reflect_Z :=
  repeat match goal with
         | H : (_ <? _) = true |- _ => apply Z.ltb_lt in H
         | H : (_ <? _) = false |- _ => apply Z.ltb_ge in H
         end.

(** X1. A scaling decision moves one resource only, by at least one unit
    and at most one step, and never past the limit on its side; a
    [NO_ACTION] decision changes nothing. *)
Theorem scaling_change_within_step_and_limits
    (now : Q) (cfg : ContainerConfig) (cm : ContainerMetrics)
    (m : ResourceMetrics) (cl : ClusterMetrics) (d : ScalingDecision) :
  _make_scaling_decision now cfg cm m cl = Returned d ->
  current_cpu_cores d = cpu_cores m /\
  current_memory_mb d = memory_total_mb m /\
  match action d with
  | SCALE_UP_CPU =>
      0 < cpu_change d <= cpu_step (limits cfg) /\
      current_cpu_cores d + cpu_change d <= max_cpu_cores (limits cfg) /\
      memory_change_mb d = 0
  | SCALE_DOWN_CPU =>
      - cpu_step (limits cfg) <= cpu_change d < 0 /\
      min_cpu_cores (limits cfg) <= current_cpu_cores d + cpu_change d /\
      memory_change_mb d = 0
  | SCALE_UP_MEMORY =>
      0 < memory_change_mb d <= memory_step_mb (limits cfg) /\
      current_memory_mb d + memory_change_mb d <= max_memory_mb (limits cfg) /\
      cpu_change d = 0
  | SCALE_DOWN_MEMORY =>
      - memory_step_mb (limits cfg) <= memory_change_mb d < 0 /\
      min_memory_mb (limits cfg) <= current_memory_mb d + memory_change_mb d /\
      cpu_change d = 0
  | NO_ACTION => cpu_change d = 0 /\ memory_change_mb d = 0
  end.
Proof.
  threshold_cases; intros Hd; inversion Hd; subst; clear Hd; reflect_Z;
    unfold cpu_change, memory_change_mb; cbn; lia.
Qed.

Lemma scaling_change_within_step_and_limits_witness :
  0 < cpu_change s1_decision <= 1 /\ memory_change_mb s1_decision = 0.
Proof.
  destruct (scaling_change_within_step_and_limits 1120 s1_policy s1_container
              (s1_sample 1120 (250 # 3) 50 2) empty_cluster s1_decision eq_refl)
    as (_ & _ & Hcpu & _ & Hmem).
  exact (conj Hcpu Hmem).
Defined.

(** ** One execution *)

Lemma execute_scaling_decision_performed (gw : Gateway) (st : ScalingEngine)
    (d : ScalingDecision) :
  requires_scaling d = true ->
  dry_run (config st) = false ->
  0 < operation_semaphore st ->
  let answer := gw (resize_calls st) (resize_call_of d) in
  let ok := match resize_outcome answer with Returned _ => true | Raised _ => false end in
  match resize_outcome answer with Raised e => is_Exception e = true | _ => True end ->
  exists st' op,
    snd (_execute_scaling_decision gw st d) = Finished st' (Returned ok) /\
    resize_calls st' = resize_calls st ++ [resize_call_of d] /\
    clock st' = (clock st + resize_elapsed answer)%Q /\
    active_operations st' = delete (d_vmid d) (active_operations st) /\
    operation_semaphore st' = operation_semaphore st /\
    config st' = config st /\
    container_metrics st' = container_metrics st /\
    decision op = d /\ started_at op = clock st /\
    completed_at op = Some (clock st') /\ success op = Some ok /\
    scaling_history st'
    = <[d_vmid d := record_operation
                      (default (new_history (d_vmid d))
                         (scaling_history st !! d_vmid d)) op]>
        (scaling_history st).
Proof.
  intros Hscale Hdry Hsem answer ok Hexn. subst ok answer.
  unfold _execute_scaling_decision. rewrite Hscale, Hdry. cbn [negb].
  cbn [set_active operation_semaphore].
  destruct (Z.leb_spec (operation_semaphore st) 0) as [Hz|_]; [lia|].
  unfold _perform_scaling. fold (resize_call_of d). cbn [set_semaphore set_active resize_calls].
  destruct (gw (resize_calls st) (resize_call_of d)) as [[[]|e] elapsed];
    cbn [resize_outcome resize_elapsed] in *.
  - eexists.
    exists (complete_success (clock st + elapsed)%Q
              {| decision := d; started_at := clock st; completed_at := None;
                 success := None; error_message := None |}).
    cbn [snd]. split; [reflexivity|]. cbn -[record_operation].
    rewrite insert_insert_eq, delete_insert_eq.
    repeat split; try reflexivity. lia.
  - rewrite Hexn. eexists.
    exists (complete_failure (clock st + elapsed)%Q
              ("Scaling operation failed: " ++ exn_str e)
              {| decision := d; started_at := clock st; completed_at := None;
                 success := None; error_message := None |}).
    cbn [snd]. split; [reflexivity|]. cbn -[record_operation].
    rewrite insert_insert_eq, delete_insert_eq.
    repeat split; try reflexivity. lia.
Qed.

(** X2. An execution that is not a dry run sends exactly one resize to the
    cluster and, whether the cluster accepts it or fails it, records it: the
    history of the container counts one more operation, on the side of the
    outcome, stamped with the clock at completion; the histories of the
    other containers are untouched and the operation is no longer
    registered. *)
Theorem execution_is_recorded_once (gw : Gateway) (st : ScalingEngine)
    (d : ScalingDecision) :
  requires_scaling d = true ->
  dry_run (config st) = false ->
  0 < operation_semaphore st ->
  let answer := gw (resize_calls st) (resize_call_of d) in
  let ok := match resize_outcome answer with Returned _ => true | Raised _ => false end in
  let before :=
    default (new_history (d_vmid d)) (scaling_history st !! d_vmid d) in
  match resize_outcome answer with Raised e => is_Exception e = true | _ => True end ->
  exists st' after,
    snd (_execute_scaling_decision gw st d) = Finished st' (Returned ok) /\
    resize_calls st' = resize_calls st ++ [resize_call_of d] /\
    scaling_history st' !! d_vmid d = Some after /\
    operation_count after = operation_count before + 1 /\
    success_count after = success_count before + (if ok then 1 else 0) /\
    failure_count after = failure_count before + (if ok then 0 else 1) /\
    last_scaling_time after = Some (clock st') /\
    last_scaling_action after = Some (action d) /\
    (forall v, v <> d_vmid d -> scaling_history st' !! v = scaling_history st !! v) /\
    active_operations st' !! d_vmid d = None.
Proof.
  intros Hscale Hdry Hsem answer ok before Hexn.
  destruct (execute_scaling_decision_performed gw st d Hscale Hdry Hsem Hexn)
    as (st' & op & Hrun & Hcalls & _ & Hactive & _ & _ & _ & Hd & _ & Hdone & Hok & Hhist).
  fold answer ok in Hrun, Hok. fold before in Hhist.
  exists st', (record_operation before op).
  split; [exact Hrun|]. split; [exact Hcalls|].
  split; [rewrite Hhist; apply lookup_insert_eq|].
  unfold record_operation, is_completed, is_successful. rewrite Hdone, Hok, Hd.
  cbn [negb operation_count success_count failure_count last_scaling_time
         last_scaling_action].
  repeat split.
  - destruct ok; lia.
  - destruct ok; lia.
  - intros v Hv. rewrite Hhist. now apply lookup_insert_ne.
  - rewrite Hactive. apply lookup_delete_eq.
Qed.

Lemma execution_is_recorded_once_witness :
  exists st' after,
    snd (_execute_scaling_decision obliging_gateway s1_engine s1_decision)
    = Finished st' (Returned true) /\
    scaling_history st' !! 101 = Some after /\
    operation_count after = 1 /\ success_count after = 1 /\ failure_count after = 0.
Proof.
  destruct (execution_is_recorded_once obliging_gateway s1_engine s1_decision
              eq_refl eq_refl eq_refl I)
    as (st' & after & Hrun & _ & Hafter & Hcount & Hsucc & Hfail & _).
  exists st', after. repeat split; assumption.
Defined.

(** ** Cooldown after an execution *)

Lemma evaluate_container_scaling_cooldown
    (self : ScalingEngine) (cfg : ContainerConfig) (cl : ClusterMetrics)
    (cm : ContainerMetrics) (h : ScalingHistory) (t : Q) :
  container_metrics self !! vmid cfg = Some cm ->
  cm_status cm = "running"%string ->
  active_operations self !! vmid cfg = None ->
  scaling_history self !! vmid cfg = Some h ->
  last_scaling_time h = Some t ->
  (clock self - t < inject_Z (cooldown_seconds cfg))%Q ->
  emits (_evaluate_container_scaling self cfg cl) NO_ACTION COOLDOWN_PERIOD None None.
Proof.
  intros Hcm Hrun Hidle Hh Ht Hlt. unfold _evaluate_container_scaling.
  rewrite Hcm, (proj2 (String.eqb_eq _ _) Hrun). cbn [negb].
  rewrite bool_decide_eq_false_2 by (rewrite Hidle; apply is_Some_None).
  rewrite Hh. cbn [default from_option id]. unfold is_in_cooldown. rewrite Ht.
  rewrite (proj2 (Qltb_true _ _) Hlt). emitted.
Qed.

(** X3. After an execution that reached the cluster, accepted or failed, the
    next evaluation of the container answers [COOLDOWN_PERIOD] as long as
    less than [cooldown_seconds] have passed since the operation was
    completed. *)
Theorem execution_starts_cooldown (gw : Gateway) (st : ScalingEngine)
    (d : ScalingDecision) (cfg : ContainerConfig) (c : Collected)
    (cm : ContainerMetrics) (cl : ClusterMetrics) :
  requires_scaling d = true ->
  dry_run (config st) = false ->
  0 < operation_semaphore st ->
  match resize_outcome (gw (resize_calls st) (resize_call_of d)) with
  | Raised e => is_Exception e = true
  | _ => True
  end ->
  vmid cfg = d_vmid d ->
  collected_containers c !! vmid cfg = Some cm ->
  cm_status cm = "running"%string ->
  (collect_elapsed c < inject_Z (cooldown_seconds cfg))%Q ->
  exists st' ok,
    snd (_execute_scaling_decision gw st d) = Finished st' (Returned ok) /\
    emits (_evaluate_container_scaling (after_collect st' c) cfg cl)
          NO_ACTION COOLDOWN_PERIOD None None.
Proof.
  intros Hscale Hdry Hsem Hexn Hvmid Hcm Hrun Hlt.
  destruct (execute_scaling_decision_performed gw st d Hscale Hdry Hsem Hexn)
    as (st' & op & Hfin & _ & _ & Hactive & _ & _ & _ & _ & _ & Hdone & _ & Hhist).
  exists st'. eexists. split; [exact Hfin|].
  eapply evaluate_container_scaling_cooldown with (cm := cm) (t := clock st').
  - exact Hcm.
  - exact Hrun.
  - cbn [after_collect active_operations]. rewrite Hactive, Hvmid.
    apply lookup_delete_eq.
  - cbn [after_collect scaling_history]. rewrite Hhist, Hvmid.
    apply lookup_insert_eq.
  - unfold record_operation, is_completed. rewrite Hdone. reflexivity.
  - cbn [after_collect clock]. lra.
Qed.

Lemma execution_starts_cooldown_witness :
  exists st' ok,
    snd (_execute_scaling_decision obliging_gateway s1_engine s1_decision)
    = Finished st' (Returned ok) /\
    emits (_evaluate_container_scaling (after_collect st' (collected s1_cluster))
             s1_policy s1_cluster)
          NO_ACTION COOLDOWN_PERIOD None None.
Proof.
  apply (execution_starts_cooldown obliging_gateway s1_engine s1_decision
           s1_policy (collected s1_cluster) s1_container s1_cluster);
    first [exact I | reflexivity].
Defined.

(** ** Dry run *)

Lemma execute_all_dry_run (gw : Gateway) (st : ScalingEngine)
    (decisions executed : list ScalingDecision) :
  dry_run (config st) = true ->
  execute_all gw st decisions executed
  = ([], Finished st (Returned (executed ++ decisions))).
Proof.
  intros Hdry. revert executed.
  induction decisions as [|d rest IH]; intros executed; cbn [execute_all].
  - now rewrite app_nil_r.
  - destruct (requires_scaling d) eqn:Hscale.
    + unfold _execute_scaling_decision. rewrite Hscale, Hdry. cbn [negb].
      rewrite IH. cbn [app]. now rewrite <- app_assoc.
    + rewrite IH. now rewrite <- app_assoc.
Qed.

(** X4. In dry-run mode a tick returns every generated decision, scaling
    ones included, and changes nothing besides taking over the collected
    metrics: no resize is sent, no operation is recorded, so no cooldown
    ever starts. *)
Theorem dry_run_tick_only_reports (gw : Gateway) (c : Collected)
    (self : ScalingEngine) (cl : ClusterMetrics) (ds : list ScalingDecision) :
  dry_run (config self) = true ->
  collected_cluster c = Returned cl ->
  _check_cluster_safety (config self) cl = true ->
  _generate_scaling_decisions (after_collect self c) cl = Returned ds ->
  evaluate_and_scale gw c self
  = ([after_collect self c], Finished (after_collect self c) (Returned ds)) /\
  resize_calls (after_collect self c) = resize_calls self /\
  scaling_history (after_collect self c) = scaling_history self.
Proof.
  intros Hdry Hc Hsafe Hgen. split; [|split; reflexivity].
  unfold evaluate_and_scale. rewrite Hc. cbn [after_collect config].
  rewrite Hsafe. cbn [negb].
  change (mkScalingEngine (config self) (collected_containers c)
            (active_operations self) (scaling_history self)
            (operation_semaphore self) (resize_calls self)
            (clock self + collect_elapsed c)%Q)
    with (after_collect self c).
  rewrite Hgen, execute_all_dry_run by exact Hdry. reflexivity.
Qed.

(** ** The decisions of a cycle *)

Lemma make_scaling_decision_vmid
    (now : Q) (cfg : ContainerConfig) (cm : ContainerMetrics)
    (m : ResourceMetrics) (cl : ClusterMetrics) (d : ScalingDecision) :
  _make_scaling_decision now cfg cm m cl = Returned d -> d_vmid d = vmid cfg.
Proof. threshold_cases; intros Hd; inversion Hd; reflexivity. Qed.

Lemma evaluate_container_scaling_vmid
    (self : ScalingEngine) (cfg : ContainerConfig) (cl : ClusterMetrics)
    (d : ScalingDecision) :
  _evaluate_container_scaling self cfg cl = Returned d -> d_vmid d = vmid cfg.
Proof.
  unfold _evaluate_container_scaling.
  destruct (container_metrics self !! vmid cfg) as [cm|];
    [|intros Hd; now inversion Hd].
  destruct (negb (cm_status cm =? "running")%string); [intros Hd; now inversion Hd|].
  destruct (bool_decide _); [intros Hd; now inversion Hd|].
  destruct (is_in_cooldown _ _ _); [intros Hd; now inversion Hd|].
  destruct (get_average_metrics cm (evaluation_periods cfg)) as [[avg|]|e].
  - apply make_scaling_decision_vmid.
  - intros Hd; now inversion Hd.
  - discriminate.
Qed.

(** X5. When the generation of a cycle returns, it holds one decision per
    enabled container, in the order of the configuration; disabled
    containers get none. *)
Theorem one_decision_per_enabled_container
    (self : ScalingEngine) (cl : ClusterMetrics) (ds : list ScalingDecision) :
  _generate_scaling_decisions self cl = Returned ds ->
  map d_vmid ds = map vmid (List.filter enabled (containers (config self))).
Proof.
  unfold _generate_scaling_decisions. generalize (containers (config self)).
  intros cfgs. revert ds.
  induction cfgs as [|cfg cfgs IH]; intros ds; cbn [generate_from List.filter].
  - intros Hd; now inversion Hd.
  - destruct (enabled cfg); cbn [negb]; [|apply IH].
    destruct (_evaluate_container_scaling self cfg cl) as [d|e] eqn:Hd;
      [|discriminate].
    destruct (generate_from self cl cfgs) as [ds'|e]; [|discriminate].
    intros Hds; inversion Hds; subst. cbn [map].
    f_equal; [now apply evaluate_container_scaling_vmid with (self := self) (cl := cl)|].
    now apply IH.
Qed.

Lemma one_decision_per_enabled_container_witness :
  exists ds, _generate_scaling_decisions s1_engine s1_cluster = Returned ds /\
             map d_vmid ds = [101].
Proof.
  destruct (_generate_scaling_decisions s1_engine s1_cluster) as [ds|e] eqn:Hgen.
  - exists ds. split; [reflexivity|].
    exact (one_decision_per_enabled_container s1_engine s1_cluster ds Hgen).
  - vm_compute in Hgen. discriminate Hgen.
Defined.

Lemma dry_run_tick_only_reports_witness :
  exists d,
    evaluate_and_scale obliging_gateway (collected s1_cluster) s1_dry_engine
    = ([after_collect s1_dry_engine (collected s1_cluster)],
       Finished (after_collect s1_dry_engine (collected s1_cluster)) (Returned [d])) /\
    action d = SCALE_UP_CPU.
Proof.
  assert (Hgen : exists d,
             _generate_scaling_decisions
               (after_collect s1_dry_engine (collected s1_cluster)) s1_cluster
             = Returned [d] /\ action d = SCALE_UP_CPU).
  { vm_compute. eexists. split; reflexivity. }
  destruct Hgen as (d & Hgen & Hact). exists d. split; [|exact Hact].
  apply (dry_run_tick_only_reports obliging_gateway (collected s1_cluster)
           s1_dry_engine s1_cluster [d]);
    [reflexivity|reflexivity|vm_compute; reflexivity|exact Hgen].
Defined.

(** ** A cycle that fails *)

Lemma evaluate_container_scaling_raises
    (self : ScalingEngine) (cfg : ContainerConfig) (cl : ClusterMetrics) (e : exn) :
  _evaluate_container_scaling self cfg cl = Raised e -> is_Exception e = true.
Proof.
  unfold _evaluate_container_scaling.
  destruct (container_metrics self !! vmid cfg) as [cm|]; [|discriminate].
  destruct (negb (cm_status cm =? "running")%string); [discriminate|].
  destruct (bool_decide _); [discriminate|].
  destruct (is_in_cooldown _ _ _); [discriminate|].
  unfold get_average_metrics.
  destruct (_ <? _); [discriminate|].
  destruct (_ =? 0); [intros He; now inversion He|].
  destruct (last _); [|intros He; now inversion He].
  threshold_cases; try discriminate. intros He; now inversion He.
Qed.

Lemma generate_from_raises (self : ScalingEngine) (cl : ClusterMetrics)
    (cfgs : list ContainerConfig) (cfg : ContainerConfig) (e : exn) :
  In cfg cfgs -> enabled cfg = true ->
  _evaluate_container_scaling self cfg cl = Raised e ->
  exists e', generate_from self cl cfgs = Raised e' /\ is_Exception e' = true.
Proof.
  intros Hin Hon Hraise. induction cfgs as [|cfg0 cfgs IH]; [destruct Hin|].
  cbn [generate_from].
  destruct (enabled cfg0) eqn:Hon0; cbn [negb].
  - destruct (_evaluate_container_scaling self cfg0 cl) as [d0|e0] eqn:H0.
    + destruct Hin as [->|Hin]; [congruence|].
      destruct (IH Hin) as (e' & -> & He'). eauto.
    + exists e0. split; [reflexivity|].
      now apply evaluate_container_scaling_raises in H0.
  - destruct Hin as [->|Hin]; [congruence|]. now apply IH.
Qed.

Lemma evaluate_container_scaling_between_thresholds
    (self : ScalingEngine) (cfg : ContainerConfig) (cl : ClusterMetrics)
    (cm : ContainerMetrics) (avg : ResourceMetrics) :
  container_metrics self !! vmid cfg = Some cm ->
  cm_status cm = "running"%string ->
  active_operations self !! vmid cfg = None ->
  scaling_history self !! vmid cfg = None ->
  get_average_metrics cm (evaluation_periods cfg) = Returned (Some avg) ->
  (cpu_scale_down (thresholds cfg) < cpu_usage_percent avg
   < cpu_scale_up (thresholds cfg))%Q ->
  (memory_scale_down (thresholds cfg) < memory_usage_percent avg
   < memory_scale_up (thresholds cfg))%Q ->
  _evaluate_container_scaling self cfg cl = Raised (AttributeError "NO_ACTION").
Proof.
  intros Hcm Hrun Hidle Hhist Havg [Hc1 Hc2] [Hm1 Hm2].
  unfold _evaluate_container_scaling.
  rewrite Hcm, (proj2 (String.eqb_eq _ _) Hrun). cbn [negb].
  rewrite bool_decide_eq_false_2 by (rewrite Hidle; apply is_Some_None).
  rewrite Hhist. cbn [default from_option id new_history is_in_cooldown last_scaling_time].
  rewrite Havg. now apply make_scaling_decision_between_thresholds.
Qed.

(** X6. One container that was never scaled and whose averaged usage lies
    strictly between its thresholds fails the whole tick: the evaluation
    raises, the tick ends in [ScalingEngineError] and no container is
    resized, whatever the other containers need. *)
Theorem idle_container_fails_every_tick
    (gw : Gateway) (c : Collected) (self : ScalingEngine) (cl : ClusterMetrics)
    (cfg : ContainerConfig) (cm : ContainerMetrics) (avg : ResourceMetrics) :
  collected_cluster c = Returned cl ->
  In cfg (containers (config self)) ->
  enabled cfg = true ->
  collected_containers c !! vmid cfg = Some cm ->
  cm_status cm = "running"%string ->
  active_operations self !! vmid cfg = None ->
  scaling_history self !! vmid cfg = None ->
  get_average_metrics cm (evaluation_periods cfg) = Returned (Some avg) ->
  (cpu_scale_down (thresholds cfg) < cpu_usage_percent avg
   < cpu_scale_up (thresholds cfg))%Q ->
  (memory_scale_down (thresholds cfg) < memory_usage_percent avg
   < memory_scale_up (thresholds cfg))%Q ->
  _check_cluster_safety (config self) cl = true ->
  exists e,
    evaluate_and_scale gw c self
    = ([after_collect self c],
       Finished (after_collect self c) (Raised (ScalingEngineError e))) /\
    resize_calls (after_collect self c) = resize_calls self.
Proof.
  intros Hc Hin Hon Hcm Hrun Hidle Hhist Havg Hcpu Hmem Hsafe.
  destruct (generate_from_raises (after_collect self c) cl
              (containers (config self)) cfg (AttributeError "NO_ACTION") Hin Hon)
    as (e & Hgen & He).
  { now apply evaluate_container_scaling_between_thresholds with (cm := cm) (avg := avg). }
  exists e. split; [|reflexivity].
  unfold evaluate_and_scale. rewrite Hc.
  change (config (after_collect self c)) with (config self).
  rewrite Hsafe. cbn [negb]. unfold _generate_scaling_decisions.
  change (config (after_collect self c)) with (config self).
  rewrite Hgen. cbn [wrap_engine_error]. now rewrite He.
Qed.

Lemma idle_container_fails_every_tick_witness :
  exists e,
    evaluate_and_scale obliging_gateway two_containers_collected two_containers_engine
    = ([after_collect two_containers_engine two_containers_collected],
       Finished (after_collect two_containers_engine two_containers_collected)
         (Raised (ScalingEngineError e))) /\
    resize_calls (after_collect two_containers_engine two_containers_collected) = [].
Proof.
  apply (idle_container_fails_every_tick obliging_gateway two_containers_collected
           two_containers_engine s1_cluster idle_policy idle_102
           (s1_sample 1120 50 50 2)).
  - reflexivity.
  - now left.
  - reflexivity.
  - reflexivity.
  - reflexivity.
  - reflexivity.
  - reflexivity.
  - reflexivity.
  - cbn. split; lra.
  - cbn. split; lra.
  - reflexivity.
Defined.

(** ** What a tick returns and what it sends *)

Lemma execute_all_returned (gw : Gateway) (decisions : list ScalingDecision) :
  forall (st st' : ScalingEngine) (executed out : list ScalingDecision),
    snd (execute_all gw st decisions executed) = Finished st' (Returned out) ->
    exists kept,
      out = executed ++ kept /\
      sublist kept decisions /\
      List.filter not_scaling kept = List.filter not_scaling decisions.
Proof.
  induction decisions as [|d rest IH]; intros st st' executed out; cbn [execute_all].
  - cbn. intros Hr; inversion Hr; subst. exists []. rewrite app_nil_r.
    repeat split. constructor.
  - unfold not_scaling. cbn [List.filter].
    destruct (requires_scaling d) eqn:Hscale; cbn [negb].
    + destruct (_execute_scaling_decision gw st d) as [states [st1 [ok|e]|st1]];
        cbn [snd]; try discriminate.
      destruct (execute_all gw st1 rest _) as [states' r] eqn:Hrest.
      cbn [snd]. intros ->.
      destruct (IH st1 st' (if ok then executed ++ [d] else executed) out)
        as (kept & Hout & Hsub & Hfilter); [now rewrite Hrest|].
      destruct ok.
      * exists (d :: kept). rewrite Hout, <- app_assoc. cbn [app List.filter].
        rewrite Hscale. cbn [negb]. repeat split; [now constructor|exact Hfilter].
      * exists kept. repeat split; [exact Hout|now constructor|exact Hfilter].
    + intros Hrun.
      destruct (IH st st' (executed ++ [d]) out Hrun) as (kept & Hout & Hsub & Hfilter).
      exists (d :: kept). rewrite Hout, <- app_assoc. cbn [app List.filter].
      rewrite Hscale. cbn [negb]. repeat split; [now constructor|now f_equal].
Qed.

Lemma execute_scaling_decision_answer (gw : Gateway) (st st1 : ScalingEngine)
    (d : ScalingDecision) (ok : bool) :
  requires_scaling d = true ->
  dry_run (config st) = false ->
  0 < operation_semaphore st ->
  snd (_execute_scaling_decision gw st d) = Finished st1 (Returned ok) ->
  ok = match resize_outcome (gw (resize_calls st) (resize_call_of d)) with
       | Returned _ => true
       | Raised _ => false
       end /\
  resize_calls st1 = resize_calls st ++ [resize_call_of d] /\
  operation_semaphore st1 = operation_semaphore st /\
  config st1 = config st.
Proof.
  intros Hscale Hdry Hsem Hrun.
  pose proof (execute_scaling_decision_performed gw st d Hscale Hdry Hsem) as Hperf.
  cbv zeta in Hperf.
  destruct (resize_outcome (gw (resize_calls st) (resize_call_of d))) as [[]|e] eqn:Hout.
  - destruct (Hperf I) as (st' & op & Hrun' & Hcalls & _ & _ & Hperm & Hcfg & _).
    rewrite Hrun in Hrun'. inversion Hrun'; subst. now repeat split.
  - destruct (is_Exception e) eqn:He.
    + destruct (Hperf eq_refl) as (st' & op & Hrun' & Hcalls & _ & _ & Hperm & Hcfg & _).
      rewrite Hrun in Hrun'. inversion Hrun'; subst. now repeat split.
    + exfalso. revert Hrun. unfold _execute_scaling_decision.
      rewrite Hscale, Hdry. cbn [negb set_active operation_semaphore].
      destruct (Z.leb_spec (operation_semaphore st) 0) as [Hz|_]; [lia|].
      unfold _perform_scaling. fold (resize_call_of d).
      cbn [set_semaphore set_active resize_calls]. rewrite Hout, He. discriminate.
Qed.

Lemma execute_all_kept (gw : Gateway) (decisions : list ScalingDecision) :
  forall (st st' : ScalingEngine) (executed out : list ScalingDecision),
    dry_run (config st) = false ->
    0 < operation_semaphore st ->
    snd (execute_all gw st decisions executed) = Finished st' (Returned out) ->
    out = executed ++ kept_decisions gw (resize_calls st) decisions.
Proof.
  induction decisions as [|d rest IH]; intros st st' executed out Hdry Hsem;
    cbn [execute_all kept_decisions].
  - cbn. intros Hr; inversion Hr; subst. now rewrite app_nil_r.
  - destruct (requires_scaling d) eqn:Hscale.
    + destruct (_execute_scaling_decision gw st d) as [states [st1 [ok|e]|st1]] eqn:Hx;
        cbn [snd]; try discriminate.
      destruct (execute_scaling_decision_answer gw st st1 d ok Hscale Hdry Hsem)
        as (Hok & Hcalls & Hperm & Hcfg); [now rewrite Hx|].
      destruct (execute_all gw st1 rest _) as [states' r] eqn:Hrest.
      cbn [snd]. intros ->.
      rewrite (IH st1 st' (if ok then executed ++ [d] else executed) out);
        [|now rewrite Hcfg|now rewrite Hperm|now rewrite Hrest].
      rewrite Hcalls, Hok.
      destruct (resize_outcome (gw (resize_calls st) (resize_call_of d))).
      * now rewrite <- app_assoc.
      * reflexivity.
    + intros Hrun. rewrite (IH st st' (executed ++ [d]) out Hdry Hsem Hrun).
      now rewrite <- app_assoc.
Qed.

Lemma kept_decisions_all_accepted (gw : Gateway) (decisions : list ScalingDecision) :
  (forall calls call, resize_outcome (gw calls call) = Returned tt) ->
  forall calls, kept_decisions gw calls decisions = decisions.
Proof.
  intros Hall. induction decisions as [|d rest IH]; intros calls;
    cbn [kept_decisions]; [reflexivity|].
  rewrite Hall, !IH. now destruct (requires_scaling d).
Qed.

(** X7. The list a tick returns is the generated list, in order, without
    the scaling decisions whose execution failed.  Every decision that
    requires no scaling is in it; in a dry run every scaling decision is in it
    as well, and otherwise a scaling decision is in it exactly when the
    cluster accepted its resize, so with a cluster that accepts every resize
    the tick returns the generated list. *)
Theorem tick_returns_generated_without_failures
    (gw : Gateway) (c : Collected) (self st' : ScalingEngine) (cl : ClusterMetrics)
    (generated out : list ScalingDecision) :
  collected_cluster c = Returned cl ->
  _check_cluster_safety (config self) cl = true ->
  _generate_scaling_decisions (after_collect self c) cl = Returned generated ->
  snd (evaluate_and_scale gw c self) = Finished st' (Returned out) ->
  sublist out generated /\
  List.filter not_scaling out = List.filter not_scaling generated /\
  (dry_run (config self) = true -> out = generated) /\
  (dry_run (config self) = false -> 0 < operation_semaphore self ->
   out = kept_decisions gw (resize_calls self) generated /\
   ((forall calls call, resize_outcome (gw calls call) = Returned tt) ->
    out = generated)).
Proof.
  intros Hc Hsafe Hgen. unfold evaluate_and_scale. rewrite Hc.
  change (config (after_collect self c)) with (config self).
  rewrite Hsafe, Hgen. cbn [negb].
  destruct (execute_all gw (after_collect self c) generated []) as [states r] eqn:Hx.
  cbn [snd]. intros Hr.
  assert (Hrun : r = Finished st' (Returned out)).
  { destruct r as [st1 [ds|e]|st1]; cbn in Hr; [exact Hr| |discriminate].
    destruct (is_Exception e); discriminate. }
  subst r.
  destruct (execute_all_returned gw generated (after_collect self c) st' [] out)
    as (kept & Hout & Hsub & Hfilter); [now rewrite Hx|].
  cbn [app] in Hout. subst kept.
  split; [exact Hsub|]. split; [exact Hfilter|]. split.
  - intros Hdry.
    rewrite (execute_all_dry_run gw (after_collect self c) generated [] Hdry) in Hx.
    now inversion Hx.
  - intros Hdry Hsem.
    assert (Hkept : out = kept_decisions gw (resize_calls self) generated).
    { apply (execute_all_kept gw generated (after_collect self c) st' [] out);
        [exact Hdry|exact Hsem|now rewrite Hx]. }
    split; [exact Hkept|].
    intros Hall. rewrite Hkept. now apply kept_decisions_all_accepted.
Qed.

Lemma tick_returns_generated_without_failures_witness :
  map action s1_generated = [SCALE_UP_CPU] /\
  snd (evaluate_and_scale failing_gateway (collected s1_cluster) s1_engine)
  = Finished failed_tick_state (Returned []) /\
  sublist [] s1_generated /\
  [] = kept_decisions failing_gateway [] s1_generated.
Proof.
  split; [vm_compute; reflexivity|]. split; [vm_compute; reflexivity|].
  destruct (tick_returns_generated_without_failures failing_gateway
              (collected s1_cluster) s1_engine failed_tick_state
              s1_cluster s1_generated [])
    as (Hsub & _ & _ & Hkept).
  - reflexivity.
  - vm_compute. reflexivity.
  - vm_compute. reflexivity.
  - vm_compute. reflexivity.
  - split; [exact Hsub|].
    exact (proj1 (Hkept eq_refl ltac:(vm_compute; reflexivity))).
Defined.

Lemma execute_scaling_decision_returned (gw : Gateway) (st st1 : ScalingEngine)
    (d : ScalingDecision) (ok : bool) :
  requires_scaling d = true ->
  dry_run (config st) = false ->
  0 < operation_semaphore st ->
  snd (_execute_scaling_decision gw st d) = Finished st1 (Returned ok) ->
  resize_calls st1 = resize_calls st ++ [resize_call_of d] /\
  operation_semaphore st1 = operation_semaphore st /\
  config st1 = config st.
Proof.
  intros Hscale Hdry Hsem Hrun.
  destruct (resize_outcome (gw (resize_calls st) (resize_call_of d))) as [[]|e] eqn:Hout.
  - destruct (execute_scaling_decision_performed gw st d Hscale Hdry Hsem)
      as (st' & op & Hrun' & Hcalls & _ & _ & Hperm & Hcfg & _);
      [now rewrite Hout|].
    rewrite Hrun in Hrun'. inversion Hrun'; subst. now repeat split.
  - destruct (is_Exception e) eqn:He.
    + destruct (execute_scaling_decision_performed gw st d Hscale Hdry Hsem)
        as (st' & op & Hrun' & Hcalls & _ & _ & Hperm & Hcfg & _);
        [now rewrite Hout|].
      rewrite Hrun in Hrun'. inversion Hrun'; subst. now repeat split.
    + exfalso. revert Hrun. unfold _execute_scaling_decision.
      rewrite Hscale, Hdry. cbn [negb set_active operation_semaphore].
      destruct (Z.leb_spec (operation_semaphore st) 0) as [Hz|_]; [lia|].
      unfold _perform_scaling. fold (resize_call_of d).
      cbn [set_semaphore set_active resize_calls]. rewrite Hout, He. discriminate.
Qed.

Lemma execute_all_calls (gw : Gateway) (decisions : list ScalingDecision) :
  forall (st st' : ScalingEngine) (executed out : list ScalingDecision),
    dry_run (config st) = false ->
    0 < operation_semaphore st ->
    snd (execute_all gw st decisions executed) = Finished st' (Returned out) ->
    resize_calls st'
    = resize_calls st ++ map resize_call_of (List.filter requires_scaling decisions).
Proof.
  induction decisions as [|d rest IH]; intros st st' executed out Hdry Hsem;
    cbn [execute_all List.filter].
  - cbn. intros Hr; inversion Hr; subst. now rewrite app_nil_r.
  - destruct (requires_scaling d) eqn:Hscale; [|now apply IH].
    destruct (_execute_scaling_decision gw st d) as [states [st1 [ok|e]|st1]] eqn:Hx;
      cbn [snd]; try discriminate.
    destruct (execute_scaling_decision_returned gw st st1 d ok Hscale Hdry Hsem)
      as (Hcalls & Hperm & Hcfg); [now rewrite Hx|].
    destruct (execute_all gw st1 rest _) as [states' r] eqn:Hrest.
    cbn [snd]. intros ->.
    rewrite (IH st1 st' (if ok then executed ++ [d] else executed) out);
      [|now rewrite Hcfg|now rewrite Hperm|now rewrite Hrest].
    rewrite Hcalls, <- app_assoc. reflexivity.
Qed.

(** X8. A tick that returns has sent the cluster one resize for every
    scaling decision it generated, in order, each one once, also after a
    resize that failed. *)
Theorem tick_sends_one_resize_per_scaling_decision
    (gw : Gateway) (c : Collected) (self st' : ScalingEngine) (cl : ClusterMetrics)
    (generated out : list ScalingDecision) :
  dry_run (config self) = false ->
  0 < operation_semaphore self ->
  collected_cluster c = Returned cl ->
  _check_cluster_safety (config self) cl = true ->
  _generate_scaling_decisions (after_collect self c) cl = Returned generated ->
  snd (evaluate_and_scale gw c self) = Finished st' (Returned out) ->
  resize_calls st'
  = resize_calls self ++ map resize_call_of (List.filter requires_scaling generated).
Proof.
  intros Hdry Hsem Hc Hsafe Hgen. unfold evaluate_and_scale. rewrite Hc.
  change (config (after_collect self c)) with (config self).
  rewrite Hsafe, Hgen. cbn [negb].
  destruct (execute_all gw (after_collect self c) generated []) as [states r] eqn:Hx.
  cbn [snd]. intros Hr.
  assert (Hrun : r = Finished st' (Returned out)).
  { destruct r as [st1 [ds|e]|st1]; cbn in Hr; [exact Hr| |discriminate].
    destruct (is_Exception e); discriminate. }
  apply (execute_all_calls gw generated (after_collect self c) st' [] out);
    [exact Hdry|exact Hsem|now rewrite Hx].
Qed.

Lemma tick_sends_one_resize_per_scaling_decision_witness :
  resize_calls failed_tick_state
  = [{| rc_node := "pve"; rc_vmid := 101; rc_cpu_cores := 3; rc_memory_mb := 2048 |}].
Proof.
  apply (tick_sends_one_resize_per_scaling_decision failing_gateway
           (collected s1_cluster) s1_engine failed_tick_state s1_cluster
           s1_generated []).
  - reflexivity.
  - reflexivity.
  - reflexivity.
  - reflexivity.
  - vm_compute. reflexivity.
  - vm_compute. reflexivity.
Defined.

(** X9. [resize_container] refuses a call without any dimension and nothing
    else; the engine always gives both, the target of the resource it scales
    and the current value of the other one. *)
Theorem resize_always_names_both_dimensions :
  (forall cores mem : option Z,
      (exists e, resize_container cores mem = Fail e) <-> cores = None /\ mem = None) /\
  (forall (gw : Gateway) (self : ScalingEngine) (d : ScalingDecision),
      decision_shape d ->
      exists call cores mem,
        resize_calls (fst (_perform_scaling gw self d)) = resize_calls self ++ [call] /\
        resize_container (Some (rc_cpu_cores call)) (Some (rc_memory_mb call))
        = Ok [("cores"%string, cores); ("memory"%string, mem)] /\
        match action d with
        | SCALE_UP_CPU | SCALE_DOWN_CPU =>
            target_cpu_cores d = Some cores /\ mem = current_memory_mb d
        | SCALE_UP_MEMORY | SCALE_DOWN_MEMORY =>
            cores = current_cpu_cores d /\ target_memory_mb d = Some mem
        | NO_ACTION => cores = current_cpu_cores d /\ mem = current_memory_mb d
        end).
Proof.
  split.
  - intros [c|] [m|]; cbn; split; try (intros [e He]; discriminate);
      try (intros [? ?]; discriminate); eauto.
  - intros gw self d Hshape. unfold _perform_scaling. cbn [fst gateway_called resize_calls].
    do 3 eexists. split; [reflexivity|]. split; [reflexivity|]. cbn.
    unfold decision_shape in Hshape.
    destruct (action d).
    + destruct Hshape as [[x H1] H2]. rewrite H1, H2. now split.
    + destruct Hshape as [[x H1] H2]. rewrite H1, H2. now split.
    + destruct Hshape as [H1 [y H2]]. rewrite H1, H2. now split.
    + destruct Hshape as [H1 [y H2]]. rewrite H1, H2. now split.
    + destruct Hshape as [H1 H2]. rewrite H1, H2. now split.
Qed.

Lemma resize_always_names_both_dimensions_witness :
  exists call,
    resize_calls (fst (_perform_scaling obliging_gateway s1_engine s1_decision))
    = [call] /\
    resize_container (Some (rc_cpu_cores call)) (Some (rc_memory_mb call))
    = Ok [("cores"%string, 3); ("memory"%string, 2048)].
Proof.
  destruct (proj2 resize_always_names_both_dimensions obliging_gateway s1_engine
              s1_decision) as (call & cores & mem & Hcall & Hok & Hcores & Hmem).
  { split; [now exists 3|reflexivity]. }
  exists call. split; [exact Hcall|].
  rewrite Hok. injection Hcores as <-. rewrite Hmem. reflexivity.
Defined.

(** ** The peak view *)

Lemma max_from_spec (x : Q) (rest : list Q) :
  In (max_from x rest) (x :: rest) /\
  forall y, In y (x :: rest) -> (y <= max_from x rest)%Q.
Proof.
  unfold max_from. revert x. induction rest as [|z rest IH]; intros x; cbn [fold_left].
  - split; [now left|]. intros y [<-|[]]. lra.
  - destruct (IH (if Qltb x z then z else x)) as [Hin Hle]. split.
    + destruct Hin as [Hin|Hin]; [|now right; right].
      rewrite <- Hin. destruct (Qltb x z); [right; now left|now left].
    + intros y Hy.
      assert (Hx : (x <= (if Qltb x z then z else x))%Q).
      { destruct (Qltb x z) eqn:Hxz; [apply Qltb_true in Hxz|]; lra. }
      assert (Hz : (z <= (if Qltb x z then z else x))%Q).
      { destruct (Qltb x z) eqn:Hxz; [|apply Qltb_false in Hxz]; lra. }
      pose proof (Hle _ (or_introl eq_refl)) as Hbest.
      destruct Hy as [<-|[<-|Hy]]; [lra|lra|].
      apply Hle. now right.
Qed.

Lemma last_default {A} (l : list A) (d : A) :
  last l = match l with [] => None | _ :: _ => Some (List.last l d) end.
Proof.
  induction l as [|x l IH]; [reflexivity|].
  destruct l as [|y l]; [reflexivity|].
  rewrite last_cons_cons, IH. reflexivity.
Qed.

Lemma last_cons_default {A} (x : A) (l : list A) :
  last (x :: l) = Some (List.last l x).
Proof.
  destruct l as [|y l]; [reflexivity|].
  rewrite last_cons_cons, (last_default (y :: l) x). reflexivity.
Qed.

Lemma get_peak_metrics_recent (self : ContainerMetrics) (N : Z)
    (older recent : list ResourceMetrics) :
  1 <= N ->
  historical_metrics self = older ++ recent ->
  Z.of_nat (length recent) = N ->
  exists latest r,
    last (historical_metrics self) = Some latest /\
    get_peak_metrics self N = Ok (Some r) /\
    (exists s, In s recent /\ cpu_usage_percent r = cpu_usage_percent s) /\
    (forall s, In s recent -> (cpu_usage_percent s <= cpu_usage_percent r)%Q) /\
    (exists s, In s recent /\ memory_usage_percent r = memory_usage_percent s) /\
    (forall s, In s recent -> (memory_usage_percent s <= memory_usage_percent r)%Q) /\
    cpu_cores r = cpu_cores latest /\
    memory_used_mb r = memory_used_mb latest /\
    memory_total_mb r = memory_total_mb latest /\
    timestamp r = timestamp latest.
Proof.
  intros HN Hhist Hlen. unfold get_peak_metrics.
  destruct (Z.ltb_spec (Z.of_nat (length (historical_metrics self))) N) as [Hlt|_].
  { rewrite Hhist, length_app in Hlt. lia. }
  rewrite py_slice_from_negative by lia.
  rewrite Hhist. replace (Z.to_nat N) with (length recent) by lia.
  rewrite keep_last_suffix.
  destruct recent as [|first others]; [cbn in Hlen; lia|].
  exists (List.last others first). eexists.
  split; [rewrite last_app, last_cons_default; reflexivity|].
  split; [reflexivity|]. cbn [cpu_usage_percent memory_usage_percent cpu_cores
                               memory_used_mb memory_total_mb timestamp].
  destruct (max_from_spec (cpu_usage_percent first) (map cpu_usage_percent others))
    as [Hcin Hcle].
  destruct (max_from_spec (memory_usage_percent first)
              (map memory_usage_percent others)) as [Hmin Hmle].
  change (cpu_usage_percent first :: map cpu_usage_percent others)
    with (map cpu_usage_percent (first :: others)) in Hcin, Hcle.
  change (memory_usage_percent first :: map memory_usage_percent others)
    with (map memory_usage_percent (first :: others)) in Hmin, Hmle.
  apply in_map_iff in Hcin, Hmin.
  destruct Hcin as (sc & Hsc & Hscin). destruct Hmin as (sm & Hsm & Hsmin).
  repeat split.
  - exists sc. split; [exact Hscin|now symmetry].
  - intros s Hs. apply Hcle. now apply in_map.
  - exists sm. split; [exact Hsmin|now symmetry].
  - intros s Hs. apply Hmle. now apply in_map.
Qed.

(** X10. For [N >= 1] the peak view is [None] while fewer than [N] samples
    are buffered; otherwise each of its two percentages is the largest one
    among the last [N] samples, attained by one of them, and the other
    fields are those of the most recent sample. *)
Theorem peak_over_last_periods (self : ContainerMetrics) (N : Z) :
  1 <= N ->
  (Z.of_nat (length (historical_metrics self)) < N ->
   get_peak_metrics self N = Ok None) /\
  (forall older recent : list ResourceMetrics,
      historical_metrics self = older ++ recent ->
      Z.of_nat (length recent) = N ->
      exists latest r,
        last (historical_metrics self) = Some latest /\
        get_peak_metrics self N = Ok (Some r) /\
        (exists s, In s recent /\ cpu_usage_percent r = cpu_usage_percent s) /\
        (forall s, In s recent -> (cpu_usage_percent s <= cpu_usage_percent r)%Q) /\
        (exists s, In s recent /\ memory_usage_percent r = memory_usage_percent s) /\
        (forall s, In s recent ->
                   (memory_usage_percent s <= memory_usage_percent r)%Q) /\
        cpu_cores r = cpu_cores latest /\
        memory_used_mb r = memory_used_mb latest /\
        memory_total_mb r = memory_total_mb latest /\
        timestamp r = timestamp latest).
Proof.
  intros HN. split.
  - intros Hlt. unfold get_peak_metrics.
    destruct (Z.ltb_spec (Z.of_nat (length (historical_metrics self))) N);
      [reflexivity|lia].
  - intros older recent. now apply get_peak_metrics_recent.
Qed.

Lemma peak_over_last_periods_witness :
  exists r, get_peak_metrics s1_container 3 = Ok (Some r) /\
            cpu_usage_percent r = 85%Q.
Proof.
  destruct (proj2 (peak_over_last_periods s1_container 3 ltac:(lia))
              [] s1_samples eq_refl eq_refl)
    as (latest & r & _ & Hr & _).
  exists r. split; [exact Hr|].
  vm_compute in Hr. injection Hr as <-. reflexivity.
Defined.

(** X11. On the same window the averaged percentages stay within the
    integer bounds of the samples: an integer below every sample of the
    window is below the average, and an integer above the peak is above the
    average, so the average never exceeds the peak rounded up to the next
    integer (the bound times the window length has to be a binary64 integer,
    below [2 ^ 53]).  Both views carry the same cores, memory and
    timestamp. *)
Theorem average_within_sample_bounds (self : ContainerMetrics) (N : Z)
    (a p : ResourceMetrics) :
  1 <= N ->
  get_average_metrics self N = Returned (Some a) ->
  get_peak_metrics self N = Ok (Some p) ->
  (forall hi : Z, N * Z.abs hi < 2 ^ 53 ->
     ((cpu_usage_percent p <= inject_Z hi)%Q ->
      (cpu_usage_percent a <= inject_Z hi)%Q) /\
     ((memory_usage_percent p <= inject_Z hi)%Q ->
      (memory_usage_percent a <= inject_Z hi)%Q)) /\
  (forall lo : Z, N * Z.abs lo < 2 ^ 53 ->
     ((forall s, In s (keep_last (Z.to_nat N) (historical_metrics self)) ->
                 (inject_Z lo <= cpu_usage_percent s)%Q) ->
      (inject_Z lo <= cpu_usage_percent a)%Q) /\
     ((forall s, In s (keep_last (Z.to_nat N) (historical_metrics self)) ->
                 (inject_Z lo <= memory_usage_percent s)%Q) ->
      (inject_Z lo <= memory_usage_percent a)%Q)) /\
  cpu_cores a = cpu_cores p /\
  memory_used_mb a = memory_used_mb p /\
  memory_total_mb a = memory_total_mb p /\
  timestamp a = timestamp p.
Proof.
  intros HN Havg Hpeak.
  destruct (Z.lt_ge_cases (Z.of_nat (length (historical_metrics self))) N) as [Hlt|Hge].
  { rewrite (get_average_metrics_few self N Hlt) in Havg. discriminate. }
  pose (older := take (length (historical_metrics self) - Z.to_nat N)
                   (historical_metrics self)).
  pose (recent := keep_last (Z.to_nat N) (historical_metrics self)).
  assert (Hsplit : historical_metrics self = older ++ recent)
    by apply keep_last_split.
  assert (Hlen : Z.of_nat (length recent) = N).
  { subst recent. rewrite keep_last_length. lia. }
  destruct (get_average_metrics_recent self N older recent HN Hsplit Hlen)
    as (latest & Hlast & Ha).
  destruct (get_peak_metrics_recent self N older recent HN Hsplit Hlen)
    as (latest' & r & Hlast' & Hp & _ & Hcle & _ & Hmle & Hc & Hu & Ht & Hts).
  rewrite Ha in Havg. rewrite Hp in Hpeak.
  injection Havg as <-. injection Hpeak as <-.
  rewrite Hlast in Hlast'. injection Hlast' as <-.
  cbn [cpu_usage_percent memory_usage_percent cpu_cores memory_used_mb
         memory_total_mb timestamp].
  assert (Hne : forall f : ResourceMetrics -> Q, map f recent <> []).
  { intros f E. apply (f_equal (@length Q)) in E. rewrite length_map in E.
    cbn in E. lia. }
  assert (Ec : fl_div (py_sum (map cpu_usage_percent recent)) (inject_Z N)
               = float_mean (map cpu_usage_percent recent))
    by (rewrite float_mean_py_sum, length_map, Hlen; reflexivity).
  assert (Em : fl_div (py_sum (map memory_usage_percent recent)) (inject_Z N)
               = float_mean (map memory_usage_percent recent))
    by (rewrite float_mean_py_sum, length_map, Hlen; reflexivity).
  rewrite Ec, Em.
  split; [|split; [|repeat split; congruence]].
  - intros hi Hhi. split; intros Hpk.
    + apply float_mean_le; [apply Hne|rewrite length_map, Hlen; exact Hhi|].
      intros x Hx. apply in_map_iff in Hx. destruct Hx as (s & <- & Hs).
      apply Qle_trans with (cpu_usage_percent r); [now apply Hcle|exact Hpk].
    + apply float_mean_le; [apply Hne|rewrite length_map, Hlen; exact Hhi|].
      intros x Hx. apply in_map_iff in Hx. destruct Hx as (s & <- & Hs).
      apply Qle_trans with (memory_usage_percent r); [now apply Hmle|exact Hpk].
  - intros lo Hlo. split; intros Hall.
    + apply float_mean_ge; [apply Hne|rewrite length_map, Hlen; exact Hlo|].
      intros x Hx. apply in_map_iff in Hx. destruct Hx as (s & <- & Hs).
      now apply Hall.
    + apply float_mean_ge; [apply Hne|rewrite length_map, Hlen; exact Hlo|].
      intros x Hx. apply in_map_iff in Hx. destruct Hx as (s & <- & Hs).
      now apply Hall.
Qed.

Lemma average_within_sample_bounds_witness :
  exists a p,
    get_average_metrics tenth_container 3 = Returned (Some a) /\
    get_peak_metrics tenth_container 3 = Ok (Some p) /\
    (cpu_usage_percent p < cpu_usage_percent a)%Q /\
    (cpu_usage_percent p <= 1)%Q /\
    (cpu_usage_percent a <= 1)%Q /\
    cpu_cores a = cpu_cores p.
Proof.
  destruct (get_average_metrics tenth_container 3) as [[a|]|] eqn:Ha;
    [|vm_compute in Ha; discriminate Ha|vm_compute in Ha; discriminate Ha].
  destruct (get_peak_metrics tenth_container 3) as [[p|]|] eqn:Hp;
    [|vm_compute in Hp; discriminate Hp|vm_compute in Hp; discriminate Hp].
  exists a, p. split; [reflexivity|]. split; [reflexivity|].
  destruct (average_within_sample_bounds tenth_container 3 a p ltac:(lia) Ha Hp)
    as (Hhi & _ & Hcores & _).
  assert (Hpk : (cpu_usage_percent p <= inject_Z 1)%Q).
  { vm_compute in Hp. injection Hp as <-. vm_compute. discriminate. }
  split.
  - vm_compute in Ha, Hp. injection Ha as <-. injection Hp as <-.
    vm_compute. reflexivity.
  - split; [exact Hpk|]. split; [|exact Hcores].
    apply (proj1 (Hhi 1 ltac:(vm_compute; reflexivity))). exact Hpk.
Defined.

(** ** Samples built from the cluster's answers *)



Lemma py_int_inject (n : Z) : py_int (inject_Z n) = n.
Proof. unfold py_int, inject_Z. cbn. apply Z.quot_1_r. Qed.








(** ** The cluster snapshot *)




Lemma fold_left_Zadd (xs : list Z) (a : Z) :
  fold_left Z.add xs a = a + fold_right Z.add 0 xs.
Proof.
  revert a. induction xs as [|x xs IH]; intros a; cbn; [lia|]. rewrite IH. lia.
Qed.

Lemma py_sum_int_ones {A} (l : list A) :
  py_sum_int (map (fun _ => 1) l) = Z.of_nat (length l).
Proof.
  unfold py_sum_int. rewrite fold_left_Zadd.
  assert (Hsum : fold_right Z.add 0 (map (fun _ : A => 1) l) = Z.of_nat (length l)).
  { induction l as [|x l IH]; cbn [map fold_right length]; lia. }
  lia.
Qed.

Lemma py_sum_int_constant {A} (f : A -> Z) (k : Z) (l : list A) :
  (forall x, In x l -> f x = k) ->
  py_sum_int (map f l) = k * Z.of_nat (length l).
Proof.
  intros Hall. unfold py_sum_int. rewrite fold_left_Zadd.
  assert (Hsum : fold_right Z.add 0 (map f l) = k * Z.of_nat (length l)).
  { induction l as [|x l IH]; cbn [map fold_right length]; [lia|].
    rewrite (Hall x (or_introl eq_refl)), IH by (intros y Hy; apply Hall; now right).
    lia. }
  lia.
Qed.

(** X16. In a snapshot the running containers are counted among the tracked
    ones, and [total_cpu_cores] counts load-average entries: three per node
    that reports the usual three load averages, whatever its core count. *)
Theorem cluster_totals
    (container_list : list ContainerMetrics) (node_list : list NodeMetrics) :
  let cl := _build_cluster_metrics container_list node_list in
  total_containers cl = Z.of_nat (length container_list) /\
  0 <= running_containers cl <= total_containers cl /\
  ((forall n, In n node_list -> length (load_average n) = 3%nat) ->
   total_cpu_cores cl = 3 * Z.of_nat (length node_list)).
Proof.
  intros cl. subst cl. unfold _build_cluster_metrics.
  assert (Hrun :
    0 <= py_sum_int
           (map (fun _ : ContainerMetrics => 1)
              (List.filter (fun c => (cm_status c =? "running")%string) container_list))
      <= Z.of_nat (length container_list)).
  { rewrite py_sum_int_ones.
    pose proof (List.filter_length_le
                  (fun c => (cm_status c =? "running")%string) container_list).
    lia. }
  destruct node_list as [|n0 nodes]; cbn [total_containers running_containers
                                            total_cpu_cores].
  - split; [reflexivity|]. split; [exact Hrun|]. intros _. reflexivity.
  - split; [reflexivity|]. split; [exact Hrun|]. intros Hthree.
    apply py_sum_int_constant. intros n Hn. specialize (Hthree n Hn).
    destruct (load_average n); [discriminate|]. rewrite Hthree. reflexivity.
Qed.

Lemma cluster_totals_witness :
  total_cpu_cores (_build_cluster_metrics [s1_container] busy_nodes) = 6.
Proof.
  apply (proj2 (proj2 (cluster_totals [s1_container] busy_nodes))).
  intros n [<-|[<-|[]]]; reflexivity.
Defined.

(** ** Cooldown and success rate of a history *)

(** X17. [get_cooldown_remaining] reads the clock twice, the second reading
    [now'] not before the first.  Out of cooldown at the first reading it
    answers 0; in cooldown it answers the cooldown minus the time from the
    last scaling to the second reading, which is at most what the first
    reading gives and falls below 0 by less than the time between the two
    readings.  When both readings are the same instant the answer is never
    negative, and positive exactly while the history is in cooldown.  A
    history that has left its cooldown stays out of it as the clock moves
    on. *)
Theorem cooldown_remaining_runs_down (now now' : Q) (h : ScalingHistory) (cd : Z) :
  (now <= now')%Q ->
  (is_in_cooldown now h cd = false -> get_cooldown_remaining now now' h cd = 0%Q) /\
  (is_in_cooldown now h cd = true ->
   exists t,
     last_scaling_time h = Some t /\
     (get_cooldown_remaining now now' h cd == inject_Z cd - (now' - t))%Q /\
     (get_cooldown_remaining now now' h cd <= get_cooldown_remaining now now h cd)%Q /\
     (- (now' - now) < get_cooldown_remaining now now' h cd)%Q) /\
  (0 <= get_cooldown_remaining now now h cd)%Q /\
  (is_in_cooldown now h cd = true <-> (0 < get_cooldown_remaining now now h cd)%Q) /\
  (is_in_cooldown now h cd = false -> is_in_cooldown now' h cd = false).
Proof.
  intros Hle. unfold get_cooldown_remaining, is_in_cooldown.
  destruct (last_scaling_time h) as [t|]; cbn [negb].
  - destruct (Qltb (now - t) (inject_Z cd)) eqn:Hnow; cbn [negb].
    + apply Qltb_true in Hnow. split; [discriminate|]. split.
      { intros _. exists t. split; [reflexivity|]. split; [reflexivity|].
        split; lra. }
      split; [lra|]. split; [split; [lra|reflexivity]|discriminate].
    + apply Qltb_false in Hnow. split; [reflexivity|]. split; [discriminate|].
      split; [lra|]. split; [split; [discriminate|lra]|].
      intros _. apply Qltb_false. lra.
  - split; [reflexivity|]. split; [discriminate|]. split; [lra|].
    split; [split; [discriminate|lra]|reflexivity].
Qed.

Lemma cooldown_remaining_runs_down_witness :
  let h := record_operation (new_history 101) (completed_ok s1_decision 1130) in
  (get_cooldown_remaining 1140 1200 h 300 <= get_cooldown_remaining 1140 1140 h 300)%Q /\
  (get_cooldown_remaining 1429 1431 h 300 == -1)%Q /\
  (- (1431 - 1429) < get_cooldown_remaining 1429 1431 h 300)%Q.
Proof.
  intros h.
  destruct (proj1 (proj2 (cooldown_remaining_runs_down 1140 1200 h 300
                            ltac:(vm_compute; discriminate))) eq_refl)
    as (t & _ & _ & Hdown & _).
  destruct (proj1 (proj2 (cooldown_remaining_runs_down 1429 1431 h 300
                            ltac:(vm_compute; discriminate))) eq_refl)
    as (t' & _ & _ & _ & Hlow).
  split; [exact Hdown|]. split; [reflexivity|exact Hlow].
Defined.

Lemma record_operation_counters (h : ScalingHistory) (op : ScalingOperation) :
  0 <= success_count h -> 0 <= failure_count h ->
  operation_count h = success_count h + failure_count h ->
  0 <= success_count (record_operation h op) /\
  0 <= failure_count (record_operation h op) /\
  operation_count (record_operation h op)
  = success_count (record_operation h op) + failure_count (record_operation h op).
Proof.
  intros Hs Hf Hc. unfold record_operation.
  destruct (negb (is_completed op)); [now repeat split|].
  cbn. destruct (is_successful op); lia.
Qed.

Lemma record_all_counters (ops : list ScalingOperation) :
  forall h : ScalingHistory,
    0 <= success_count h -> 0 <= failure_count h ->
    operation_count h = success_count h + failure_count h ->
    0 <= success_count (record_all h ops) /\
    0 <= failure_count (record_all h ops) /\
    operation_count (record_all h ops)
    = success_count (record_all h ops) + failure_count (record_all h ops).
Proof.
  induction ops as [|op ops IH]; intros h Hs Hf Hc; [now repeat split|].
  cbn [record_all fold_left]. fold (record_all (record_operation h op) ops).
  destruct (record_operation_counters h op Hs Hf Hc) as (Hs' & Hf' & Hc').
  now apply IH.
Qed.

Lemma b64_round_0 : (b64_round 0 == 0)%Q.
Proof. reflexivity. Qed.

Lemma b64_round_1 : (b64_round 1 == 1)%Q.
Proof. apply (b64_round_Z 1). reflexivity. Qed.

Lemma b64_round_100 : (b64_round 100 == 100)%Q.
Proof. apply (b64_round_Z 100). reflexivity. Qed.

(** A rounded share of a whole is a percentage. *)
Lemma float_percent_of_part (part whole : Z) :
  0 <= part <= whole -> 0 < whole ->
  (0 <= fl_mul (fl_div (inject_Z part) (inject_Z whole)) 100 <= 100)%Q.
Proof.
  intros [Hp Hw] Hpos.
  assert (Hwq : (0 < inject_Z whole)%Q).
  { change 0%Q with (inject_Z 0). now rewrite <- Zlt_Qlt. }
  assert (Hpq : (0 <= inject_Z part)%Q).
  { change 0%Q with (inject_Z 0). now rewrite <- Zle_Qle. }
  assert (Hpw : (inject_Z part <= inject_Z whole)%Q) by now rewrite <- Zle_Qle.
  assert (Hq0 : (0 <= inject_Z part / inject_Z whole)%Q)
    by (apply Qle_shift_div_l; [exact Hwq|lra]).
  assert (Hq1 : (inject_Z part / inject_Z whole <= 1)%Q)
    by (apply Qle_shift_div_r; [exact Hwq|lra]).
  apply b64_round_mono in Hq0, Hq1. rewrite b64_round_0 in Hq0.
  rewrite b64_round_1 in Hq1. unfold fl_mul, fl_div.
  set (share := b64_round (inject_Z part / inject_Z whole)) in *.
  split.
  - apply Qle_trans with (b64_round 0); [now rewrite b64_round_0|].
    apply b64_round_mono. lra.
  - apply Qle_trans with (b64_round 100); [|now rewrite b64_round_100].
    apply b64_round_mono. lra.
Qed.

(** X18. Whatever operations have been recorded on a new history, completed
    or not, its success rate is a percentage between 0 and 100, roundings
    included: it is 0 before the first completed operation and while no
    operation has succeeded, 100 when every completed operation has
    succeeded, and otherwise [success_count / operation_count * 100] with
    the quotient and the product rounded to binary64. *)
Theorem success_rate_is_a_percentage (vmid : Z) (ops : list ScalingOperation) :
  let h := record_all (new_history vmid) ops in
  (0 <= success_rate h <= 100)%Q /\
  (operation_count h = 0 -> success_rate h = 0%Q) /\
  (success_count h = 0 -> (success_rate h == 0)%Q) /\
  (operation_count h <> 0 -> success_count h = operation_count h ->
   (success_rate h == 100)%Q) /\
  (operation_count h <> 0 ->
   success_rate h
   = b64_round
       (b64_round (inject_Z (success_count h) / inject_Z (operation_count h)) * 100)).
Proof.
  intros h.
  destruct (record_all_counters ops (new_history vmid)) as (Hs & Hf & Hc);
    [cbn; lia..|].
  fold h in Hs, Hf, Hc. unfold success_rate.
  destruct (Z.eqb_spec (operation_count h) 0) as [Hz|Hnz].
  - split; [lra|]. split; [reflexivity|]. split; [reflexivity|].
    split; congruence.
  - assert (Hnq : ~ (inject_Z (operation_count h) == 0)%Q).
    { change 0%Q with (inject_Z 0). now rewrite inject_Z_injective. }
    split; [apply float_percent_of_part; lia|]. split; [congruence|].
    split; [|split; [|reflexivity]].
    + intros ->. unfold fl_mul, fl_div.
      assert (E : (inject_Z 0 / inject_Z (operation_count h) == 0)%Q)
        by (change (inject_Z 0) with 0%Q; field; exact Hnq).
      rewrite E, b64_round_0.
      assert (E' : (0 * 100 == 0)%Q) by ring.
      now rewrite E', b64_round_0.
    + intros _ ->. unfold fl_mul, fl_div.
      assert (E : (inject_Z (operation_count h) / inject_Z (operation_count h)
                   == 1)%Q) by (field; exact Hnq).
      rewrite E, b64_round_1.
      assert (E' : (1 * 100 == 100)%Q) by ring.
      now rewrite E', b64_round_100.
Qed.

(** ** The container list of the configuration *)

Lemma container_config_eqb_refl (x : ContainerConfig) :
  container_config_eqb x x = true.
Proof.
  unfold container_config_eqb, thresholds_eqb, limits_eqb.
  rewrite !Z.eqb_refl, Bool.eqb_reflx.
  rewrite !(proj2 (Qeq_bool_iff _ _) (Qeq_refl _)). reflexivity.
Qed.

Lemma container_config_eqb_vmid (x y : ContainerConfig) :
  container_config_eqb y x = true -> vmid y = vmid x.
Proof.
  unfold container_config_eqb. rewrite !andb_true_iff.
  intros [[[[[H _] _] _] _] _]. now apply Z.eqb_eq.
Qed.

Lemma find_split {A} (p : A -> bool) (l : list A) (x : A) :
  List.find p l = Some x ->
  exists pre post,
    l = pre ++ x :: post /\ p x = true /\ (forall y, In y pre -> p y = false).
Proof.
  induction l as [|y l IH]; cbn [List.find]; [discriminate|].
  destruct (p y) eqn:Hy.
  - intros Hx; inversion Hx; subst. exists [], l. repeat split; [exact Hy|].
    intros z [].
  - intros Hx. destruct (IH Hx) as (pre & post & -> & Hp & Hpre).
    exists (y :: pre), post. repeat split; [exact Hp|].
    intros z [<-|Hz]; [exact Hy|now apply Hpre].
Qed.

Lemma find_app_first {A} (p : A -> bool) (pre post : list A) (x : A) :
  (forall y, In y pre -> p y = false) -> p x = true ->
  List.find p (pre ++ x :: post) = Some x.
Proof.
  intros Hpre Hx. induction pre as [|y pre IH]; cbn [app List.find].
  - now rewrite Hx.
  - rewrite (Hpre y (or_introl eq_refl)). apply IH.
    intros z Hz. apply Hpre. now right.
Qed.

Lemma find_none_app {A} (p : A -> bool) (l : list A) (x : A) :
  List.find p l = None ->
  List.find p (l ++ [x]) = if p x then Some x else None.
Proof.
  induction l as [|y l IH]; cbn [app List.find]; [reflexivity|].
  destruct (p y); [discriminate|exact IH].
Qed.

Lemma find_skip {A} (p : A -> bool) (pre post : list A) (x : A) :
  p x = false -> List.find p (pre ++ x :: post) = List.find p (pre ++ post).
Proof.
  intros Hx. induction pre as [|y pre IH]; cbn [app List.find].
  - now rewrite Hx.
  - now rewrite IH.
Qed.

Lemma py_index_split (x : ContainerConfig) (pre post : list ContainerConfig) :
  (forall y, In y pre -> vmid y <> vmid x) ->
  py_index x (pre ++ x :: post) = Some (length pre).
Proof.
  intros Hpre. induction pre as [|y pre IH]; cbn [app py_index length].
  - now rewrite container_config_eqb_refl.
  - destruct (container_config_eqb y x) eqn:Heq.
    + apply container_config_eqb_vmid in Heq.
      now destruct (Hpre y (or_introl eq_refl)).
    + rewrite IH; [reflexivity|]. intros z Hz. apply Hpre. now right.
Qed.

Lemma py_remove_split (x : ContainerConfig) (pre post : list ContainerConfig) :
  (forall y, In y pre -> vmid y <> vmid x) ->
  py_remove x (pre ++ x :: post) = Some (pre ++ post).
Proof.
  intros Hpre. induction pre as [|y pre IH]; cbn [app py_remove].
  - now rewrite container_config_eqb_refl.
  - destruct (container_config_eqb y x) eqn:Heq.
    + apply container_config_eqb_vmid in Heq.
      now destruct (Hpre y (or_introl eq_refl)).
    + rewrite IH; [reflexivity|]. intros z Hz. apply Hpre. now right.
Qed.

Lemma get_container_config_split (self : AutoscalerConfig) (v : Z)
    (x : ContainerConfig) :
  get_container_config self v = Some x ->
  exists pre post,
    containers self = pre ++ x :: post /\ vmid x = v /\
    (forall y, In y pre -> vmid y <> v).
Proof.
  intros Hget. destruct (find_split _ _ _ Hget) as (pre & post & Hl & Hx & Hpre).
  exists pre, post. repeat split; [exact Hl|now apply Z.eqb_eq|].
  intros y Hy. apply Z.eqb_neq. now apply Hpre.
Qed.

(** X19. [add_container] never raises.  It replaces the entry that
    [get_container_config] finds for the vmid, in place, or appends the
    container when there is none: afterwards the vmid looks up the new
    container, every other vmid looks up what it did, and the list of vmids
    is the old one, with the new vmid at its end if it was absent; distinct
    vmids stay distinct. *)
Theorem add_container_then_get (self : AutoscalerConfig) (c : ContainerConfig) :
  exists self',
    add_container self c = Ok self' /\
    get_container_config self' (vmid c) = Some c /\
    (forall v, v <> vmid c ->
               get_container_config self' v = get_container_config self v) /\
    map vmid (containers self')
    = match get_container_config self (vmid c) with
      | Some _ => map vmid (containers self)
      | None => map vmid (containers self) ++ [vmid c]
      end /\
    (NoDup (map vmid (containers self)) -> NoDup (map vmid (containers self'))) /\
    dry_run self' = dry_run self /\ safety self' = safety self.
Proof.
  unfold add_container.
  destruct (get_container_config self (vmid c)) as [existing|] eqn:Hget.
  - destruct (get_container_config_split _ _ _ Hget) as (pre & post & Hl & Hv & Hpre).
    rewrite Hl, py_index_split by (intros y Hy; rewrite Hv; now apply Hpre).
    assert (Hins : <[length pre := c]> (pre ++ existing :: post) = pre ++ c :: post).
    { rewrite insert_app_r_alt by lia. now rewrite Nat.sub_diag. }
    rewrite Hins. eexists. split; [reflexivity|].
    unfold get_container_config. cbn [containers set_containers].
    assert (Hmap : map vmid (pre ++ c :: post) = map vmid (pre ++ existing :: post)).
    { rewrite !map_app. cbn [map]. now rewrite Hv. }
    repeat split.
    + apply find_app_first; [|apply Z.eqb_refl].
      intros y Hy. apply Z.eqb_neq. now apply Hpre.
    + intros v Hne. rewrite Hl.
      rewrite !find_skip by (apply Z.eqb_neq; congruence). reflexivity.
    + exact Hmap.
    + now rewrite Hmap, <- Hl.
  - eexists. split; [reflexivity|].
    unfold get_container_config in *. cbn [containers set_containers].
    repeat split.
    + rewrite (find_none_app _ _ _ Hget). now rewrite Z.eqb_refl.
    + intros v Hne.
      destruct (List.find (fun container => vmid container =? v) (containers self))
        as [x|] eqn:Hfind.
      * destruct (find_split _ _ _ Hfind) as (pre & post & -> & Hx & Hpre).
        rewrite <- app_assoc. cbn [app]. now apply find_app_first.
      * rewrite (find_none_app _ _ _ Hfind).
        now rewrite (proj2 (Z.eqb_neq _ _) (not_eq_sym Hne)).
    + apply map_app.
    + intros Hnodup. rewrite map_app. cbn [map].
      apply NoDup_app. split; [exact Hnodup|]. split; [|apply NoDup_singleton].
      intros v Hv Hin. apply list_elem_of_In in Hv, Hin.
      destruct Hin as [<-|[]].
      apply in_map_iff in Hv. destruct Hv as (y & Hy & Hyin).
      apply (find_none _ _ Hget) in Hyin. cbv beta in Hyin.
      apply Z.eqb_neq in Hyin. congruence.
Qed.

(** X20. [remove_container] never raises.  It answers [False] and changes
    nothing when no entry has the vmid; otherwise it answers [True] and
    takes out the first entry with the vmid, and only that one: the other
    vmids look up what they did, and with distinct vmids the removed one is
    no longer found. *)
Theorem remove_container_takes_first_entry (self : AutoscalerConfig) (v : Z) :
  (get_container_config self v = None -> remove_container self v = Ok (self, false)) /\
  (forall c, get_container_config self v = Some c ->
     exists self',
       remove_container self v = Ok (self', true) /\
       length (containers self) = S (length (containers self')) /\
       (forall v', v' <> v ->
                   get_container_config self' v' = get_container_config self v') /\
       (NoDup (map vmid (containers self)) -> get_container_config self' v = None)).
Proof.
  unfold remove_container. split.
  - intros ->. reflexivity.
  - intros c Hget. rewrite Hget.
    destruct (get_container_config_split _ _ _ Hget) as (pre & post & Hl & Hv & Hpre).
    rewrite Hl, py_remove_split by (intros y Hy; rewrite Hv; now apply Hpre).
    eexists. split; [reflexivity|].
    unfold get_container_config. cbn [containers set_containers fst].
    rewrite Hl. repeat split.
    + rewrite !length_app. cbn [length]. lia.
    + intros v' Hne. rewrite find_skip by (apply Z.eqb_neq; congruence).
      reflexivity.
    + intros Hnodup. rewrite map_app in Hnodup. cbn [map] in Hnodup.
      apply NoDup_app in Hnodup. destruct Hnodup as (_ & _ & Hpost).
      apply NoDup_cons in Hpost. destruct Hpost as [Hnotin _].
      destruct (List.find _ (pre ++ post)) as [y|] eqn:Hfind; [|reflexivity].
      exfalso. apply find_some in Hfind. destruct Hfind as [Hin Hy].
      apply Z.eqb_eq in Hy. apply in_app_or in Hin. destruct Hin as [Hin|Hin].
      * now apply (Hpre y Hin).
      * apply Hnotin. apply list_elem_of_In. apply in_map_iff.
        exists y. split; [congruence|exact Hin].
Qed.

Lemma add_container_then_get_witness :
  exists self',
    add_container two_containers_config s1_policy_slow = Ok self' /\
    get_container_config self' 101 = Some s1_policy_slow /\
    map vmid (containers self') = [102; 101].
Proof.
  destruct (add_container_then_get two_containers_config s1_policy_slow)
    as (self' & Hadd & Hget & _ & Hmap & _).
  exists self'. split; [exact Hadd|]. split; [exact Hget|exact Hmap].
Defined.

Lemma remove_container_takes_first_entry_witness :
  exists self',
    remove_container two_containers_config 101 = Ok (self', true) /\
    get_container_config self' 101 = None.
Proof.
  destruct (proj2 (remove_container_takes_first_entry two_containers_config 101)
              s1_policy eq_refl) as (self' & Hrem & _ & _ & Hgone).
  exists self'. split; [exact Hrem|]. apply Hgone.
  cbn. apply NoDup_cons. split; [|apply NoDup_singleton].
  intros Hin. apply list_elem_of_In in Hin. destruct Hin as [Heq|[]].
  discriminate Heq.
Defined.

Lemma success_rate_is_a_percentage_witness :
  (success_rate
     (record_all (new_history 101)
        [completed_ok s1_decision 1130; completed_failed s1_decision 1500]) == 50)%Q /\
  (success_rate
     (record_all (new_history 101)
        [completed_ok s1_decision 1130; completed_ok s1_decision 1500]) == 100)%Q /\
  success_rate
    (record_all (new_history 101)
       (repeat (completed_ok s1_decision 1130) 29
        ++ repeat (completed_failed s1_decision 1500) 71))
  = (8162774324609023 # 281474976710656)%Q.
Proof.
  split; [|split].
  - rewrite (proj2 (proj2 (proj2 (proj2 (success_rate_is_a_percentage 101
               [completed_ok s1_decision 1130; completed_failed s1_decision 1500])))));
      [vm_compute; reflexivity|discriminate].
  - apply (proj1 (proj2 (proj2 (proj2 (success_rate_is_a_percentage 101
               [completed_ok s1_decision 1130; completed_ok s1_decision 1500])))));
      [discriminate|reflexivity].
  - rewrite (proj2 (proj2 (proj2 (proj2 (success_rate_is_a_percentage 101
               (repeat (completed_ok s1_decision 1130) 29
                ++ repeat (completed_failed s1_decision 1500) 71))))));
      [vm_compute; reflexivity|vm_compute; discriminate].
Defined.

(** ** Parsing a container policy *)

Lemma ScalingThresholds_init_ok (t t' : ScalingThresholds) :
  ScalingThresholds_init t = Ok t' -> t' = t /\ thresholds_valid t = true.
Proof.
  unfold ScalingThresholds_init.
  destruct (Qltb 0 (cpu_scale_up t) && Qle_bool (cpu_scale_up t) 100) eqn:H1;
    cbn [negb]; [|discriminate].
  destruct (Qltb 0 (cpu_scale_down t) && Qle_bool (cpu_scale_down t) 100) eqn:H2;
    cbn [negb]; [|discriminate].
  destruct (Qltb 0 (memory_scale_up t) && Qle_bool (memory_scale_up t) 100) eqn:H3;
    cbn [negb]; [|discriminate].
  destruct (Qltb 0 (memory_scale_down t) && Qle_bool (memory_scale_down t) 100) eqn:H4;
    cbn [negb]; [|discriminate].
  destruct (Qle_bool (cpu_scale_up t) (cpu_scale_down t)) eqn:H5; [discriminate|].
  destruct (Qle_bool (memory_scale_up t) (memory_scale_down t)) eqn:H6; [discriminate|].
  intros Hok; inversion Hok; subst. split; [reflexivity|].
  apply andb_true_iff in H1, H2, H3, H4.
  destruct H1 as [A1 B1], H2 as [A2 B2], H3 as [A3 B3], H4 as [A4 B4].
  unfold thresholds_valid. rewrite A1, B1, A2, B2, A3, B3, A4, B4.
  unfold Qltb. rewrite H5, H6. reflexivity.
Qed.

Lemma ResourceLimits_init_ok (l l' : ResourceLimits) :
  ResourceLimits_init l = Ok l' -> l' = l /\ limits_valid l = true.
Proof.
  unfold ResourceLimits_init, limits_valid.
  destruct (Z.leb_spec (max_cpu_cores l) (min_cpu_cores l)); [discriminate|].
  destruct (Z.leb_spec (max_memory_mb l) (min_memory_mb l)); [discriminate|].
  destruct (Z.leb_spec (cpu_step l) 0); [discriminate|].
  destruct (Z.leb_spec (memory_step_mb l) 0); [discriminate|].
  intros Hok; inversion Hok; subst. split; [reflexivity|].
  rewrite !andb_true_iff, !Z.ltb_lt. lia.
Qed.

Lemma ContainerConfig_init_ok (v : Z) (on : bool) (t : option ScalingThresholds)
    (l : option ResourceLimits) (cooldown periods : Z) (c : ContainerConfig) :
  ContainerConfig_init v on t l cooldown periods = Ok c ->
  c = {| vmid := v; enabled := on;
         thresholds := default class_default_thresholds t;
         limits := default class_default_limits l;
         cooldown_seconds := cooldown; evaluation_periods := periods |} /\
  60 <= cooldown /\ 1 <= periods.
Proof.
  unfold ContainerConfig_init.
  destruct (Z.ltb_spec cooldown 60) as [|Hc];
    [destruct t, l; cbn; discriminate|].
  destruct (Z.ltb_spec periods 1) as [|Hp];
    [destruct t, l; cbn; discriminate|].
  destruct t, l; cbn; intros Hok; inversion Hok; now repeat split.
Qed.

(** X21. A container entry without a [thresholds] section gets the class
    defaults 80/30/85/40, and one without a [limits] section the class
    defaults 1/8/512/8192/1/256: the [default_thresholds] and
    [default_limits] of the file only fill the gaps of a section that is
    there.  [enabled], [cooldown_seconds] and [evaluation_periods] default
    to true, 300 and 3. *)
Theorem file_defaults_only_fill_sections
    (data : ContainerData) (default_thresholds : ScalingThresholds)
    (default_limits : ResourceLimits) (c : ContainerConfig) :
  _parse_container_config data default_thresholds default_limits = Ok c ->
  cd_vmid data = Some (vmid c) /\
  enabled c = default true (cd_enabled data) /\
  cooldown_seconds c = default 300 (cd_cooldown_seconds data) /\
  evaluation_periods c = default 3 (cd_evaluation_periods data) /\
  thresholds c
  = match cd_thresholds data with
    | None => class_default_thresholds
    | Some td =>
        {| cpu_scale_up :=
             default (cpu_scale_up default_thresholds) (td_cpu_scale_up td);
           cpu_scale_down :=
             default (cpu_scale_down default_thresholds) (td_cpu_scale_down td);
           memory_scale_up :=
             default (memory_scale_up default_thresholds) (td_memory_scale_up td);
           memory_scale_down :=
             default (memory_scale_down default_thresholds)
               (td_memory_scale_down td) |}
    end /\
  limits c
  = match cd_limits data with
    | None => class_default_limits
    | Some ld =>
        {| min_cpu_cores := default (min_cpu_cores default_limits) (ld_min_cpu_cores ld);
           max_cpu_cores := default (max_cpu_cores default_limits) (ld_max_cpu_cores ld);
           min_memory_mb := default (min_memory_mb default_limits) (ld_min_memory_mb ld);
           max_memory_mb := default (max_memory_mb default_limits) (ld_max_memory_mb ld);
           cpu_step := default (cpu_step default_limits) (ld_cpu_step ld);
           memory_step_mb :=
             default (memory_step_mb default_limits) (ld_memory_step_mb ld) |}
    end.
Proof.
  unfold _parse_container_config.
  destruct (cd_vmid data) as [v|]; [|discriminate].
  destruct (cd_thresholds data) as [td|].
  - destruct (ScalingThresholds_init _) as [t|e] eqn:Ht; [|discriminate].
    apply ScalingThresholds_init_ok in Ht. destruct Ht as [-> _].
    destruct (cd_limits data) as [ld|].
    + destruct (ResourceLimits_init _) as [l|e] eqn:Hl; [|discriminate].
      apply ResourceLimits_init_ok in Hl. destruct Hl as [-> _].
      intros Hc. apply ContainerConfig_init_ok in Hc. destruct Hc as [-> _].
      now repeat split.
    + intros Hc. apply ContainerConfig_init_ok in Hc. destruct Hc as [-> _].
      now repeat split.
  - destruct (cd_limits data) as [ld|].
    + destruct (ResourceLimits_init _) as [l|e] eqn:Hl; [|discriminate].
      apply ResourceLimits_init_ok in Hl. destruct Hl as [-> _].
      intros Hc. apply ContainerConfig_init_ok in Hc. destruct Hc as [-> _].
      now repeat split.
    + intros Hc. apply ContainerConfig_init_ok in Hc. destruct Hc as [-> _].
      now repeat split.
Qed.

Lemma file_defaults_only_fill_sections_witness :
  (exists c, _parse_container_config bare_container_data file_default_thresholds
               class_default_limits = Ok c /\
             thresholds c = class_default_thresholds) /\
  (exists c, _parse_container_config partial_container_data file_default_thresholds
               class_default_limits = Ok c /\
             thresholds c
             = {| cpu_scale_up := 70; cpu_scale_down := 20;
                  memory_scale_up := 95; memory_scale_down := 30 |}).
Proof.
  split.
  - eexists. split; [reflexivity|].
    apply (file_defaults_only_fill_sections bare_container_data
             file_default_thresholds class_default_limits _ eq_refl).
  - eexists. split; [reflexivity|].
    apply (file_defaults_only_fill_sections partial_container_data
             file_default_thresholds class_default_limits _ eq_refl).
Defined.

(** X22. Every container policy that parses is valid, whatever the defaults
    of the file: each threshold lies in (0, 100], scale-up is above
    scale-down, the minima are below the maxima, the steps are positive, the
    cooldown is at least 60 seconds and there is at least one evaluation
    period.  So no usage meets the scale-up and the scale-down threshold of
    one resource at once.  An entry without [vmid] is refused. *)
Theorem parsed_policy_is_valid
    (data : ContainerData) (default_thresholds : ScalingThresholds)
    (default_limits : ResourceLimits) :
  (cd_vmid data = None ->
   exists msg, _parse_container_config data default_thresholds default_limits
               = Fail (ConfigurationError msg)) /\
  (forall c,
      _parse_container_config data default_thresholds default_limits = Ok c ->
      container_config_valid c = true /\
      (forall x : Q,
          ~ ((cpu_scale_up (thresholds c) <= x)%Q /\
             (x <= cpu_scale_down (thresholds c))%Q) /\
          ~ ((memory_scale_up (thresholds c) <= x)%Q /\
             (x <= memory_scale_down (thresholds c))%Q))).
Proof.
  split.
  - intros Hv. unfold _parse_container_config. rewrite Hv. eauto.
  - intros c Hparse.
    assert (Hvalid : container_config_valid c = true).
    { revert Hparse. unfold _parse_container_config, container_config_valid.
      destruct (cd_vmid data) as [v|]; [|discriminate].
      assert (Hdt : thresholds_valid class_default_thresholds = true) by reflexivity.
      assert (Hdl : limits_valid class_default_limits = true) by reflexivity.
      destruct (cd_thresholds data) as [td|];
        [destruct (ScalingThresholds_init _) as [t|e] eqn:Ht; [|discriminate];
         apply ScalingThresholds_init_ok in Ht; destruct Ht as [-> Ht]|];
        (destruct (cd_limits data) as [ld|];
         [destruct (ResourceLimits_init _) as [l|e] eqn:Hl; [|discriminate];
          apply ResourceLimits_init_ok in Hl; destruct Hl as [-> Hl]|]);
        intros Hc; apply ContainerConfig_init_ok in Hc;
        destruct Hc as (-> & Hcool & Hper);
        cbn [thresholds limits cooldown_seconds evaluation_periods default
               from_option id];
        rewrite ?Ht, ?Hl, ?Hdt, ?Hdl;
        rewrite (proj2 (Z.leb_le _ _) Hcool), (proj2 (Z.leb_le _ _) Hper);
        reflexivity. }
    split; [exact Hvalid|].
    unfold container_config_valid, thresholds_valid in Hvalid.
    rewrite !andb_true_iff in Hvalid.
    destruct Hvalid as [[[[[_ Hcpu] Hmem] _] _] _].
    apply Qltb_true in Hcpu, Hmem.
    intros x. split; intros [Hup Hdown]; lra.
Qed.

Lemma parsed_policy_is_valid_witness :
  exists c, _parse_container_config partial_container_data file_default_thresholds
              class_default_limits = Ok c /\
            container_config_valid c = true.
Proof.
  eexists. split; [reflexivity|].
  apply (proj2 (parsed_policy_is_valid partial_container_data
                  file_default_thresholds class_default_limits) _ eq_refl).
Defined.

(** ** Collecting one container *)

Lemma evaluate_container_scaling_untracked
    (self : ScalingEngine) (cfg : ContainerConfig) (cl : ClusterMetrics) :
  container_metrics self !! vmid cfg = None ->
  emits (_evaluate_container_scaling self cfg cl) NO_ACTION INSUFFICIENT_DATA None None.
Proof. intros H. unfold _evaluate_container_scaling. rewrite H. emitted. Qed.

Lemma evaluate_container_scaling_not_running
    (self : ScalingEngine) (cfg : ContainerConfig) (cl : ClusterMetrics)
    (m : ContainerMetrics) :
  container_metrics self !! vmid cfg = Some m ->
  cm_status m <> "running"%string ->
  emits (_evaluate_container_scaling self cfg cl)
        NO_ACTION CONTAINER_NOT_RUNNING None None.
Proof.
  intros H Hs. unfold _evaluate_container_scaling.
  rewrite H, (proj2 (String.eqb_neq _ _) Hs). emitted.
Qed.

(** X23. While a container is reported as not running, collecting it only
    updates its status: the window and the current sample of a tracked
    container stay as they are, an untracked container stays untracked, and
    the engine answers [CONTAINER_NOT_RUNNING] for the former and
    [INSUFFICIENT_DATA] for the latter. *)
Theorem stopped_container_keeps_its_window
    (now : Q) (cm : gmap Z ContainerMetrics) (v : Z) (node : string)
    (status : StatusDoc) (config : ConfigDoc) (rrd_data : list RrdPoint) :
  node <> EmptyString ->
  sd_status status <> Some "running"%string ->
  let cm' :=
    _collect_single_container_metrics now cm v (Located (Some node))
      (Gathered status config rrd_data) in
  (forall m, cm !! v = Some m ->
     exists m',
       cm' !! v = Some m' /\
       historical_metrics m' = historical_metrics m /\
       current_metrics m' = current_metrics m /\
       cm_status m' = default "unknown"%string (sd_status status) /\
       forall self cfg cl,
         container_metrics self = cm' -> vmid cfg = v ->
         emits (_evaluate_container_scaling self cfg cl)
               NO_ACTION CONTAINER_NOT_RUNNING None None) /\
  (cm !! v = None ->
   cm' = cm /\
   forall self cfg cl,
     container_metrics self = cm' -> vmid cfg = v ->
     emits (_evaluate_container_scaling self cfg cl)
           NO_ACTION INSUFFICIENT_DATA None None).
Proof.
  intros Hnode Hstatus cm'. subst cm'. unfold _collect_single_container_metrics.
  destruct node as [|a node]; [congruence|].
  rewrite bool_decide_eq_false_2 by exact Hstatus. cbn [negb].
  assert (Hnot : default "unknown"%string (sd_status status) <> "running"%string).
  { destruct (sd_status status) as [s|]; cbn; [congruence|discriminate]. }
  split.
  - intros m Hm. rewrite Hm. eexists. split; [apply lookup_insert_eq|].
    repeat split. intros self cfg cl Hself Hv.
    eapply evaluate_container_scaling_not_running.
    + rewrite Hself, Hv. apply lookup_insert_eq.
    + exact Hnot.
  - intros Hnone. rewrite Hnone. split; [reflexivity|].
    intros self cfg cl Hself Hv.
    apply evaluate_container_scaling_untracked. now rewrite Hself, Hv.
Qed.

Lemma stopped_container_keeps_its_window_witness :
  exists m',
    _collect_single_container_metrics 1180 s1_tracked 101 (Located (Some "pve"%string))
      (Gathered stopped_status ct_config [rrd_lagging]) !! 101 = Some m' /\
    historical_metrics m' = s1_samples /\ cm_status m' = "stopped"%string.
Proof.
  destruct (proj1 (stopped_container_keeps_its_window 1180 s1_tracked 101 "pve"
                     stopped_status ct_config [rrd_lagging]
                     ltac:(discriminate) ltac:(discriminate))
              s1_container eq_refl)
    as (m' & Hm' & Hhist & _ & Hstatus & _).
  exists m'. split; [exact Hm'|]. split; [exact Hhist|exact Hstatus].
Defined.

(** X24. A [not found] answer, from locating the container or from its
    status, config and time-series calls, removes the container from the
    collector, and the engine then answers [INSUFFICIENT_DATA].  Every other
    failure, and a container that is on no node, leaves the collector as it
    was, old window and status included.  No answer touches another
    container. *)
Theorem vanished_container_is_forgotten
    (now : Q) (cm : gmap Z ContainerMetrics) (v : Z) (found : located)
    (answers : gathered) :
  let cm' := _collect_single_container_metrics now cm v found answers in
  (forall v', v' <> v -> cm' !! v' = cm !! v') /\
  ((found = LocateRaised NotFound \/
    exists node, node <> EmptyString /\ found = Located (Some node) /\
                 answers = GatherRaised NotFound) ->
   cm' !! v = None /\
   forall self cfg cl,
     container_metrics self = cm' -> vmid cfg = v ->
     emits (_evaluate_container_scaling self cfg cl)
           NO_ACTION INSUFFICIENT_DATA None None) /\
  ((found = Located None \/
    (exists e, e <> NotFound /\ found = LocateRaised e) \/
    (exists node e, e <> NotFound /\ found = Located (Some node) /\
                    answers = GatherRaised e)) ->
   cm' = cm).
Proof.
  intros cm'. subst cm'. unfold _collect_single_container_metrics, collect_failed.
  split; [|split].
  - intros v' Hne.
    destruct found as [[]|[[|a node]|]]; try reflexivity;
      try (now apply lookup_delete_ne).
    destruct answers as [[]|status config rrd_data]; try reflexivity;
      try (now apply lookup_delete_ne).
    destruct (negb _).
    + destruct (cm !! v); [now apply lookup_insert_ne|reflexivity].
    + destruct (last rrd_data); now apply lookup_insert_ne.
  - intros Hgone.
    destruct Hgone as [->|(node & Hnode & -> & ->)].
    + split; [apply lookup_delete_eq|]. intros self cfg cl Hself Hv.
      apply evaluate_container_scaling_untracked. rewrite Hself, Hv.
      apply lookup_delete_eq.
    + destruct node as [|a node]; [congruence|].
      split; [apply lookup_delete_eq|]. intros self cfg cl Hself Hv.
      apply evaluate_container_scaling_untracked. rewrite Hself, Hv.
      apply lookup_delete_eq.
  - intros [->|[(e & He & ->)|(node & e & He & -> & ->)]].
    + reflexivity.
    + destruct e; [congruence|reflexivity|reflexivity].
    + destruct node; [reflexivity|]. destruct e; [congruence|reflexivity|reflexivity].
Qed.

Lemma vanished_container_is_forgotten_witness :
  _collect_single_container_metrics 1180 s1_tracked 101 (Located (Some "pve"%string))
    (GatherRaised NotFound) !! 101 = None /\
  _collect_single_container_metrics 1180 s1_tracked 101 (Located None)
    (GatherRaised NotFound) = s1_tracked.
Proof.
  split.
  - apply (proj1 (proj2 (vanished_container_is_forgotten 1180 s1_tracked 101
                           (Located (Some "pve"%string)) (GatherRaised NotFound)))).
    right. exists "pve"%string. repeat split. discriminate.
  - apply (proj2 (proj2 (vanished_container_is_forgotten 1180 s1_tracked 101
                           (Located None) (GatherRaised NotFound)))).
    now left.
Defined.

(** X25. Collecting a running container tracks it under the node that was
    found and appends one sample, built from the last point of the time
    series, to its window, which keeps the last 100; with an empty series
    the window is left as it is. *)
Theorem running_container_gets_one_sample
    (now : Q) (cm : gmap Z ContainerMetrics) (v : Z) (node : string)
    (status : StatusDoc) (config : ConfigDoc) (rrd_data : list RrdPoint) :
  node <> EmptyString ->
  sd_status status = Some "running"%string ->
  let cm' :=
    _collect_single_container_metrics now cm v (Located (Some node))
      (Gathered status config rrd_data) in
  let window :=
    match cm !! v with Some m => historical_metrics m | None => [] end in
  exists m',
    cm' !! v = Some m' /\
    cm_status m' = "running"%string /\ cm_node m' = node /\
    historical_metrics m'
    = match last rrd_data with
      | Some latest =>
          keep_last 100 (window ++ [from_rrd_data now latest (cf_cores config)])
      | None => window
      end /\
    (forall latest, last rrd_data = Some latest ->
       current_metrics m' = Some (from_rrd_data now latest (cf_cores config)) /\
       (length (historical_metrics m') <= 100)%nat).
Proof.
  intros Hnode Hstatus cm' window. subst cm' window.
  unfold _collect_single_container_metrics.
  destruct node as [|a node]; [congruence|].
  rewrite bool_decide_eq_true_2 by exact Hstatus. cbn [negb]. rewrite Hstatus.
  cbn [default from_option id].
  destruct (last rrd_data) as [latest|].
  - eexists. split; [apply lookup_insert_eq|].
    rewrite add_metrics_history.
    cbn [add_metrics set_status_uptime_node cm_status cm_node current_metrics
           historical_metrics].
    split; [reflexivity|]. split; [reflexivity|]. split.
    + destruct (cm !! v); reflexivity.
    + intros latest' Heq. injection Heq as <-. split; [reflexivity|].
      rewrite keep_last_length. lia.
  - eexists. split; [apply lookup_insert_eq|].
    cbn [set_status_uptime_node cm_status cm_node historical_metrics].
    split; [reflexivity|]. split; [reflexivity|]. split.
    + destruct (cm !! v); reflexivity.
    + discriminate.
Qed.

Lemma running_container_gets_one_sample_witness :
  exists m',
    _collect_single_container_metrics 1180 s1_tracked 101 (Located (Some "pve"%string))
      (Gathered running_status ct_config [rrd_without_time; rrd_lagging]) !! 101
    = Some m' /\
    historical_metrics m' = s1_samples ++ [from_rrd_data 1180 rrd_lagging (Some 2)].
Proof.
  destruct (running_container_gets_one_sample 1180 s1_tracked 101 "pve"
              running_status ct_config [rrd_without_time; rrd_lagging]
              ltac:(discriminate) eq_refl)
    as (m' & Hm' & _ & _ & Hhist & _).
  exists m'. split; [exact Hm'|]. rewrite Hhist. reflexivity.
Defined.

(** ** The pause between two cycles *)

Lemma inject_Z_pred (n : Z) : (inject_Z (n - 1) == inject_Z n - 1)%Q.
Proof.
  unfold Z.sub. rewrite inject_Z_plus, inject_Z_opp.
  change (inject_Z 1) with 1%Q. ring.
Qed.

Lemma Qceiling_unique (x : Q) (n : Z) :
  (inject_Z n - 1 < x)%Q -> (x <= inject_Z n)%Q -> Qceiling x = n.
Proof.
  intros Hlo Hhi.
  pose proof (Qle_ceiling x) as Hc. pose proof (Qceiling_lt x) as Hl.
  rewrite inject_Z_pred in Hl.
  assert (H1 : (inject_Z (n - 1) < inject_Z (Qceiling x))%Q)
    by (rewrite inject_Z_pred; lra).
  assert (H2 : (inject_Z (Qceiling x - 1) < inject_Z n)%Q)
    by (rewrite inject_Z_pred; lra).
  rewrite <- Zlt_Qlt in H1, H2. lia.
Qed.

Lemma Qceiling_pos (x : Q) : (0 < x)%Q -> 0 < Qceiling x.
Proof.
  intros Hx. pose proof (Qle_ceiling x) as Hc.
  assert (H : (inject_Z 0 < inject_Z (Qceiling x))%Q)
    by (change (inject_Z 0) with 0%Q; lra).
  now rewrite <- Zlt_Qlt in H.
Qed.

Lemma Qceiling_nonpos (x : Q) : (x <= 0)%Q -> Qceiling x <= 0.
Proof.
  intros Hx. apply Qceiling_resp_le in Hx. exact Hx.
Qed.

Lemma Qceiling_minus_1 (x y : Q) : (y == x - 1)%Q -> Qceiling y = Qceiling x - 1.
Proof.
  intros Hy. apply Qceiling_unique.
  - pose proof (Qceiling_lt x) as Hl. rewrite !inject_Z_pred in *. lra.
  - pose proof (Qle_ceiling x) as Hc. rewrite inject_Z_pred. lra.
Qed.

Ltac reflect_Q :=
  repeat match goal with
         | H : Qltb _ _ = true |- _ => apply Qltb_true in H
         | H : Qltb _ _ = false |- _ => apply Qltb_false in H
         end.

Lemma py_max0_nonpos (x : Q) : (x <= 0)%Q -> py_max0 x = 0%Q.
Proof.
  intros Hx. unfold py_max0. now rewrite (proj2 (Qltb_false 0 x) Hx).
Qed.

Lemma sleep_loop_chunks (should_stop : nat -> bool) (sleep_time : Q) (fuel : nat) :
  forall (sleep_elapsed : Q) (k : nat),
    (Z.to_nat (Qceiling (sleep_time - sleep_elapsed)) <= fuel)%nat ->
    exists chunks,
      sleep_loop fuel should_stop sleep_time sleep_elapsed k = Some chunks /\
      Forall (fun c => (0 < c <= 1)%Q) chunks /\
      (0 <= Qsum chunks <= py_max0 (sleep_time - sleep_elapsed))%Q /\
      ((forall j, should_stop j = false) ->
       (Qsum chunks == py_max0 (sleep_time - sleep_elapsed))%Q /\
       length chunks = Z.to_nat (Qceiling (sleep_time - sleep_elapsed))).
Proof.
  induction fuel as [|fuel IH]; intros elapsed k Hfuel; cbn [sleep_loop].
  - destruct (Qltb elapsed sleep_time) eqn:Hlt; cbn [andb].
    + apply Qltb_true in Hlt.
      pose proof (Qceiling_pos (sleep_time - elapsed) ltac:(lra)). lia.
    + apply Qltb_false in Hlt. exists []. split; [reflexivity|].
      split; [constructor|]. pose proof (py_max0_nonneg (sleep_time - elapsed)).
      change (Qsum []) with 0%Q. split; [split; lra|]. intros _.
      assert (Hz : py_max0 (sleep_time - elapsed) = 0%Q)
        by (apply py_max0_nonpos; lra).
      rewrite Hz. split; [reflexivity|].
      pose proof (Qceiling_nonpos (sleep_time - elapsed) ltac:(lra)).
      cbn [length]. lia.
  - destruct (Qltb elapsed sleep_time) eqn:Hlt; cbn [andb].
    + apply Qltb_true in Hlt.
      assert (Hceil : Qceiling (sleep_time - (elapsed + 1))
                      = Qceiling (sleep_time - elapsed) - 1)
        by (apply Qceiling_minus_1; ring).
      pose proof (Qceiling_pos (sleep_time - elapsed) ltac:(lra)) as Hpos.
      destruct (IH (elapsed + 1)%Q (S k)) as (rest & Hrest & Hall & Hsum & Hfull);
        [rewrite Hceil; lia|].
      assert (Hmax : (py_min1 (sleep_time - elapsed)
                      + py_max0 (sleep_time - (elapsed + 1))
                      == py_max0 (sleep_time - elapsed))%Q).
      { unfold py_min1, py_max0.
        destruct (Qltb (sleep_time - elapsed) 1) eqn:H1;
          destruct (Qltb 0 (sleep_time - (elapsed + 1))) eqn:H2;
          destruct (Qltb 0 (sleep_time - elapsed)) eqn:H3;
          reflect_Q; lra. }
      assert (Hchunk : (0 < py_min1 (sleep_time - elapsed) <= 1)%Q).
      { unfold py_min1. destruct (Qltb (sleep_time - elapsed) 1) eqn:H1;
          reflect_Q; lra. }
      destruct (should_stop k) eqn:Hstop; cbn [negb].
      * exists []. split; [reflexivity|]. split; [constructor|].
        pose proof (py_max0_nonneg (sleep_time - elapsed)).
        change (Qsum []) with 0%Q. split; [split; lra|].
        intros Hnever. rewrite Hnever in Hstop. discriminate.
      * rewrite Hrest. eexists. split; [reflexivity|].
        split; [now constructor|].
        unfold Qsum. cbn [fold_right]. fold (Qsum rest).
        split; [split; lra|]. intros Hnever. destruct (Hfull Hnever) as [Hs Hl].
        split; [rewrite Hs; exact Hmax|]. cbn [length]. rewrite Hl, Hceil. lia.
    + apply Qltb_false in Hlt. exists []. split; [reflexivity|].
      split; [constructor|]. pose proof (py_max0_nonneg (sleep_time - elapsed)).
      change (Qsum []) with 0%Q. split; [split; lra|]. intros _.
      assert (Hz : py_max0 (sleep_time - elapsed) = 0%Q)
        by (apply py_max0_nonpos; lra).
      rewrite Hz. split; [reflexivity|].
      pose proof (Qceiling_nonpos (sleep_time - elapsed) ltac:(lra)).
      cbn [length]. lia.
Qed.

(** X26. After a cycle the daemon sleeps in steps of at most one second,
    for no longer than [max(0, monitoring_interval - cycle_duration)]
    altogether; when no stop is requested it sleeps exactly that long, so a
    cycle shorter than the interval is followed by the next one an interval
    after its start, and a longer one right away.  The loop ends within
    [ceil(sleep_time)] rounds. *)
Theorem pause_fills_the_interval
    (should_stop : nat -> bool) (monitoring_interval : Z) (cycle_duration : Q)
    (fuel : nat) :
  let sleep_time := py_max0 (inject_Z monitoring_interval - cycle_duration)%Q in
  (Z.to_nat (Qceiling sleep_time) <= fuel)%nat ->
  exists chunks,
    pause_after_cycle fuel should_stop monitoring_interval cycle_duration
    = Some chunks /\
    Forall (fun c => (0 < c <= 1)%Q) chunks /\
    (0 <= Qsum chunks <= sleep_time)%Q /\
    ((forall j, should_stop j = false) ->
     (Qsum chunks == sleep_time)%Q /\
     length chunks = Z.to_nat (Qceiling sleep_time) /\
     ((cycle_duration <= inject_Z monitoring_interval)%Q ->
      (cycle_duration + Qsum chunks == inject_Z monitoring_interval)%Q) /\
     ((inject_Z monitoring_interval <= cycle_duration)%Q -> chunks = [])).
Proof.
  intros sleep_time Hfuel. unfold pause_after_cycle. fold sleep_time.
  assert (Hr : (sleep_time - 0 == sleep_time)%Q) by ring.
  assert (Hc : Qceiling (sleep_time - 0) = Qceiling sleep_time)
    by (apply Qceiling_comp; exact Hr).
  assert (Hm : (py_max0 (sleep_time - 0) == sleep_time)%Q).
  { unfold py_max0. destruct (Qltb 0 (sleep_time - 0)) eqn:H0;
      reflect_Q; [lra|].
    pose proof (py_max0_nonneg (inject_Z monitoring_interval - cycle_duration)).
    fold sleep_time in H. lra. }
  destruct (sleep_loop_chunks should_stop sleep_time fuel 0%Q 0%nat)
    as (chunks & Hrun & Hall & Hsum & Hfull); [rewrite Hc; exact Hfuel|].
  exists chunks. split; [exact Hrun|]. split; [exact Hall|].
  split; [rewrite <- Hm; exact Hsum|].
  intros Hnever. destruct (Hfull Hnever) as [Hs Hl].
  assert (Hs' : (Qsum chunks == sleep_time)%Q) by (rewrite Hs; exact Hm).
  split; [exact Hs'|]. split; [rewrite Hl, Hc; reflexivity|]. split.
  - intros Hshort. rewrite Hs'. subst sleep_time. unfold py_max0.
    destruct (Qltb 0 (inject_Z monitoring_interval - cycle_duration)) eqn:H0;
      reflect_Q; lra.
  - intros Hlong.
    assert (Hzero : Qceiling sleep_time <= 0).
    { apply Qceiling_nonpos. subst sleep_time. unfold py_max0.
      destruct (Qltb 0 (inject_Z monitoring_interval - cycle_duration)) eqn:H0;
        reflect_Q; lra. }
    destruct chunks; [reflexivity|]. rewrite Hc in Hl. cbn [length] in Hl. lia.
Qed.

Lemma pause_fills_the_interval_witness :
  pause_after_cycle 58 (fun _ => false) 60 (5 # 2)
  = Some (repeat 1%Q 57 ++ [(1 # 2)%Q]).
Proof.
  destruct (pause_fills_the_interval (fun _ => false) 60 (5 # 2) 58)
    as (chunks & Hrun & _); [vm_compute; lia|].
  rewrite Hrun. vm_compute in Hrun. injection Hrun as <-.
  vm_compute. reflexivity.
Defined.

(** ** Status and health of the engine *)

Lemma total_operations_insert (m : gmap Z ScalingHistory) (k : Z)
    (h : ScalingHistory) :
  total_operations (<[k := h]> m)
  = total_operations m + operation_count h
    - operation_count (default (new_history k) (m !! k)).
Proof.
  unfold total_operations.
  assert (Hcomm : forall (m' : gmap Z ScalingHistory) (j1 j2 : Z)
                         (z1 z2 : ScalingHistory) (y : Z),
             j1 <> j2 -> m' !! j1 = Some z1 -> m' !! j2 = Some z2 ->
             y + operation_count z2 + operation_count z1
             = y + operation_count z1 + operation_count z2) by (intros; lia).
  destruct (m !! k) as [old|] eqn:Hk; cbn [default from_option id new_history
                                             operation_count].
  - rewrite (map_fold_delete_L _ 0 k old m (Hcomm m) Hk).
    rewrite <- (insert_delete_eq m k h).
    rewrite (map_fold_insert_L _ 0 k h (delete k m) (Hcomm _) (lookup_delete_eq m k)).
    lia.
  - rewrite (map_fold_insert_L _ 0 k h m (Hcomm _) Hk). lia.
Qed.

Lemma execute_scaling_decision_accounted (gw : Gateway) (st st1 : ScalingEngine)
    (d : ScalingDecision) (ok : bool) :
  0 < operation_semaphore st ->
  accounted st ->
  snd (_execute_scaling_decision gw st d) = Finished st1 (Returned ok) ->
  accounted st1 /\
  operation_semaphore st1 = operation_semaphore st /\
  (active_operations st = ∅ -> active_operations st1 = ∅).
Proof.
  intros Hsem Hacc Hrun.
  destruct (requires_scaling d) eqn:Hscale;
    [destruct (dry_run (config st)) eqn:Hdry|].
  2: { destruct (resize_outcome (gw (resize_calls st) (resize_call_of d)))
         as [[]|e] eqn:Hout; [|destruct (is_Exception e) eqn:He].
       3: { exfalso. revert Hrun. unfold _execute_scaling_decision.
            rewrite Hscale, Hdry. cbn [negb set_active operation_semaphore].
            destruct (Z.leb_spec (operation_semaphore st) 0) as [Hz|_]; [lia|].
            unfold _perform_scaling. fold (resize_call_of d).
            cbn [set_semaphore set_active resize_calls]. rewrite Hout, He.
            discriminate. }
       all: destruct (execute_scaling_decision_performed gw st d Hscale Hdry Hsem)
         as (st' & op & Hrun' & Hcalls & _ & Hactive & Hperm & _ & _ & _ & _
             & Hdone & _ & Hhist); [now rewrite Hout|];
         rewrite Hrun in Hrun'; inversion Hrun'; subst st'; clear Hrun';
         (split; [|split; [exact Hperm|intros Hempty; rewrite Hactive, Hempty;
                                        apply delete_empty]]);
         unfold accounted, get_scaling_status in *;
         cbn [status_total_operations] in *;
         fold (total_operations (scaling_history st1));
         fold (total_operations (scaling_history st)) in Hacc;
         rewrite Hhist, total_operations_insert, Hcalls, length_app, Hacc;
         unfold record_operation, is_completed; rewrite Hdone;
         cbn [negb operation_count length]; lia. }
  - revert Hrun. unfold _execute_scaling_decision. rewrite Hscale, Hdry. cbn [negb snd].
    intros Hr; inversion Hr; subst. now repeat split.
  - revert Hrun. unfold _execute_scaling_decision. rewrite Hscale. cbn [negb snd].
    intros Hr; inversion Hr; subst. now repeat split.
Qed.

Lemma execute_all_accounted (gw : Gateway) (decisions : list ScalingDecision) :
  forall (st st' : ScalingEngine) (executed out : list ScalingDecision),
    0 < operation_semaphore st ->
    accounted st ->
    snd (execute_all gw st decisions executed) = Finished st' (Returned out) ->
    accounted st' /\
    operation_semaphore st' = operation_semaphore st /\
    (active_operations st = ∅ -> active_operations st' = ∅).
Proof.
  induction decisions as [|d rest IH]; intros st st' executed out Hsem Hacc;
    cbn [execute_all].
  - cbn. intros Hr; inversion Hr; subst. now repeat split.
  - destruct (requires_scaling d) eqn:Hscale; [|now apply IH].
    destruct (_execute_scaling_decision gw st d) as [states [st1 [ok|e]|st1]] eqn:Hx;
      cbn [snd]; try discriminate.
    destruct (execute_scaling_decision_accounted gw st st1 d ok Hsem Hacc)
      as (Hacc1 & Hperm1 & Hact1); [now rewrite Hx|].
    destruct (execute_all gw st1 rest _) as [states' r] eqn:Hrest.
    cbn [snd]. intros ->.
    destruct (IH st1 st' (if ok then executed ++ [d] else executed) out)
      as (Hacc' & Hperm' & Hact'); [lia|exact Hacc1|now rewrite Hrest|].
    split; [exact Hacc'|]. split; [lia|]. auto.
Qed.

(** X27. The status report accounts for every resize: a new engine reports
    0 total operations, and after every tick that returns, dry run or not,
    [total_operations] is the number of resize calls sent to the cluster so
    far and no operation is left registered. *)
Theorem status_accounts_for_every_resize :
  (forall cfg metrics now, accounted (new_engine cfg metrics now)) /\
  (forall (gw : Gateway) (c : Collected) (self st' : ScalingEngine)
          (out : list ScalingDecision),
      0 < operation_semaphore self ->
      active_operations self = ∅ ->
      accounted self ->
      snd (evaluate_and_scale gw c self) = Finished st' (Returned out) ->
      status_total_operations (get_scaling_status st')
      = Z.of_nat (length (resize_calls st')) /\
      status_active_operations (get_scaling_status st') = 0 /\
      0 < operation_semaphore st' /\ active_operations st' = ∅).
Proof.
  split.
  - intros cfg metrics now. unfold accounted, get_scaling_status.
    cbn [status_total_operations new_engine scaling_history resize_calls length].
    now rewrite map_fold_empty.
  - intros gw c self st' out Hsem Hempty Hacc.
    assert (Hacc0 : accounted (after_collect self c)) by exact Hacc.
    unfold evaluate_and_scale.
    assert (Hend : forall st1 : ScalingEngine,
               accounted st1 -> operation_semaphore st1 = operation_semaphore self ->
               active_operations st1 = ∅ ->
               status_total_operations (get_scaling_status st1)
               = Z.of_nat (length (resize_calls st1)) /\
               status_active_operations (get_scaling_status st1) = 0 /\
               0 < operation_semaphore st1 /\ active_operations st1 = ∅).
    { intros st1 Ha Hp He. split; [exact Ha|]. split.
      - unfold get_scaling_status. cbn [status_active_operations].
        now rewrite He, map_size_empty.
      - split; [lia|exact He]. }
    destruct (collected_cluster c) as [cl|e].
    + destruct (negb (_check_cluster_safety _ cl)).
      { cbn [snd]. intros Hr; inversion Hr; subst. now apply Hend. }
      destruct (_generate_scaling_decisions (after_collect self c) cl) as [ds|e].
      * destruct (execute_all gw (after_collect self c) ds []) as [states r] eqn:Hx.
        cbn [snd]. intros Hr.
        assert (Hrun : r = Finished st' (Returned out)).
        { destruct r as [st1 [ds1|e]|st1]; cbn in Hr; [exact Hr| |discriminate].
          destruct (is_Exception e); discriminate. }
        destruct (execute_all_accounted gw ds (after_collect self c) st' [] out)
          as (Ha & Hp & He); [exact Hsem|exact Hacc0|now rewrite Hx|].
        apply Hend; [exact Ha|exact Hp|now apply He].
      * cbn. destruct (is_Exception e); discriminate.
    + cbn. destruct (is_Exception e); discriminate.
Qed.

Lemma status_accounts_for_every_resize_witness :
  status_total_operations (get_scaling_status failed_tick_state) = 1 /\
  status_active_operations (get_scaling_status failed_tick_state) = 0.
Proof.
  destruct (proj2 status_accounts_for_every_resize failing_gateway
              (collected s1_cluster) s1_engine failed_tick_state [])
    as (Htotal & Hactive & _).
  - reflexivity.
  - reflexivity.
  - apply (proj1 status_accounts_for_every_resize).
  - vm_compute. reflexivity.
  - split; [exact Htotal|exact Hactive].
Defined.

(** X28. A health check only reads the engine: it sends no resize, records
    nothing and registers nothing.  Once the collection has succeeded it
    never raises; it answers [True] exactly when the generation of the
    decisions returns, the cluster-safety gate not being consulted. *)
Theorem health_check_only_reads (c : Collected) (self : ScalingEngine) :
  exists st r,
    health_check c self = Finished st r /\
    resize_calls st = resize_calls self /\
    scaling_history st = scaling_history self /\
    active_operations st = active_operations self /\
    operation_semaphore st = operation_semaphore self /\
    (forall cl, collected_cluster c = Returned cl ->
       exists healthy,
         r = Returned healthy /\
         (healthy = true
          <-> exists ds,
                _generate_scaling_decisions (after_collect self c) cl = Returned ds)).
Proof.
  unfold health_check. exists (after_collect self c).
  destruct (collected_cluster c) as [cl|e].
  - destruct (_generate_scaling_decisions (after_collect self c) cl) as [ds|e] eqn:Hgen.
    + eexists. split; [reflexivity|]. repeat split.
      intros cl' Hcl. inversion Hcl; subst cl'. exists true. split; [reflexivity|].
      rewrite Hgen. split; eauto.
    + assert (He : is_Exception e = true).
      { unfold _generate_scaling_decisions in Hgen.
        revert Hgen. generalize (containers (config (after_collect self c))).
        intros cfgs. induction cfgs as [|cfg cfgs IH]; cbn [generate_from];
          [discriminate|].
        destruct (negb (enabled cfg)); [exact IH|].
        destruct (_evaluate_container_scaling _ cfg cl) as [d|e0] eqn:Hev.
        - destruct (generate_from _ cl cfgs) as [ds|e1]; [discriminate|].
          intros Hr; inversion Hr; subst. now apply IH.
        - intros Hr; inversion Hr; subst.
          now apply evaluate_container_scaling_raises in Hev. }
      rewrite He. eexists. split; [reflexivity|]. repeat split.
      intros cl' Hcl. inversion Hcl; subst cl'. exists false. split; [reflexivity|].
      rewrite Hgen. split; [discriminate|]. intros [ds Hds]. discriminate.
  - destruct (is_Exception e); eexists; (split; [reflexivity|]); repeat split;
      discriminate.
Qed.

Lemma health_check_only_reads_witness :
  exists st,
    health_check (collected s1_cluster) s1_engine = Finished st (Returned true) /\
    resize_calls st = [].
Proof.
  destruct (health_check_only_reads (collected s1_cluster) s1_engine)
    as (st & r & Hrun & Hcalls & _ & _ & _ & Hr).
  destruct (Hr s1_cluster eq_refl) as (healthy & -> & Hiff).
  exists st. split.
  - rewrite Hrun. do 2 f_equal. apply Hiff. eexists. vm_compute. reflexivity.
  - exact Hcalls.
Defined.
